(** * NeuroLens2: the realtime assistant components and the two routes

    A shallow embedding of
      - [src/components/RealtimeAssistant.tsx] (the component with camera
        support), module [RealtimeAssistant];
      - the audio-only variant of the same component, module [AudioAssistant];
      - [app/api/describe-scene/route.ts], module [DescribeScene];
      - [app/api/openai-session/route.ts], module [OpenAISession];
      - [src/components/Webcamcomponent.tsx], module [Webcam].

    JavaScript values are the values [JSON.parse] produces; the operators the
    components apply to them ([v.p], [v?.p], [v[0]], truthiness, [+], template
    literals) follow ECMAScript.  Functions that can throw return a
    [Completion]; stateful code runs in a small state-and-exception monad over
    the component's record of React state, refs and observable effects. *)

From Stdlib Require Import String Ascii List Bool ZArith Lia DecimalString.
Import ListNotations.
Open Scope string_scope.
Set Warnings "-register-all".

(** ** Completions and exceptions *)

(** What the engine and the platform raise on the operations used here. *)
Inductive Fault :=
| ReadOfNullish (base_is_null : bool) (prop : string)   (* TypeError: v.p on null / undefined *)
| NotPrimitive                                          (* TypeError: object to primitive *)
| JsonSyntax (raw : string)                             (* SyntaxError of JSON.parse *)
| InvalidChild                                          (* React: objects are not valid as a React child *)
| InvalidStatus (status : Z).                           (* RangeError / TypeError of the Response constructor *)

(** Every value thrown or rejected with in these files is an [Error]; only its
    [message] is ever read. *)
Inductive Exn :=
| UserError (message : string)      (* new Error(message) *)
| EngineError (f : Fault)           (* raised by the engine *)
| Rejection (message : string).     (* a platform promise rejected (fetch, WebRTC, media) *)

Inductive Completion (A : Type) :=
| Normal (a : A)
| Throw (e : Exn).
Arguments Normal {A} a.
Arguments Throw {A} e.

Definition is_throw {A} (c : Completion A) : bool :=
  match c with Throw _ => true | Normal _ => false end.

Definition cbind {A B} (c : Completion A) (k : A -> Completion B) : Completion B :=
  match c with
  | Normal a => k a
  | Throw e => Throw e
  end.

(** ** JavaScript values *)

Module JS.

(** The number type and the engine-specific texts are left to the engine:
    nothing below depends on floating-point arithmetic or on the wording of a
    [TypeError]. *)
Class Engine := {
  number : Type;
  number_truthy : number -> bool;            (* false exactly on +0, -0 and NaN *)
  number_to_string : number -> string;       (* Number::toString *)
  number_add : number -> number -> number;
  number_nan : number;
  number_of_Z : Z -> number;
  number_to_json : number -> option number;  (* what JSON carries of it: nothing of NaN and
                                                the infinities, +0 of -0 *)
  fault_message : Fault -> string
}.

Section Values.
Context {E : Engine}.

Inductive value :=
| Undefined
| Null
| Bool (b : bool)
| Num (n : number)
| Str (s : string)
| Arr (items : list value)
| Obj (fields : list (string * value)).

(** An object is the list of its own properties; a key is looked up from the
    front. *)
Fixpoint lookup (k : string) (fields : list (string * value)) : option value :=
  match fields with
  | [] => None
  | (k', v) :: rest => if String.eqb k k' then Some v else lookup k rest
  end.

Definition nullish (v : value) : bool :=
  match v with Undefined | Null => true | _ => false end.

(** ToBoolean. *)
Definition truthy (v : value) : bool :=
  match v with
  | Undefined | Null => false
  | Bool b => b
  | Num n => number_truthy n
  | Str s => negb (String.eqb s "")
  | Arr _ | Obj _ => true
  end.

(** [v.p], for the property names these files read ([type], [delta],
    [response], [error], [description], ...): none of them is defined on a
    prototype, so only an object's own properties answer. *)
Definition get (v : value) (p : string) : Completion value :=
  match v with
  | Undefined => Throw (EngineError (ReadOfNullish false p))
  | Null => Throw (EngineError (ReadOfNullish true p))
  | Obj fields => Normal (match lookup p fields with Some x => x | None => Undefined end)
  | _ => Normal Undefined
  end.

(** [v[0]]. *)
Definition index0 (v : value) : Completion value :=
  match v with
  | Undefined => Throw (EngineError (ReadOfNullish false "0"))
  | Null => Throw (EngineError (ReadOfNullish true "0"))
  | Arr items => Normal (match items with x :: _ => x | [] => Undefined end)
  | Str s => Normal (match s with String c _ => Str (String c "") | EmptyString => Undefined end)
  | Obj fields => Normal (match lookup "0" fields with Some x => x | None => Undefined end)
  | _ => Normal Undefined
  end.

(** One link of an optional chain: [v?.rest] is [undefined] when [v] is
    nullish and skips the rest of the chain. *)
Definition opt (v : value) (rest : value -> Completion value) : Completion value :=
  if nullish v then Normal Undefined else rest v.

(** [a || b] *)
Definition or_else (a b : value) : value := if truthy a then a else b.

(** ToString.  An array joins its elements with commas, [null] and
    [undefined] elements giving the empty string; an object answers
    ["[object Object]"] unless an own [toString] property (never callable in
    parsed JSON) shadows [Object.prototype.toString], in which case the
    conversion throws. *)
Fixpoint to_string (v : value) : Completion string :=
  match v with
  | Undefined => Normal "undefined"
  | Null => Normal "null"
  | Bool true => Normal "true"
  | Bool false => Normal "false"
  | Num n => Normal (number_to_string n)
  | Str s => Normal s
  | Arr items =>
      let element (x : value) : Completion string :=
        if nullish x then Normal "" else to_string x in
      (fix join (xs : list value) : Completion string :=
         match xs with
         | [] => Normal ""
         | [x] => element x
         | x :: rest =>
             cbind (element x) (fun s =>
             cbind (join rest) (fun t => Normal (s ++ "," ++ t)))
         end) items
  | Obj fields =>
      match lookup "toString" fields with
      | Some _ => Throw (EngineError NotPrimitive)
      | None => Normal "[object Object]"
      end
  end.

(** ToPrimitive: arrays and objects become strings. *)
Definition to_primitive (v : value) : Completion value :=
  match v with
  | Arr _ | Obj _ => cbind (to_string v) (fun s => Normal (Str s))
  | _ => Normal v
  end.

Definition is_string (v : value) : bool :=
  match v with Str _ => true | _ => false end.

(** ToNumber on the primitives that are not strings. *)
Definition to_number (v : value) : number :=
  match v with
  | Num n => n
  | Bool true => number_of_Z 1
  | Bool false | Null => number_of_Z 0
  | _ => number_nan
  end.

(** [a + b] *)
Definition add (a b : value) : Completion value :=
  cbind (to_primitive a) (fun pa =>
  cbind (to_primitive b) (fun pb =>
  if is_string pa || is_string pb then
    cbind (to_string pa) (fun sa =>
    cbind (to_string pb) (fun sb => Normal (Str (sa ++ sb))))
  else Normal (Num (number_add (to_number pa) (to_number pb))))).

(** [error.message] *)
Definition message_of (e : Exn) : string :=
  match e with
  | UserError m => m
  | EngineError f => fault_message f
  | Rejection m => m
  end.

(** [new Error(v)]: the message is [ToString(v)]. *)
Definition new_Error (v : value) : Completion Exn :=
  cbind (to_string v) (fun m => Normal (UserError m)).

(** [JSON.parse(JSON.stringify(v))], what the other side reads of a value
    sent as JSON ([undefined] itself cannot be sent): an object loses the
    properties whose value is [undefined], an [undefined] element of an array
    becomes [null], and so does a number that is not finite.  Of the entries
    of a property list only the first for a key is a property. *)
Fixpoint through_JSON (v : value) : value :=
  match v with
  | Num n => match number_to_json n with Some m => Num m | None => Null end
  | Arr items =>
      Arr (map (fun x => match x with Undefined => Null | _ => through_JSON x end) items)
  | Obj fields =>
      Obj ((fix kept (seen : list string) (fs : list (string * value))
              : list (string * value) :=
              match fs with
              | [] => []
              | (k, x) :: rest =>
                  if existsb (String.eqb k) seen then kept seen rest
                  else
                    match x with
                    | Undefined => kept (k :: seen) rest
                    | _ => (k, through_JSON x) :: kept (k :: seen) rest
                    end
              end) [] fields)
  | _ => v
  end.

End Values.
End JS.

(** ** The monad of the event handlers

    State [S] is threaded through; a [Throw] carries the state reached when
    the exception was raised, so that what was done before it stays done. *)

Definition M (S A : Type) : Type := S -> Completion A * S.

Definition ret {S A} (a : A) : M S A := fun s => (Normal a, s).

Definition bind {S A B} (m : M S A) (k : A -> M S B) : M S B :=
  fun s =>
    match m s with
    | (Normal a, s') => k a s'
    | (Throw e, s') => (Throw e, s')
    end.

Definition throw {S A} (e : Exn) : M S A := fun s => (Throw e, s).

(** [try { body } catch (error) { handler(error) }] *)
Definition try_catch {S A} (body : M S A) (handler : Exn -> M S A) : M S A :=
  fun s =>
    match body s with
    | (Normal a, s') => (Normal a, s')
    | (Throw e, s') => handler e s'
    end.

(** [try { body } finally { final }] *)
Definition try_finally {S A} (body : M S A) (final : M S unit) : M S A :=
  fun s =>
    let '(r, s') := body s in
    match final s' with
    | (Normal _, s'') => (r, s'')
    | (Throw e, s'') => (Throw e, s'')
    end.

Definition lift {S A} (c : Completion A) : M S A := fun s => (c, s).

Definition modify {S} (f : S -> S) : M S unit := fun s => (Normal tt, f s).

Definition read {S A} (f : S -> A) : M S A := fun s => (Normal (f s), s).

Declare Scope js_scope.
Delimit Scope js_scope with js.
Notation "x <- m ;; k" := (bind m (fun x => k))
  (at level 61, m at next level, right associativity) : js_scope.
Notation "m ;; k" := (bind m (fun _ => k))
  (at level 61, right associativity) : js_scope.
Open Scope js_scope.

Definition exec {S A} (m : M S A) (s : S) : S := snd (m s).
Definition outcome {S A} (m : M S A) (s : S) : Completion A := fst (m s).

(** ** Browser objects and observable effects *)

Module Browser.
Section Browser.
Context {E : JS.Engine}.
Import JS.

Inductive TrackKind := AudioKind | VideoKind.

(** A [MediaStreamTrack]; streams sharing a track share its identity, and
    [track.stop()] is recorded per identity. *)
Record Track := { track_id : nat; track_kind : TrackKind }.

Definition MediaStream := list Track.

Definition is_audio (t : Track) : bool :=
  match track_kind t with AudioKind => true | VideoKind => false end.
Definition is_video (t : Track) : bool :=
  match track_kind t with VideoKind => true | AudioKind => false end.

Definition getAudioTracks (ms : MediaStream) : MediaStream := filter is_audio ms.
Definition getVideoTracks (ms : MediaStream) : MediaStream := filter is_video ms.
Definition getTracks (ms : MediaStream) : list Track := ms.

Inductive ConnectionState :=
| PcNew | PcConnecting | PcConnected | PcDisconnected | PcFailed | PcClosed.

Record PeerConnection := {
  connectionState : ConnectionState;
  senders : list Track            (* tracks given to addTrack *)
}.

Definition new_RTCPeerConnection : PeerConnection :=
  {| connectionState := PcNew; senders := [] |}.

(** [pc.close()], as far as the connection object goes.  A data channel is a
    record of its own, held by a ref of its own, and keeps the [readyState]
    it was last seen with: what the transport does to a channel (opening it,
    closing it with its connection) is not followed. *)
Definition pc_close (pc : PeerConnection) : PeerConnection :=
  {| connectionState := PcClosed; senders := senders pc |}.

Definition pc_addTrack (t : Track) (pc : PeerConnection) : PeerConnection :=
  {| connectionState := connectionState pc; senders := senders pc ++ [t] |}.

Definition is_connected (pc : PeerConnection) : bool :=
  match connectionState pc with PcConnected => true | _ => false end.

Inductive ReadyState := DcConnecting | DcOpen | DcClosing | DcClosed.

Record DataChannel := { label : string; readyState : ReadyState }.

Definition createDataChannel (l : string) : DataChannel :=
  {| label := l; readyState := DcConnecting |}.

Definition dc_close (dc : DataChannel) : DataChannel :=
  {| label := label dc; readyState := DcClosed |}.

Definition is_open (dc : DataChannel) : bool :=
  match readyState dc with DcOpen => true | _ => false end.

(** The [<video>] element, as far as the component writes it. *)
Record VideoElement := { srcObject : option MediaStream }.

(** A [fetch] response: [json()] and [text()] may reject. *)
Record Response := {
  ok : bool;
  status : Z;
  json : Completion value;
  text : Completion string
}.

(** The [<audio>] element the components create for playback. *)
Record AudioElement := {
  autoplay : bool;
  in_document : bool;                       (* it has a parentNode *)
  audio_srcObject : option MediaStream
}.

(** What a call leaves behind for an observer, oldest first.  Console calls
    keep their leading literal; [Send] and [Request] keep the value handed to
    [JSON.stringify] (or the string sent as it is). *)
Inductive Effect :=
| ConsoleLog (label : string)
| ConsoleWarn (label : string)
| ConsoleError (label : string)
| Alert (text : string)
| Send (payload : value)
| Request (url : string) (body : value)
| ClosePeerConnection
| CloseDataChannel.

Definition is_send (e : Effect) : bool :=
  match e with Send _ => true | _ => false end.
Definition is_alert (e : Effect) : bool :=
  match e with Alert _ => true | _ => false end.
Definition is_request (e : Effect) : bool :=
  match e with Request _ _ => true | _ => false end.

(** The messages sent on the data channel, the alerts and the HTTP requests of
    a trace. *)
Definition sent (t : list Effect) : list Effect := filter is_send t.
Definition alerts (t : list Effect) : list Effect := filter is_alert t.
Definition requests (t : list Effect) : list Effect := filter is_request t.

(** The data of a message event, by what [JSON.parse] makes of it. *)
Inductive MessageData :=
| NotJSON (raw : string)
| JSONText (v : value).

Definition JSON_parse (d : MessageData) : Completion value :=
  match d with
  | NotJSON raw => Throw (EngineError (JsonSyntax raw))
  | JSONText v => Normal v
  end.

(** What React takes as a child of an element: a text or a number is shown,
    [null], [undefined] and the booleans show nothing, an array is taken
    element by element, and a plain object is refused. *)
Fixpoint valid_child (v : value) : bool :=
  match v with
  | Obj _ => false
  | Arr items => forallb valid_child items
  | _ => true
  end.

(** The child [{v || "placeholder"}] of an element. *)
Definition child (v : value) (placeholder : string) : Completion value :=
  let shown := or_else v (Str placeholder) in
  if valid_child shown then Normal shown else Throw (EngineError InvalidChild).

(** [v === "literal"] *)
Definition strict_eq_string (v : value) (s : string) : bool :=
  match v with Str t => String.eqb t s | _ => false end.

(** [switch (v) { case l1: b1; break; ... default: d }], every case ending in
    [break]: the first matching label wins. *)
Fixpoint switch {S} (v : value) (cases : list (string * M S unit)) (default : M S unit)
  : M S unit :=
  match cases with
  | [] => default
  | (l, body) :: rest => if strict_eq_string v l then body else switch v rest default
  end.

(** [tracks.forEach(track => track.stop())] on the set of stopped tracks. *)
Definition stop_all (tracks : list Track) (stopped : list nat) : list nat :=
  stopped ++ map track_id tracks.

Definition all_stopped (tracks : list Track) (stopped : list nat) : Prop :=
  forall t, In t tracks -> In (track_id t) stopped.

End Browser.
End Browser.

(** ** The component of [RealtimeAssistant.tsx] *)

Module RealtimeAssistant.
Section Component.
Context {E : JS.Engine}.
Import JS Browser.

(** The [useState] cells, as of the last render. *)
Record ReactState := {
  isConnected : bool;
  transcription : value;
  responseText : value;
  sceneDescription : value;
  isVideoEnabled : bool;
  videoError : option string;
  isProcessingScene : bool
}.

Definition initialState : ReactState :=
  {| isConnected := false; transcription := Str ""; responseText := Str "";
     sceneDescription := Str ""; isVideoEnabled := false; videoError := None;
     isProcessingScene := false |}.

(** The argument of a setter of a text cell: a value, or the updater
    [(prev) => prev + msg.delta], which reads [msg.delta] when React runs it. *)
Inductive Update :=
| SetTo (v : value)
| PlusDeltaOf (msg : value).

Inductive StateUpdate :=
| SetIsConnected (b : bool)
| SetTranscription (u : Update)
| SetResponseText (u : Update)
| SetSceneDescription (v : value)
| SetIsVideoEnabled (b : bool)
| SetVideoError (e : option string)
| SetIsProcessingScene (b : bool).

Definition next (u : Update) (prev : value) : Completion value :=
  match u with
  | SetTo v => Normal v
  | PlusDeltaOf msg => cbind (get msg "delta") (fun d => add prev d)
  end.

(** React applying one queued update; an updater that throws fails the render. *)
Definition apply_update (st : ReactState) (u : StateUpdate) : Completion ReactState :=
  match u with
  | SetIsConnected b =>
      Normal {| isConnected := b; transcription := transcription st;
                responseText := responseText st; sceneDescription := sceneDescription st;
                isVideoEnabled := isVideoEnabled st; videoError := videoError st;
                isProcessingScene := isProcessingScene st |}
  | SetTranscription u =>
      cbind (next u (transcription st)) (fun v =>
      Normal {| isConnected := isConnected st; transcription := v;
                responseText := responseText st; sceneDescription := sceneDescription st;
                isVideoEnabled := isVideoEnabled st; videoError := videoError st;
                isProcessingScene := isProcessingScene st |})
  | SetResponseText u =>
      cbind (next u (responseText st)) (fun v =>
      Normal {| isConnected := isConnected st; transcription := transcription st;
                responseText := v; sceneDescription := sceneDescription st;
                isVideoEnabled := isVideoEnabled st; videoError := videoError st;
                isProcessingScene := isProcessingScene st |})
  | SetSceneDescription v =>
      Normal {| isConnected := isConnected st; transcription := transcription st;
                responseText := responseText st; sceneDescription := v;
                isVideoEnabled := isVideoEnabled st; videoError := videoError st;
                isProcessingScene := isProcessingScene st |}
  | SetIsVideoEnabled b =>
      Normal {| isConnected := isConnected st; transcription := transcription st;
                responseText := responseText st; sceneDescription := sceneDescription st;
                isVideoEnabled := b; videoError := videoError st;
                isProcessingScene := isProcessingScene st |}
  | SetVideoError e =>
      Normal {| isConnected := isConnected st; transcription := transcription st;
                responseText := responseText st; sceneDescription := sceneDescription st;
                isVideoEnabled := isVideoEnabled st; videoError := e;
                isProcessingScene := isProcessingScene st |}
  | SetIsProcessingScene b =>
      Normal {| isConnected := isConnected st; transcription := transcription st;
                responseText := responseText st; sceneDescription := sceneDescription st;
                isVideoEnabled := isVideoEnabled st; videoError := videoError st;
                isProcessingScene := b |}
  end.

Fixpoint apply_updates (st : ReactState) (us : list StateUpdate) : Completion ReactState :=
  match us with
  | [] => Normal st
  | u :: rest => cbind (apply_update st u) (fun st' => apply_updates st' rest)
  end.

(** The [useRef] cells. *)
Record Refs := {
  peerConnectionRef : option PeerConnection;
  dataChannelRef : option DataChannel;
  videoElRef : option VideoElement;
  localAudioStreamRef : option MediaStream;
  localVideoStreamRef : option MediaStream
}.

Definition with_peerConnection (pc : option PeerConnection) (r : Refs) : Refs :=
  {| peerConnectionRef := pc; dataChannelRef := dataChannelRef r;
     videoElRef := videoElRef r; localAudioStreamRef := localAudioStreamRef r;
     localVideoStreamRef := localVideoStreamRef r |}.
Definition with_dataChannel (dc : option DataChannel) (r : Refs) : Refs :=
  {| peerConnectionRef := peerConnectionRef r; dataChannelRef := dc;
     videoElRef := videoElRef r; localAudioStreamRef := localAudioStreamRef r;
     localVideoStreamRef := localVideoStreamRef r |}.
Definition with_videoEl (v : option VideoElement) (r : Refs) : Refs :=
  {| peerConnectionRef := peerConnectionRef r; dataChannelRef := dataChannelRef r;
     videoElRef := v; localAudioStreamRef := localAudioStreamRef r;
     localVideoStreamRef := localVideoStreamRef r |}.
Definition with_localAudioStream (ms : option MediaStream) (r : Refs) : Refs :=
  {| peerConnectionRef := peerConnectionRef r; dataChannelRef := dataChannelRef r;
     videoElRef := videoElRef r; localAudioStreamRef := ms;
     localVideoStreamRef := localVideoStreamRef r |}.
Definition with_localVideoStream (ms : option MediaStream) (r : Refs) : Refs :=
  {| peerConnectionRef := peerConnectionRef r; dataChannelRef := dataChannelRef r;
     videoElRef := videoElRef r; localAudioStreamRef := localAudioStreamRef r;
     localVideoStreamRef := ms |}.

(** The mounted component: the state of the last render, the refs, the state
    updates queued since, the tracks stopped so far and the effects so far. *)
Record Component := {
  state : ReactState;
  refs : Refs;
  pending : list StateUpdate;
  stopped : list nat;
  trace : list Effect
}.

Definition enqueue (u : StateUpdate) : M Component unit :=
  modify (fun c => {| state := state c; refs := refs c; pending := pending c ++ [u];
                      stopped := stopped c; trace := trace c |}).
Definition emit (e : Effect) : M Component unit :=
  modify (fun c => {| state := state c; refs := refs c; pending := pending c;
                      stopped := stopped c; trace := trace c ++ [e] |}).
Definition set_refs (f : Refs -> Refs) : M Component unit :=
  modify (fun c => {| state := state c; refs := f (refs c); pending := pending c;
                      stopped := stopped c; trace := trace c |}).
Definition stop_tracks (tracks : list Track) : M Component unit :=
  modify (fun c => {| state := state c; refs := refs c; pending := pending c;
                      stopped := stop_all tracks (stopped c); trace := trace c |}).

(** The state of the next render: the queued updates applied in order.  What
    the component then returns is [view]; [rerender] is the two together. *)
Definition render (c : Component) : Completion Component :=
  cbind (apply_updates (state c) (pending c)) (fun st =>
  Normal {| state := st; refs := refs c; pending := []; stopped := stopped c;
            trace := trace c |}).

(** The JSX the component returns, as far as it depends on the texts: the
    children [{sceneDescription || "..."}], [{transcription || "..."}] and
    [{responseText || "..."}], in document order.  The other children are
    literals and [videoError], a string. *)
Definition view (st : ReactState) : Completion (list value) :=
  cbind (child (sceneDescription st) "Scene description will appear here...") (fun d =>
  cbind (child (transcription st) "Speak after connecting...") (fun t =>
  cbind (child (responseText st) "Waiting for model's text response...") (fun r =>
  Normal [d; t; r]))).

(** A render: the queued updates are applied and the component function
    returns its JSX.  A throw in either leaves React without a tree to show:
    the component is unmounted. *)
Definition rerender (c : Component) : Completion Component :=
  cbind (render c) (fun r => cbind (view (state r)) (fun _ => Normal r)).

(** [handleVideoError] *)
Definition handleVideoError (error : Exn) : M Component unit :=
  emit (ConsoleError "Video stream error:") ;;
  enqueue (SetVideoError (Some (message_of error))) ;;
  enqueue (SetIsVideoEnabled false) ;;
  lv <- read (fun c => localVideoStreamRef (refs c)) ;;
  match lv with
  | Some ms =>
      stop_tracks (getTracks ms) ;;
      set_refs (with_localVideoStream None)
  | None => ret tt
  end.

(** What the platform answers during one [connectToOpenAI]. *)
Record ConnectEnv := {
  token_response : Completion Response;       (* fetch("/api/openai-session") *)
  user_media : Completion MediaStream;        (* getUserMedia(constraints) *)
  play : Completion unit;                     (* videoElRef.current.play() *)
  create_offer : Completion string;           (* createOffer(), its sdp *)
  set_local_description : Completion unit;
  sdp_response : Completion Response;         (* the POST of the offer *)
  set_remote_description : Completion unit
}.

(** [initializeVideoStream] *)
Definition initializeVideoStream (env : ConnectEnv) : M Component MediaStream :=
  try_catch
    (enqueue (SetVideoError None) ;;
     mediaStream <- lift (user_media env) ;;
     set_refs (with_localAudioStream (Some (getAudioTracks mediaStream))) ;;
     set_refs (with_localVideoStream (Some (getVideoTracks mediaStream))) ;;
     el <- read (fun c => videoElRef (refs c)) ;;
     match el with
     | Some _ =>
         lv <- read (fun c => localVideoStreamRef (refs c)) ;;
         set_refs (with_videoEl (Some {| srcObject := lv |})) ;;
         match play env with
         | Normal _ => ret tt
         | Throw e => handleVideoError e
         end ;;
         enqueue (SetIsVideoEnabled true)
     | None => ret tt
     end ;;
     ret mediaStream)
    (fun error => handleVideoError error ;; throw error).

(** [disconnectFromOpenAI] *)
Definition disconnectFromOpenAI : M Component unit :=
  pc <- read (fun c => peerConnectionRef (refs c)) ;;
  match pc with
  | Some _ => emit ClosePeerConnection ;; set_refs (with_peerConnection None)
  | None => ret tt
  end ;;
  dc <- read (fun c => dataChannelRef (refs c)) ;;
  match dc with
  | Some _ => emit CloseDataChannel ;; set_refs (with_dataChannel None)
  | None => ret tt
  end ;;
  la <- read (fun c => localAudioStreamRef (refs c)) ;;
  match la with
  | Some ms =>
      stop_tracks (getTracks ms) ;;
      set_refs (with_localAudioStream None)
  | None => ret tt
  end ;;
  lv <- read (fun c => localVideoStreamRef (refs c)) ;;
  match lv with
  | Some ms =>
      stop_tracks (getTracks ms) ;;
      el <- read (fun c => videoElRef (refs c)) ;;
      match el with
      | Some _ => set_refs (with_videoEl (Some {| srcObject := None |}))
      | None => ret tt
      end ;;
      set_refs (with_localVideoStream None)
  | None => ret tt
  end ;;
  enqueue (SetIsConnected false) ;;
  enqueue (SetTranscription (SetTo (Str ""))) ;;
  enqueue (SetResponseText (SetTo (Str ""))) ;;
  enqueue (SetSceneDescription (Str "")) ;;
  emit (ConsoleLog "Disconnected.").

Definition OPENAI_REALTIME_MODEL : string := "gpt-4o-realtime-preview-2024-12-17".

Definition update_pc (f : PeerConnection -> PeerConnection) : M Component unit :=
  set_refs (fun r => with_peerConnection (option_map f (peerConnectionRef r)) r).

(** [mediaStream.getTracks().forEach(track => pc.addTrack(track, mediaStream))] *)
Fixpoint add_tracks (tracks : list Track) : M Component unit :=
  match tracks with
  | [] => ret tt
  | t :: rest => update_pc (pc_addTrack t) ;; add_tracks rest
  end.

(** The [try] block of [connectToOpenAI]. *)
Definition connectToOpenAI_try (env : ConnectEnv) : M Component unit :=
  emit (ConsoleLog "Fetching ephemeral key...") ;;
  emit (Request "/api/openai-session" Undefined) ;;
  tokenResponse <- lift (token_response env) ;;
  (if negb (ok tokenResponse) then
     errorData <- lift (json tokenResponse) ;;
     err <- lift (get errorData "error") ;;
     e <- lift (new_Error (or_else err (Str "Failed to get session token"))) ;;
     throw e
   else ret tt) ;;
  sessionData <- lift (json tokenResponse) ;;
  client_secret <- lift (get sessionData "client_secret") ;;
  EPHEMERAL_KEY <- lift (get client_secret "value") ;;
  set_refs (with_peerConnection (Some new_RTCPeerConnection)) ;;
  mediaStream <- initializeVideoStream env ;;
  add_tracks (getTracks mediaStream) ;;
  set_refs (with_dataChannel (Some (createDataChannel "oai-events"))) ;;
  offer <- lift (create_offer env) ;;
  lift (set_local_description env) ;;
  bearer <- lift (to_string EPHEMERAL_KEY) ;;
  emit (Request ("https://api.openai.com/v1/realtime?model=" ++ OPENAI_REALTIME_MODEL)
                (Str offer)) ;;
  sdpResponse <- lift (sdp_response env) ;;
  (if negb (ok sdpResponse) then
     t <- lift (text sdpResponse) ;;
     throw (UserError ("Failed to get SDP answer: " ++ t))
   else ret tt) ;;
  answerSdp <- lift (text sdpResponse) ;;
  lift (set_remote_description env) ;;
  emit (ConsoleLog "WebRTC connection established with OpenAI Realtime API.") ;;
  enqueue (SetIsConnected true).

(** [connectToOpenAI] *)
Definition connectToOpenAI (env : ConnectEnv) : M Component unit :=
  pc <- read (fun c => peerConnectionRef (refs c)) ;;
  if match pc with Some p => is_connected p | None => false end then
    emit (ConsoleLog "Already connected.")
  else
    enqueue (SetTranscription (SetTo (Str ""))) ;;
    enqueue (SetResponseText (SetTo (Str ""))) ;;
    enqueue (SetSceneDescription (Str "")) ;;
    enqueue (SetVideoError None) ;;
    try_catch (connectToOpenAI_try env)
      (fun error =>
         emit (ConsoleError "Error initializing connection:") ;;
         emit (Alert ("Connection error: " ++ message_of error)) ;;
         disconnectFromOpenAI).

(** [pc.onconnectionstatechange], the transport reporting [s]. *)
Definition onconnectionstatechange (s : ConnectionState) : M Component unit :=
  update_pc (fun pc => {| connectionState := s; senders := senders pc |}) ;;
  emit (ConsoleLog "Connection state:") ;;
  enqueue (SetIsConnected match s with PcConnected => true | _ => false end) ;;
  match s with
  | PcFailed | PcDisconnected | PcClosed => enqueue (SetIsConnected false)
  | _ => ret tt
  end.

(** [speakText] *)
Definition createItemEvent (textToSpeak : value) : value :=
  Obj [("type", Str "conversation.item.create");
       ("item", Obj [("type", Str "message"); ("role", Str "user");
                     ("content", Arr [Obj [("type", Str "input_text");
                                           ("text", textToSpeak)]])])].

Definition createResponseEvent : value :=
  Obj [("type", Str "response.create");
       ("response", Obj [("modalities", Arr [Str "audio"; Str "text"])])].

Definition speakText (textToSpeak : value) : M Component unit :=
  dc <- read (fun c => dataChannelRef (refs c)) ;;
  if negb match dc with Some d => is_open d | None => false end then
    emit (ConsoleWarn "Data channel not open. Cannot send text for TTS.")
  else
    enqueue (SetResponseText (SetTo (Str ""))) ;;
    emit (Send (createItemEvent textToSpeak)) ;;
    emit (Send createResponseEvent) ;;
    emit (ConsoleLog "Sent request for TTS.").

(** [handleLangGraphResponse] *)
Definition handleLangGraphResponse : M Component unit :=
  speakText (Str "Hello! This is a spoken response generated from text.").

(** What the platform answers during one [requestSceneDescription]. *)
Record SceneEnv := {
  video_size : nat * nat;                 (* videoWidth, videoHeight at the first test *)
  video_size_after_wait : nat * nat;      (* the same, 100 ms later *)
  canvas_context : bool;                  (* getContext('2d') is not null *)
  capture : Completion string;            (* drawImage, then toDataURL *)
  describe_response : Completion Response (* fetch('/api/describe-scene', ...) *)
}.

Definition no_dimensions (size : nat * nat) : bool :=
  Nat.eqb (fst size) 0 || Nat.eqb (snd size) 0.

Definition scene_prompt : string :=
  "Describe this scene in detail, focusing on what you can see in the video feed.".

(** The [try] block of [requestSceneDescription]. *)
Definition requestSceneDescription_try (env : SceneEnv) : M Component unit :=
  (if no_dimensions (video_size env) then
     if no_dimensions (video_size_after_wait env) then
       throw (UserError "Video dimensions not available")
     else ret tt
   else ret tt) ;;
  (if negb (canvas_context env) then throw (UserError "Could not get canvas context")
   else ret tt) ;;
  imageDataUrl <- lift (capture env) ;;
  emit (Request "/api/describe-scene"
          (Obj [("image_data_url", Str imageDataUrl); ("prompt", Str scene_prompt)])) ;;
  response <- lift (describe_response env) ;;
  (if negb (ok response) then
     errorData <- lift (json response) ;;
     err <- lift (get errorData "error") ;;
     e <- lift (new_Error (or_else err (Str "Failed to get scene description"))) ;;
     throw e
   else ret tt) ;;
  result <- lift (json response) ;;
  description <- lift (get result "description") ;;
  if truthy description then
    enqueue (SetSceneDescription description) ;;
    speakText description
  else throw (UserError "No description received from the server").

(** [requestSceneDescription]; [isConnected] is the value of the render whose
    button was clicked. *)
Definition requestSceneDescription (env : SceneEnv) : M Component unit :=
  connected <- read (fun c => isConnected (state c)) ;;
  if negb connected then
    emit (Alert "Please connect the assistant first.")
  else
    lv <- read (fun c => localVideoStreamRef (refs c)) ;;
    el <- read (fun c => videoElRef (refs c)) ;;
    if match lv with None => true | Some _ => false end
       || match el with
          | Some v => match srcObject v with None => true | Some _ => false end
          | None => true
          end
    then
      emit (Alert "Video stream not available.") ;;
      enqueue (SetVideoError (Some "Video stream not available to capture frame."))
    else
      enqueue (SetIsProcessingScene true) ;;
      enqueue (SetSceneDescription (Str "Capturing frame and analyzing scene...")) ;;
      enqueue (SetVideoError None) ;;
      try_finally
        (try_catch (requestSceneDescription_try env)
           (fun error =>
              emit (ConsoleError "Error processing scene:") ;;
              enqueue (SetSceneDescription (Str ("Error: " ++ message_of error))) ;;
              enqueue (SetVideoError
                         (Some ("Error during scene analysis: " ++ message_of error)))))
        (enqueue (SetIsProcessingScene false)).

(** [msg.response?.input_transcription] *)
Definition final_transcription (msg : value) : Completion value :=
  cbind (get msg "response") (fun r =>
  opt r (fun r => get r "input_transcription")).

(** [msg.response.input_transcription] *)
Definition response_input_transcription (msg : value) : Completion value :=
  cbind (get msg "response") (fun r => get r "input_transcription").

(** The [try] block of [handleDataChannelMessage]. *)
Definition handleDataChannelMessage_try (data : MessageData) : M Component unit :=
  msg <- lift (JSON_parse data) ;;
  emit (ConsoleLog "Received event from OpenAI:") ;;
  type <- lift (get msg "type") ;;
  switch type
    [ ("session.created",
        (lift (cbind (get msg "session") (fun s => get s "id")) ;;
         emit (ConsoleLog "OpenAI Session created:")));
      ("response.audio_transcript.delta",
        enqueue (SetTranscription (PlusDeltaOf msg)));
      ("response.text.delta",
        enqueue (SetResponseText (PlusDeltaOf msg)));
      ("response.done",
        (emit (ConsoleLog "Response done event:") ;;
         cond <- lift (final_transcription msg) ;;
         if truthy cond then
           lift (response_input_transcription msg) ;;
           emit (ConsoleLog "Final Input Transcription:") ;;
           final <- lift (response_input_transcription msg) ;;
           enqueue (SetTranscription (SetTo final))
         else ret tt)) ]
    (ret tt).

(** [handleDataChannelMessage] *)
Definition handleDataChannelMessage (data : MessageData) : M Component unit :=
  try_catch (handleDataChannelMessage_try data)
    (fun error =>
       emit (ConsoleError "Error parsing message from OpenAI or handling event:")).

(** One message event: the handler runs, then React renders. *)
Definition deliver (c : Component) (data : MessageData) : Completion Component :=
  render (exec (handleDataChannelMessage data) c).

Fixpoint deliver_all (c : Component) (frames : list MessageData) : Completion Component :=
  match frames with
  | [] => Normal c
  | d :: rest => cbind (deliver c d) (fun c' => deliver_all c' rest)
  end.

(** One message event, up to the JSX of the render that follows. *)
Definition receive (c : Component) (data : MessageData) : Completion Component :=
  rerender (exec (handleDataChannelMessage data) c).

Fixpoint receive_all (c : Component) (frames : list MessageData) : Completion Component :=
  match frames with
  | [] => Normal c
  | d :: rest => cbind (receive c d) (fun c' => receive_all c' rest)
  end.

(** The component with the audio element of its mount effect. *)
Record Page := {
  component : Component;
  audioElRef : option AudioElement
}.

(** The body of the mount effect: the audio element is created once. *)
Definition mount (p : Page) : Page :=
  match audioElRef p with
  | Some _ => p
  | None =>
      {| component := component p;
         audioElRef := Some {| autoplay := true; in_document := true;
                               audio_srcObject := None |} |}
  end.

(** Unmounting: React detaches the ref of the [<video>] element, then runs
    the cleanup of the mount effect. *)
Definition unmount (p : Page) : Page :=
  let c1 := exec (set_refs (with_videoEl None) ;; disconnectFromOpenAI) (component p) in
  let audio :=
    match audioElRef p with
    | Some el => if in_document el then None else Some el
    | None => None
    end in
  let c2 :=
    exec (lv <- read (fun c => localVideoStreamRef (refs c)) ;;
          match lv with
          | Some ms => stop_tracks (getTracks ms) ;; set_refs (with_localVideoStream None)
          | None => ret tt
          end ;;
          la <- read (fun c => localAudioStreamRef (refs c)) ;;
          match la with
          | Some ms => stop_tracks (getTracks ms) ;; set_refs (with_localAudioStream None)
          | None => ret tt
          end) c1 in
  {| component := c2; audioElRef := audio |}.

(** [pc.ontrack], for a track of kind [kind] arriving with [streams]. *)
Definition ontrack (kind : TrackKind) (streams : list MediaStream) (p : Page) : Page :=
  let c := exec (emit (ConsoleLog "Remote track received:")) (component p) in
  match kind, audioElRef p, streams with
  | AudioKind, Some el, s :: _ =>
      {| component := c;
         audioElRef := Some {| autoplay := autoplay el; in_document := in_document el;
                               audio_srcObject := Some s |} |}
  | _, _, _ => {| component := c; audioElRef := audioElRef p |}
  end.

End Component.
End RealtimeAssistant.

(** ** The audio-only component

    The second [RealtimeAssistant] of the sources (microphone only, one
    [localStreamRef]), found after the route handler in
    [app/api/describe-scene/route.ts]. *)

Module AudioAssistant.
Section Component.
Context {E : JS.Engine}.
Import JS Browser.

Record ReactState := {
  isConnected : bool;
  transcription : value;
  responseText : value
}.

Definition initialState : ReactState :=
  {| isConnected := false; transcription := Str ""; responseText := Str "" |}.

Inductive Update :=
| SetTo (v : value)
| PlusDeltaOf (msg : value).

Inductive StateUpdate :=
| SetIsConnected (b : bool)
| SetTranscription (u : Update)
| SetResponseText (u : Update).

Definition next (u : Update) (prev : value) : Completion value :=
  match u with
  | SetTo v => Normal v
  | PlusDeltaOf msg => cbind (get msg "delta") (fun d => add prev d)
  end.

Definition apply_update (st : ReactState) (u : StateUpdate) : Completion ReactState :=
  match u with
  | SetIsConnected b =>
      Normal {| isConnected := b; transcription := transcription st;
                responseText := responseText st |}
  | SetTranscription u =>
      cbind (next u (transcription st)) (fun v =>
      Normal {| isConnected := isConnected st; transcription := v;
                responseText := responseText st |})
  | SetResponseText u =>
      cbind (next u (responseText st)) (fun v =>
      Normal {| isConnected := isConnected st; transcription := transcription st;
                responseText := v |})
  end.

Fixpoint apply_updates (st : ReactState) (us : list StateUpdate) : Completion ReactState :=
  match us with
  | [] => Normal st
  | u :: rest => cbind (apply_update st u) (fun st' => apply_updates st' rest)
  end.

Record Refs := {
  peerConnectionRef : option PeerConnection;
  dataChannelRef : option DataChannel;
  localStreamRef : option MediaStream
}.

Definition with_peerConnection (pc : option PeerConnection) (r : Refs) : Refs :=
  {| peerConnectionRef := pc; dataChannelRef := dataChannelRef r;
     localStreamRef := localStreamRef r |}.
Definition with_dataChannel (dc : option DataChannel) (r : Refs) : Refs :=
  {| peerConnectionRef := peerConnectionRef r; dataChannelRef := dc;
     localStreamRef := localStreamRef r |}.
Definition with_localStream (ms : option MediaStream) (r : Refs) : Refs :=
  {| peerConnectionRef := peerConnectionRef r; dataChannelRef := dataChannelRef r;
     localStreamRef := ms |}.

Record Component := {
  state : ReactState;
  refs : Refs;
  pending : list StateUpdate;
  stopped : list nat;
  trace : list Effect
}.

Definition enqueue (u : StateUpdate) : M Component unit :=
  modify (fun c => {| state := state c; refs := refs c; pending := pending c ++ [u];
                      stopped := stopped c; trace := trace c |}).
Definition emit (e : Effect) : M Component unit :=
  modify (fun c => {| state := state c; refs := refs c; pending := pending c;
                      stopped := stopped c; trace := trace c ++ [e] |}).
Definition set_refs (f : Refs -> Refs) : M Component unit :=
  modify (fun c => {| state := state c; refs := f (refs c); pending := pending c;
                      stopped := stopped c; trace := trace c |}).
Definition stop_tracks (tracks : list Track) : M Component unit :=
  modify (fun c => {| state := state c; refs := refs c; pending := pending c;
                      stopped := stop_all tracks (stopped c); trace := trace c |}).

(** The state of the next render; [view] is what the component then
    returns, [rerender] the two together. *)
Definition render (c : Component) : Completion Component :=
  cbind (apply_updates (state c) (pending c)) (fun st =>
  Normal {| state := st; refs := refs c; pending := []; stopped := stopped c;
            trace := trace c |}).

(** The children [{transcription || "..."}] and [{responseText || "..."}] of
    the JSX the component returns. *)
Definition view (st : ReactState) : Completion (list value) :=
  cbind (child (transcription st) "Speak after connecting...") (fun t =>
  cbind (child (responseText st) "Waiting for model's text response...") (fun r =>
  Normal [t; r])).

Definition rerender (c : Component) : Completion Component :=
  cbind (render c) (fun r => cbind (view (state r)) (fun _ => Normal r)).

Record ConnectEnv := {
  token_response : Completion Response;
  user_media : Completion MediaStream;        (* getUserMedia({ audio: true }) *)
  create_offer : Completion string;
  set_local_description : Completion unit;
  sdp_response : Completion Response;
  set_remote_description : Completion unit
}.

Definition OPENAI_REALTIME_MODEL : string := "gpt-4o-realtime-preview-2024-12-17".

Definition update_pc (f : PeerConnection -> PeerConnection) : M Component unit :=
  set_refs (fun r => with_peerConnection (option_map f (peerConnectionRef r)) r).

Fixpoint add_tracks (tracks : list Track) : M Component unit :=
  match tracks with
  | [] => ret tt
  | t :: rest => update_pc (pc_addTrack t) ;; add_tracks rest
  end.

(** [pc.close()] on the connection the ref still holds. *)
Definition close_pc : M Component unit :=
  emit ClosePeerConnection ;; update_pc pc_close.

(** The [try] block of [connectToOpenAI]; its two early [return]s end the
    function. *)
Definition connectToOpenAI_try (env : ConnectEnv) : M Component unit :=
  emit (ConsoleLog "Fetching ephemeral key...") ;;
  emit (Request "/api/openai-session" Undefined) ;;
  tokenResponse <- lift (token_response env) ;;
  if negb (ok tokenResponse) then
    errorData <- lift (json tokenResponse) ;;
    emit (ConsoleError "Failed to get ephemeral key:") ;;
    err <- lift (get errorData "error") ;;
    shown <- lift (to_string (or_else err (Str "Unknown error"))) ;;
    emit (Alert ("Failed to get session token: " ++ shown))
  else
    sessionData <- lift (json tokenResponse) ;;
    client_secret <- lift (get sessionData "client_secret") ;;
    EPHEMERAL_KEY <- lift (get client_secret "value") ;;
    emit (ConsoleLog "Ephemeral key received.") ;;
    set_refs (with_peerConnection (Some new_RTCPeerConnection)) ;;
    emit (ConsoleLog "Requesting microphone access...") ;;
    ms <- lift (user_media env) ;;
    set_refs (with_localStream (Some ms)) ;;
    add_tracks (getTracks ms) ;;
    emit (ConsoleLog "Microphone access granted and track added.") ;;
    set_refs (with_dataChannel (Some (createDataChannel "oai-events"))) ;;
    emit (ConsoleLog "Data channel created.") ;;
    emit (ConsoleLog "Creating offer...") ;;
    offer <- lift (create_offer env) ;;
    lift (set_local_description env) ;;
    emit (ConsoleLog "Local description set.") ;;
    bearer <- lift (to_string EPHEMERAL_KEY) ;;
    emit (Request ("https://api.openai.com/v1/realtime" ++ "?model=" ++ OPENAI_REALTIME_MODEL)
                  (Str offer)) ;;
    sdpResponse <- lift (sdp_response env) ;;
    if negb (ok sdpResponse) then
      errorText <- lift (text sdpResponse) ;;
      emit (ConsoleError "Failed to get SDP answer:") ;;
      emit (Alert ("Failed to get SDP answer: " ++ errorText)) ;;
      close_pc
    else
      answerSdp <- lift (text sdpResponse) ;;
      emit (ConsoleLog "SDP Answer received, setting remote description.") ;;
      lift (set_remote_description env) ;;
      emit (ConsoleLog "WebRTC connection established with OpenAI Realtime API.") ;;
      enqueue (SetIsConnected true).

(** [connectToOpenAI] *)
Definition connectToOpenAI (env : ConnectEnv) : M Component unit :=
  pc <- read (fun c => peerConnectionRef (refs c)) ;;
  if match pc with Some p => is_connected p | None => false end then
    emit (ConsoleLog "Already connected.")
  else
    try_catch (connectToOpenAI_try env)
      (fun error =>
         emit (ConsoleError "Error initializing WebRTC connection:") ;;
         emit (Alert ("Error initializing WebRTC: " ++ message_of error)) ;;
         pc <- read (fun c => peerConnectionRef (refs c)) ;;
         match pc with
         | Some _ => close_pc
         | None => ret tt
         end ;;
         enqueue (SetIsConnected false)).

(** [msg.response?.input_transcription] *)
Definition final_transcription (msg : value) : Completion value :=
  cbind (get msg "response") (fun r =>
  opt r (fun r => get r "input_transcription")).

(** [msg.response.input_transcription] *)
Definition response_input_transcription (msg : value) : Completion value :=
  cbind (get msg "response") (fun r => get r "input_transcription").

(** [msg.response?.output?.[0]?.content[0].text]: the chain is optional up
    to [content]; [content[0]] and [.text] are plain accesses. *)
Definition final_output_text (msg : value) : Completion value :=
  cbind (get msg "response") (fun r =>
  opt r (fun r =>
  cbind (get r "output") (fun o =>
  opt o (fun o =>
  cbind (index0 o) (fun item =>
  opt item (fun item =>
  cbind (get item "content") (fun content =>
  cbind (index0 content) (fun part =>
  get part "text")))))))).

(** [msg.response.output[0].content[0].text] *)
Definition response_output_text (msg : value) : Completion value :=
  cbind (get msg "response") (fun r =>
  cbind (get r "output") (fun o =>
  cbind (index0 o) (fun item =>
  cbind (get item "content") (fun content =>
  cbind (index0 content) (fun part =>
  get part "text"))))).

(** The [try] block of [handleDataChannelMessage].  The [switch] has no
    [default] and lists the transcript-delta label twice. *)
Definition handleDataChannelMessage_try (data : MessageData) : M Component unit :=
  msg <- lift (JSON_parse data) ;;
  emit (ConsoleLog "Received event from OpenAI:") ;;
  type <- lift (get msg "type") ;;
  switch type
    [ ("session.created",
        (lift (cbind (get msg "session") (fun s => get s "id")) ;;
         emit (ConsoleLog "OpenAI Session created:")));
      ("response.audio_transcript.delta",
        enqueue (SetTranscription (PlusDeltaOf msg)));
      ("response.text.delta",
        enqueue (SetResponseText (PlusDeltaOf msg)));
      ("response.done",
        (emit (ConsoleLog "Response done event:") ;;
         cond <- lift (final_transcription msg) ;;
         (if truthy cond then
            lift (response_input_transcription msg) ;;
            emit (ConsoleLog "Final Input Transcription:") ;;
            final <- lift (response_input_transcription msg) ;;
            enqueue (SetTranscription (SetTo final))
          else ret tt) ;;
         cond' <- lift (final_output_text msg) ;;
         if truthy cond' then
           lift (response_output_text msg) ;;
           emit (ConsoleLog "Final Text Output:") ;;
           final <- lift (response_output_text msg) ;;
           enqueue (SetResponseText (SetTo final))
         else ret tt));
      ("response.audio_transcript.delta",
        enqueue (SetTranscription (PlusDeltaOf msg))) ]
    (ret tt).

(** [handleDataChannelMessage] *)
Definition handleDataChannelMessage (data : MessageData) : M Component unit :=
  try_catch (handleDataChannelMessage_try data)
    (fun error =>
       emit (ConsoleError "Error parsing message from OpenAI or handling event:")).

(** [disconnectFromOpenAI] *)
Definition disconnectFromOpenAI : M Component unit :=
  pc <- read (fun c => peerConnectionRef (refs c)) ;;
  match pc with
  | Some _ => emit ClosePeerConnection ;; set_refs (with_peerConnection None)
  | None => ret tt
  end ;;
  dc <- read (fun c => dataChannelRef (refs c)) ;;
  match dc with
  | Some _ => emit CloseDataChannel ;; set_refs (with_dataChannel None)
  | None => ret tt
  end ;;
  ls <- read (fun c => localStreamRef (refs c)) ;;
  match ls with
  | Some ms =>
      stop_tracks (getTracks ms) ;;
      set_refs (with_localStream None)
  | None => ret tt
  end ;;
  enqueue (SetIsConnected false) ;;
  enqueue (SetTranscription (SetTo (Str ""))) ;;
  enqueue (SetResponseText (SetTo (Str ""))) ;;
  emit (ConsoleLog "Disconnected.").

(** One message event: the handler runs, then React renders. *)
Definition deliver (c : Component) (data : MessageData) : Completion Component :=
  render (exec (handleDataChannelMessage data) c).

Fixpoint deliver_all (c : Component) (frames : list MessageData) : Completion Component :=
  match frames with
  | [] => Normal c
  | d :: rest => cbind (deliver c d) (fun c' => deliver_all c' rest)
  end.

(** One message event, up to the JSX of the render that follows. *)
Definition receive (c : Component) (data : MessageData) : Completion Component :=
  rerender (exec (handleDataChannelMessage data) c).

Fixpoint receive_all (c : Component) (frames : list MessageData) : Completion Component :=
  match frames with
  | [] => Normal c
  | d :: rest => cbind (receive c d) (fun c' => receive_all c' rest)
  end.

(** [speakText] *)
Definition createItemEvent (textToSpeak : value) : value :=
  Obj [("type", Str "conversation.item.create");
       ("item", Obj [("type", Str "message"); ("role", Str "user");
                     ("content", Arr [Obj [("type", Str "input_text");
                                           ("text", textToSpeak)]])])].

Definition createResponseEvent : value :=
  Obj [("type", Str "response.create");
       ("response", Obj [("modalities", Arr [Str "audio"; Str "text"])])].

Definition speakText (textToSpeak : value) : M Component unit :=
  dc <- read (fun c => dataChannelRef (refs c)) ;;
  if negb match dc with Some d => is_open d | None => false end then
    emit (ConsoleWarn "Data channel not open. Cannot send text for TTS.")
  else
    enqueue (SetResponseText (SetTo (Str ""))) ;;
    emit (Send (createItemEvent textToSpeak)) ;;
    emit (ConsoleLog "Sent conversation.item.create for TTS:") ;;
    emit (Send createResponseEvent) ;;
    emit (ConsoleLog "Sent response.create for TTS.").

(** [handleLangGraphResponse] *)
Definition handleLangGraphResponse : M Component unit :=
  speakText (Str "Hello! This is a spoken response generated from text.").

(** [pc.onconnectionstatechange], the transport reporting [s]. *)
Definition onconnectionstatechange (s : ConnectionState) : M Component unit :=
  update_pc (fun pc => {| connectionState := s; senders := senders pc |}) ;;
  emit (ConsoleLog "Connection state:") ;;
  enqueue (SetIsConnected match s with PcConnected => true | _ => false end) ;;
  match s with
  | PcFailed | PcDisconnected | PcClosed => enqueue (SetIsConnected false)
  | _ => ret tt
  end.

(** The component with the audio element of its mount effect. *)
Record Page := {
  component : Component;
  audioElRef : option AudioElement
}.

Definition mount (p : Page) : Page :=
  match audioElRef p with
  | Some _ => p
  | None =>
      {| component := component p;
         audioElRef := Some {| autoplay := true; in_document := true;
                               audio_srcObject := None |} |}
  end.

(** The cleanup of the mount effect: the connection is closed and the
    tracks are stopped, the refs keep their objects; [removeChild] throws
    when the element is not a child of the body. *)
Definition unmount (p : Page) : Completion Page :=
  let c :=
    exec (pc <- read (fun c => peerConnectionRef (refs c)) ;;
          match pc with
          | Some _ => close_pc
          | None => ret tt
          end ;;
          ls <- read (fun c => localStreamRef (refs c)) ;;
          match ls with
          | Some ms => stop_tracks (getTracks ms)
          | None => ret tt
          end) (component p) in
  match audioElRef p with
  | Some el =>
      if in_document el then Normal {| component := c; audioElRef := None |}
      else Throw (Rejection "NotFoundError")
  | None => Normal {| component := c; audioElRef := None |}
  end.

(** [pc.ontrack] *)
Definition ontrack (streams : list MediaStream) (p : Page) : Page :=
  let c := exec (emit (ConsoleLog "Remote track received:")) (component p) in
  match audioElRef p, streams with
  | Some el, s :: _ =>
      {| component := c;
         audioElRef := Some {| autoplay := autoplay el; in_document := in_document el;
                               audio_srcObject := Some s |} |}
  | _, _ => {| component := c; audioElRef := audioElRef p |}
  end.

End Component.
End AudioAssistant.

(** ** The route handler of [app/api/describe-scene/route.ts] *)

Module DescribeScene.
Section Route.
Context {E : JS.Engine}.
Import JS Browser.

Definition OPENAI_VISION_MODEL_FOR_CHAT_COMPLETIONS : string := "gpt-4.1-nano-2025-04-14".

(** What the handler is run with: the environment variable read when the
    module loads, the request body as [request.json()] gives it, and the
    answer of the provider should it be asked. *)
Record PostEnv := {
  OPENAI_API_KEY : option string;
  request_json : Completion value;
  openai_response : Completion Response
}.

(** The answer of a handler: its status and the value handed to
    [NextResponse.json]; [body_sent] is what the client reads of it. *)
Record NextResponse := { response_status : Z; response_body : value }.

(** The statuses the [Response] constructor accepts together with a body:
    200 to 599, but not 204, 205 and 304, which have no body. *)
Definition valid_status (status : Z) : bool :=
  ((200 <=? status) && (status <=? 599)
   && negb ((status =? 204) || (status =? 205) || (status =? 304)))%Z.

(** [NextResponse.json(body, { status })]; without [init] the status is 200. *)
Definition NextResponse_json (body : value) (status : Z) : Completion NextResponse :=
  if valid_status status then Normal {| response_status := status; response_body := body |}
  else Throw (EngineError (InvalidStatus status)).

Definition body_sent (r : NextResponse) : value := through_JSON (response_body r).

Definition payload (image_data_url prompt : value) : value :=
  Obj [("model", Str OPENAI_VISION_MODEL_FOR_CHAT_COMPLETIONS);
       ("messages",
        Arr [Obj [("role", Str "user");
                  ("content",
                   Arr [Obj [("type", Str "text");
                             ("text", or_else prompt (Str "Describe what you see in this image."))];
                        Obj [("type", Str "image_url");
                             ("image_url", Obj [("url", image_data_url)])]])]]);
       ("max_tokens", Num (number_of_Z 300))].

Definition chat_completions_url : string := "https://api.openai.com/v1/chat/completions".

(** [data.choices?.[0]?.message?.content] *)
Definition first_choice_content (data : value) : Completion value :=
  cbind (get data "choices") (fun cs =>
  opt cs (fun cs =>
  cbind (index0 cs) (fun c =>
  opt c (fun c =>
  cbind (get c "message") (fun m =>
  opt m (fun m => get m "content")))))).

(** The state of a run is the list of requests made to the provider. *)
Definition POST_try (env : PostEnv) : M (list Effect) NextResponse :=
  body <- lift (request_json env) ;;
  image_data_url <- lift (get body "image_data_url") ;;
  prompt <- lift (get body "prompt") ;;
  if negb (truthy image_data_url) then
    lift (NextResponse_json (Obj [("error", Str "No image data provided.")]) 400)
  else
    modify (fun t => (t ++ [Request chat_completions_url (payload image_data_url prompt)])%list) ;;
    openaiResponse <- lift (openai_response env) ;;
    if negb (ok openaiResponse) then
      errorBody <- lift (json openaiResponse) ;;
      lift (NextResponse_json
              (Obj [("error", Str "Failed to get description from OpenAI.");
                    ("details", errorBody)])
              (status openaiResponse))
    else
      data <- lift (json openaiResponse) ;;
      description <- lift (first_choice_content data) ;;
      if truthy description then
        lift (NextResponse_json (Obj [("description", description)]) 200)
      else
        lift (NextResponse_json
                (Obj [("error", Str "No description received from OpenAI.")]) 500).

(** [POST] *)
Definition POST (env : PostEnv) : M (list Effect) NextResponse :=
  match OPENAI_API_KEY env with
  | None | Some "" =>
      lift (NextResponse_json
              (Obj [("error", Str "OpenAI API key not configured on server.")]) 500)
  | Some _ =>
      try_catch (POST_try env)
        (fun error =>
           lift (NextResponse_json
                   (Obj [("error", Str "Internal server error.");
                         ("details", Str (message_of error))]) 500))
  end.

End Route.
End DescribeScene.

(** ** The route handler of [app/api/openai-session/route.ts] *)

Module OpenAISession.
Section Route.
Context {E : JS.Engine}.
Import JS Browser.

Definition OPENAI_REALTIME_MODEL : string := "gpt-4o-realtime-preview-2024-12-17".

Definition sessions_url : string := "https://api.openai.com/v1/realtime/sessions".

Definition instructions : string :=
  "Start conversation with the user by saying 'Hello, how can I help you today?' Use the available tools when relevant. After executing a tool, you will need to respond (create a subsequent conversation item) to the user sharing the function result or error. If you do not respond with additional message with function result, user will not know you successfully executed the tool.".

Definition session_request : value :=
  Obj [("model", Str OPENAI_REALTIME_MODEL);
       ("voice", Str "alloy");
       ("modalities", Arr [Str "audio"; Str "text"]);
       ("instructions", Str instructions);
       ("tool_choice", Str "auto")].

(** The environment variable and the answer of the provider. *)
Record GetEnv := {
  OPENAI_API_KEY : option string;
  openai_response : Completion Response
}.

Definition GET_try (env : GetEnv) : M (list Effect) DescribeScene.NextResponse :=
  modify (fun t => (t ++ [Request sessions_url session_request])%list) ;;
  response <- lift (openai_response env) ;;
  if negb (ok response) then
    errorData <- lift (json response) ;;
    lift (DescribeScene.NextResponse_json
            (Obj [("error", Str "Failed to create OpenAI session"); ("details", errorData)])
            (status response))
  else
    data <- lift (json response) ;;
    client_secret <- lift (get data "client_secret") ;;
    lift (DescribeScene.NextResponse_json (Obj [("client_secret", client_secret)]) 200).

(** [GET] *)
Definition GET (env : GetEnv) : M (list Effect) DescribeScene.NextResponse :=
  match OPENAI_API_KEY env with
  | None | Some "" =>
      lift (DescribeScene.NextResponse_json
              (Obj [("error", Str "OpenAI API key not configured")]) 500)
  | Some _ =>
      try_catch (GET_try env)
        (fun error =>
           lift (DescribeScene.NextResponse_json
                   (Obj [("error", Str "Internal Server Error")]) 500))
  end.

End Route.
End OpenAISession.

(** ** The component of [Webcamcomponent.tsx]: starting and stopping the
    webcam *)

Module Webcam.
Section Component.
Context {E : JS.Engine}.
Import JS Browser.

Record ReactState := {
  isStreaming : bool;
  error : option string
}.

Inductive StateUpdate :=
| SetIsStreaming (b : bool)
| SetError (e : option string).

Definition apply_update (st : ReactState) (u : StateUpdate) : ReactState :=
  match u with
  | SetIsStreaming b => {| isStreaming := b; error := error st |}
  | SetError e => {| isStreaming := isStreaming st; error := e |}
  end.

Record Component := {
  state : ReactState;
  videoRef : option VideoElement;
  pending : list StateUpdate;
  stopped : list nat;
  trace : list Effect
}.

Definition render (c : Component) : Component :=
  {| state := fold_left apply_update (pending c) (state c); videoRef := videoRef c;
     pending := []; stopped := stopped c; trace := trace c |}.

Definition enqueue (u : StateUpdate) : M Component unit :=
  modify (fun c => {| state := state c; videoRef := videoRef c;
                      pending := pending c ++ [u]; stopped := stopped c;
                      trace := trace c |}).
Definition emit (e : Effect) : M Component unit :=
  modify (fun c => {| state := state c; videoRef := videoRef c; pending := pending c;
                      stopped := stopped c; trace := trace c ++ [e] |}).

Definition webcam_error : string :=
  "Could not access webcam. Please ensure you have a webcam connected and have granted permission.".

(** [startWebcam], with the answer of [getUserMedia({ video: true, audio:
    false })]; the promise of [play()] is not awaited. *)
Definition startWebcam (user_media : Completion MediaStream) : M Component unit :=
  try_catch
    (stream <- lift user_media ;;
     el <- read videoRef ;;
     match el with
     | Some _ =>
         modify (fun c => {| state := state c;
                             videoRef := Some {| srcObject := Some stream |};
                             pending := pending c; stopped := stopped c;
                             trace := trace c |}) ;;
         enqueue (SetIsStreaming true) ;;
         enqueue (SetError None)
     | None => ret tt
     end)
    (fun err =>
       emit (ConsoleError "Error accessing webcam:") ;;
       enqueue (SetError (Some webcam_error))).

(** The cleanup of the mount effect. *)
Definition cleanup : M Component unit :=
  el <- read videoRef ;;
  match el with
  | Some v =>
      match srcObject v with
      | Some stream =>
          modify (fun c => {| state := state c; videoRef := videoRef c;
                              pending := pending c;
                              stopped := stop_all (getTracks stream) (stopped c);
                              trace := trace c |})
      | None => ret tt
      end
  | None => ret tt
  end.

(** Unmounting.  The effect has no dependencies, so its cleanup runs only
    now, and React has detached the ref of the [<video>] element by then. *)
Definition unmount : M Component unit :=
  modify (fun c => {| state := state c; videoRef := None; pending := pending c;
                      stopped := stopped c; trace := trace c |}) ;;
  cleanup.

End Component.
End Webcam.

(** ** Vocabulary of the properties *)

Module RA := RealtimeAssistant.
Module AA := AudioAssistant.

Module Events.
Section Events.
Context {E : JS.Engine}.
Import JS Browser.

(** [msg] is a [response.audio_transcript.delta] event carrying the text [d]. *)
Definition is_transcript_delta (msg : value) (d : string) : Prop :=
  get msg "type" = Normal (Str "response.audio_transcript.delta") /\
  get msg "delta" = Normal (Str d).

Definition is_response_done (msg : value) : Prop :=
  get msg "type" = Normal (Str "response.done").

(** A final field that is not there: looking it up throws or gives a falsy
    value ([undefined] when the field is missing). *)
Definition absent (field : Completion value) : Prop :=
  match field with
  | Normal v => truthy v = false
  | Throw _ => True
  end.

(** [d1 + d2 + ... + dn] *)
Definition concatenation (ds : list string) : string := fold_right String.append "" ds.

(** [payload.item.content[0].text] of a sent message *)
Definition content_text (payload : value) : Completion value :=
  cbind (get payload "item") (fun item =>
  cbind (get item "content") (fun content =>
  cbind (index0 content) (fun part => get part "text"))).

(** The state updates a message event queues in [RealtimeAssistant.tsx]. *)
Definition RA_updates (data : MessageData) : list RA.StateUpdate :=
  match JSON_parse data with
  | Throw _ => []
  | Normal msg =>
      match get msg "type" with
      | Throw _ => []
      | Normal type =>
          if strict_eq_string type "response.audio_transcript.delta" then
            [RA.SetTranscription (RA.PlusDeltaOf msg)]
          else if strict_eq_string type "response.text.delta" then
            [RA.SetResponseText (RA.PlusDeltaOf msg)]
          else if strict_eq_string type "response.done" then
            match RA.final_transcription msg with
            | Normal t => if truthy t then [RA.SetTranscription (RA.SetTo t)] else []
            | Throw _ => []
            end
          else []
      end
  end.

(** The same for the audio-only component. *)
Definition AA_updates (data : MessageData) : list AA.StateUpdate :=
  match JSON_parse data with
  | Throw _ => []
  | Normal msg =>
      match get msg "type" with
      | Throw _ => []
      | Normal type =>
          if strict_eq_string type "response.audio_transcript.delta" then
            [AA.SetTranscription (AA.PlusDeltaOf msg)]
          else if strict_eq_string type "response.text.delta" then
            [AA.SetResponseText (AA.PlusDeltaOf msg)]
          else if strict_eq_string type "response.done" then
            match AA.final_transcription msg with
            | Normal t => if truthy t then [AA.SetTranscription (AA.SetTo t)] else []
            | Throw _ => []
            end ++
            match AA.final_output_text msg with
            | Normal t => if truthy t then [AA.SetResponseText (AA.SetTo t)] else []
            | Throw _ => []
            end
          else []
      end
  end.

(** The connect attempt gets as far as sending the offer, with the tracks
    [ms] acquired. *)
Definition RA_reaches_negotiation (env : RA.ConnectEnv) (ms : MediaStream) : Prop :=
  exists tokenResponse sessionData client_secret key bearer offer,
    RA.token_response env = Normal tokenResponse /\ ok tokenResponse = true /\
    json tokenResponse = Normal sessionData /\
    get sessionData "client_secret" = Normal client_secret /\
    get client_secret "value" = Normal key /\
    to_string key = Normal bearer /\
    RA.user_media env = Normal ms /\
    RA.create_offer env = Normal offer /\
    RA.set_local_description env = Normal tt.

(** The negotiation goes through: the offer is answered with a success
    status and a body, and the remote description is accepted. *)
Definition RA_negotiation_succeeds (env : RA.ConnectEnv) : bool :=
  match RA.sdp_response env with
  | Normal r => ok r && negb (is_throw (text r))
                && negb (is_throw (RA.set_remote_description env))
  | Throw _ => false
  end.

(** The connect button does something: no connection is up already. *)
Definition RA_not_connected (c : RA.Component) : Prop :=
  match RA.peerConnectionRef (RA.refs c) with
  | Some pc => is_connected pc = false
  | None => True
  end.

(** A queued update that cannot fail when React applies it: anything but an
    updater. *)
Definition RA_constant (u : RA.StateUpdate) : Prop :=
  match u with
  | RA.SetTranscription (RA.PlusDeltaOf _) | RA.SetResponseText (RA.PlusDeltaOf _) => False
  | _ => True
  end.

(** What [disconnectFromOpenAI] leaves of a component. *)
Definition RA_disconnected (c : RA.Component) : RA.Component :=
  let r := RA.refs c in
  {| RA.state := RA.state c;
     RA.refs :=
       {| RA.peerConnectionRef := None; RA.dataChannelRef := None;
          RA.videoElRef :=
            match RA.localVideoStreamRef r, RA.videoElRef r with
            | Some _, Some _ => Some {| srcObject := None |}
            | _, el => el
            end;
          RA.localAudioStreamRef := None; RA.localVideoStreamRef := None |};
     RA.pending :=
       RA.pending c ++
       [RA.SetIsConnected false; RA.SetTranscription (RA.SetTo (Str ""));
        RA.SetResponseText (RA.SetTo (Str "")); RA.SetSceneDescription (Str "")];
     RA.stopped :=
       (RA.stopped c
        ++ match RA.localAudioStreamRef r with Some ms => map track_id ms | None => [] end)
       ++ match RA.localVideoStreamRef r with Some ms => map track_id ms | None => [] end;
     RA.trace :=
       ((RA.trace c
         ++ match RA.peerConnectionRef r with Some _ => [ClosePeerConnection] | None => [] end)
        ++ match RA.dataChannelRef r with Some _ => [CloseDataChannel] | None => [] end)
       ++ [ConsoleLog "Disconnected."] |}.


(** Disconnected: the transport, the channel and the streams are released,
    and the next render shows a session that is not connected, with both
    accumulators empty. *)
Definition RA_is_disconnected (c : RA.Component) : Prop :=
  RA.peerConnectionRef (RA.refs c) = None /\
  RA.dataChannelRef (RA.refs c) = None /\
  RA.localAudioStreamRef (RA.refs c) = None /\
  RA.localVideoStreamRef (RA.refs c) = None /\
  exists r,
    RA.render c = Normal r /\
    RA.isConnected (RA.state r) = false /\
    RA.transcription (RA.state r) = Str "" /\
    RA.responseText (RA.state r) = Str "".


(** The tracks the refs of a component hold. *)
Definition RA_held_tracks (c : RA.Component) : list Track :=
  match RA.localAudioStreamRef (RA.refs c) with Some ms => ms | None => [] end
  ++ match RA.localVideoStreamRef (RA.refs c) with Some ms => ms | None => [] end.

Definition AA_held_tracks (c : AA.Component) : list Track :=
  match AA.localStreamRef (AA.refs c) with Some ms => ms | None => [] end.

(** A camera stream is held and shown in the video element. *)
Definition RA_video_available (c : RA.Component) : Prop :=
  exists ms el shown,
    RA.localVideoStreamRef (RA.refs c) = Some ms /\
    RA.videoElRef (RA.refs c) = Some el /\ srcObject el = Some shown.

(** The data channel is there and open. *)
Definition RA_channel_open (c : RA.Component) : Prop :=
  exists dc, RA.dataChannelRef (RA.refs c) = Some dc /\ is_open dc = true.

(** The scene description goes through with the description [D]: the frame
    has dimensions (at once or after the wait), is drawn and encoded, and the
    route answers with a success status and a body whose [description] is
    the truthy [D]. *)
Definition describes (env : RA.SceneEnv) (D : value) : Prop :=
  (RA.no_dimensions (RA.video_size env) = false \/
   RA.no_dimensions (RA.video_size_after_wait env) = false) /\
  RA.canvas_context env = true /\
  (exists url, RA.capture env = Normal url) /\
  exists response result,
    RA.describe_response env = Normal response /\ ok response = true /\
    json response = Normal result /\
    get result "description" = Normal D /\ truthy D = true.

(** The image capture fails: no dimensions even after the wait, no canvas
    context, or drawing or encoding throws. *)
Definition capture_fails (env : RA.SceneEnv) : Prop :=
  (RA.no_dimensions (RA.video_size env) = true /\
   RA.no_dimensions (RA.video_size_after_wait env) = true) \/
  RA.canvas_context env = false \/
  is_throw (RA.capture env) = true.

(** The call of the description service fails: the request is rejected, the
    status is not a success, the body is not JSON, or it has no
    description. *)
Definition description_service_fails (env : RA.SceneEnv) : Prop :=
  match RA.describe_response env with
  | Throw _ => True
  | Normal response =>
      ok response = false \/
      match json response with
      | Throw _ => True
      | Normal result => absent (get result "description")
      end
  end.

(** The component is on the page: the JSX of its last render was taken. *)
Definition RA_shown (c : RA.Component) : Prop := is_throw (RA.view (RA.state c)) = false.
Definition AA_shown (c : AA.Component) : Prop := is_throw (AA.view (AA.state c)) = false.

(** A field of a payload that React can show, should it be there: a text,
    not a plain object. *)
Definition showable (field : Completion value) : Prop :=
  match field with
  | Normal v => valid_child v = true
  | Throw _ => True
  end.

(** Every text cell of the state holds something React can show. *)
Definition RA_texts_valid (st : RA.ReactState) : bool :=
  valid_child (RA.sceneDescription st) && valid_child (RA.transcription st)
  && valid_child (RA.responseText st).

Definition AA_texts_valid (st : AA.ReactState) : bool :=
  valid_child (AA.transcription st) && valid_child (AA.responseText st).

(** The effects that only reach the console. *)
Definition is_console (e : Effect) : bool :=
  match e with
  | ConsoleLog _ | ConsoleWarn _ | ConsoleError _ => true
  | _ => false
  end.

(** The queued updates of the two accumulators. *)
Definition RA_text_update (u : RA.StateUpdate) : Prop :=
  match u with
  | RA.SetTranscription _ | RA.SetResponseText _ => True
  | _ => False
  end.

Definition AA_text_update (u : AA.StateUpdate) : Prop :=
  match u with
  | AA.SetTranscription _ | AA.SetResponseText _ => True
  | _ => False
  end.

(** The message of the error a scene description fails with, by cause, in
    the order the steps are taken; [None] when it goes through. *)
Definition scene_failure (env : RA.SceneEnv) : option string :=
  if RA.no_dimensions (RA.video_size env) && RA.no_dimensions (RA.video_size_after_wait env)
  then Some "Video dimensions not available"
  else if negb (RA.canvas_context env) then Some "Could not get canvas context"
  else
    match RA.capture env, RA.describe_response env with
    | Throw drawing, _ => Some (message_of drawing)
    | Normal _, Throw rejected => Some (message_of rejected)
    | Normal _, Normal response =>
        match json response with
        | Throw unreadable => Some (message_of unreadable)
        | Normal body =>
            if ok response then
              match get body "description" with
              | Throw e => Some (message_of e)
              | Normal description =>
                  if truthy description then None
                  else Some "No description received from the server"
              end
            else
              match get body "error" with
              | Throw e => Some (message_of e)
              | Normal error =>
                  match to_string (or_else error (Str "Failed to get scene description")) with
                  | Normal message => Some message
                  | Throw e => Some (message_of e)
                  end
              end
        end
    end.

(** The server has its API key. *)
Definition key_configured (env : DescribeScene.PostEnv) : Prop :=
  exists k, DescribeScene.OPENAI_API_KEY env = Some k /\ k <> "".

End Events.
End Events.

(** ** Vocabulary of the further properties *)

Module Conditions.
Section Conditions.
Context {E : JS.Engine}.
Import JS Browser.

(** The session route has its API key. *)
Definition session_key_configured (env : OpenAISession.GetEnv) : Prop :=
  exists k, OpenAISession.OPENAI_API_KEY env = Some k /\ k <> "".

(** [msg] is a [response.text.delta] event carrying the text [d]. *)
Definition is_text_delta (msg : value) (d : string) : Prop :=
  get msg "type" = Normal (Str "response.text.delta") /\
  get msg "delta" = Normal (Str d).


(** A streamed fragment of either kind. *)
Inductive Delta :=
| TranscriptDelta (d : string)
| TextDelta (d : string).

Definition is_delta (msg : value) (x : Delta) : Prop :=
  match x with
  | TranscriptDelta d => Events.is_transcript_delta msg d
  | TextDelta d => is_text_delta msg d
  end.

(** The transcript fragments of a stream, concatenated; and the text
    fragments. *)
Fixpoint transcript_of (xs : list Delta) : string :=
  match xs with
  | [] => ""
  | TranscriptDelta d :: rest => d ++ transcript_of rest
  | TextDelta _ :: rest => transcript_of rest
  end.

Fixpoint text_of (xs : list Delta) : string :=
  match xs with
  | [] => ""
  | TextDelta d :: rest => d ++ text_of rest
  | TranscriptDelta _ :: rest => text_of rest
  end.

(** The data channel is missing or not open. *)
Definition RA_channel_closed (c : RA.Component) : Prop :=
  match RA.dataChannelRef (RA.refs c) with
  | Some dc => is_open dc = false
  | None => True
  end.

Definition AA_channel_open (c : AA.Component) : Prop :=
  exists dc, AA.dataChannelRef (AA.refs c) = Some dc /\ is_open dc = true.

Definition AA_channel_closed (c : AA.Component) : Prop :=
  match AA.dataChannelRef (AA.refs c) with
  | Some dc => is_open dc = false
  | None => True
  end.

(** No camera stream is held, or the video element is missing or shows
    nothing. *)
Definition RA_video_missing (c : RA.Component) : Prop :=
  RA.localVideoStreamRef (RA.refs c) = None \/
  match RA.videoElRef (RA.refs c) with
  | Some el => srcObject el = None
  | None => True
  end.

(** A queued update that leaves the three texts alone. *)
Definition RA_keeps_texts (u : RA.StateUpdate) : Prop :=
  match u with
  | RA.SetIsConnected _ | RA.SetIsVideoEnabled _ | RA.SetVideoError _
  | RA.SetIsProcessingScene _ => True
  | _ => False
  end.

(** The value of [isConnected] once the updates [us] are applied to a state
    where it was [b]. *)
Definition connected_after (us : list RA.StateUpdate) (b : bool) : bool :=
  fold_left (fun b u => match u with RA.SetIsConnected b' => b' | _ => b end) us b.

(** The updates a scene description queues: they leave the transcription and
    the connection flag alone. *)
Definition RA_scene_update (u : RA.StateUpdate) : Prop :=
  match u with
  | RA.SetSceneDescription _ | RA.SetVideoError _ | RA.SetIsProcessingScene _
  | RA.SetResponseText (RA.SetTo _) => True
  | _ => False
  end.

(** The session route grants a token: a success status and a body with a
    [client_secret.value]. *)
Definition RA_token_granted (env : RA.ConnectEnv) : Prop :=
  exists tokenResponse sessionData client_secret key,
    RA.token_response env = Normal tokenResponse /\ ok tokenResponse = true /\
    json tokenResponse = Normal sessionData /\
    get sessionData "client_secret" = Normal client_secret /\
    get client_secret "value" = Normal key.

(** The [ok] flag of a response says that its status is in 200..299. *)
Definition coherent (r : Response) : Prop :=
  ok r = true <-> (200 <= status r <= 299)%Z.

End Conditions.
End Conditions.

(** ** An engine to run the examples with

    Numbers are the integers and NaN; the texts of the faults are V8's. *)

Module IntegerEngine.

Definition number : Type := option Z.

Definition number_truthy (n : number) : bool :=
  match n with
  | Some z => negb (Z.eqb z 0)
  | None => false
  end.

Definition number_to_string (n : number) : string :=
  match n with
  | Some z => DecimalString.NilZero.string_of_int (Z.to_int z)
  | None => "NaN"
  end.

Definition number_add (a b : number) : number :=
  match a, b with
  | Some x, Some y => Some (x + y)%Z
  | _, _ => None
  end.

Definition fault_message (f : Fault) : string :=
  match f with
  | ReadOfNullish is_null prop =>
      "Cannot read properties of " ++ (if is_null then "null" else "undefined")
      ++ " (reading '" ++ prop ++ "')"
  | NotPrimitive => "Cannot convert object to primitive value"
  | JsonSyntax raw => "Unexpected token in JSON"
  | InvalidChild => "Objects are not valid as a React child"
  | InvalidStatus status =>
      if ((200 <=? status) && (status <=? 599))%Z then "Invalid response status code"
      else "init['status'] must be in the range of 200 to 599, inclusive."
  end.

#[export] Instance engine : JS.Engine :=
  {| JS.number := number;
     JS.number_truthy := number_truthy;
     JS.number_to_string := number_to_string;
     JS.number_add := number_add;
     JS.number_nan := None;
     JS.number_of_Z := Some;
     JS.number_to_json := fun n => match n with Some z => Some (Some z) | None => None end;
     JS.fault_message := fault_message |}.

End IntegerEngine.

(** ** Example inputs *)

Module Examples.
Import JS Browser IntegerEngine.

Definition mic : Track := {| track_id := 1; track_kind := AudioKind |}.
Definition camera : Track := {| track_id := 2; track_kind := VideoKind |}.

Definition delta_event (d : string) : value :=
  Obj [("type", Str "response.audio_transcript.delta"); ("delta", Str d)].

Definition text_delta_event (d : string) : value :=
  Obj [("type", Str "response.text.delta"); ("delta", Str d)].

Definition done_event (response : value) : value :=
  Obj [("type", Str "response.done"); ("response", response)].

(** A freshly mounted component of [RealtimeAssistant.tsx]. *)
Definition mounted : RA.Component :=
  {| RA.state := RA.initialState;
     RA.refs := {| RA.peerConnectionRef := None; RA.dataChannelRef := None;
                   RA.videoElRef := Some {| srcObject := None |};
                   RA.localAudioStreamRef := None; RA.localVideoStreamRef := None |};
     RA.pending := []; RA.stopped := []; RA.trace := [] |}.

(** A freshly mounted audio-only component. *)
Definition mounted_audio : AA.Component :=
  {| AA.state := AA.initialState;
     AA.refs := {| AA.peerConnectionRef := None; AA.dataChannelRef := None;
                   AA.localStreamRef := None |};
     AA.pending := []; AA.stopped := []; AA.trace := [] |}.

(** The same components after the partial transcript "partial". *)
Definition listening : RA.Component :=
  {| RA.state := {| RA.isConnected := true; RA.transcription := Str "partial";
                    RA.responseText := Str ""; RA.sceneDescription := Str "";
                    RA.isVideoEnabled := true; RA.videoError := None;
                    RA.isProcessingScene := false |};
     RA.refs := RA.refs mounted;
     RA.pending := []; RA.stopped := []; RA.trace := [] |}.

Definition listening_audio : AA.Component :=
  {| AA.state := {| AA.isConnected := true; AA.transcription := Str "partial";
                    AA.responseText := Str "" |};
     AA.refs := AA.refs mounted_audio;
     AA.pending := []; AA.stopped := []; AA.trace := [] |}.



(** [{type: "response.done",
      response: {input_transcription: "final", output: [{}]}}] *)
Definition done_with_shapeless_output : value :=
  done_event (Obj [("input_transcription", Str "final"); ("output", Arr [Obj []])]).

(** [{type: "session.created"}], whose [session] is missing. *)
Definition session_created_without_session : value :=
  Obj [("type", Str "session.created")].

(** Answers of the platform for a connect that reaches the negotiation. *)
Definition token_granted : Response :=
  {| ok := true; status := 200;
     json := Normal (Obj [("client_secret", Obj [("value", Str "ek_test")])]);
     text := Normal "" |}.

(** The provider refusing the offer with 401. *)
Definition offer_refused : Response :=
  {| ok := false; status := 401;
     json := Throw (Rejection "Unexpected token U in JSON");
     text := Normal "Unauthorized" |}.

Definition offer_answered : Response :=
  {| ok := true; status := 201;
     json := Throw (Rejection "Unexpected token v in JSON");
     text := Normal "v=0 answer" |}.

(** Audio-only component: the offer is refused. *)
Definition audio_offer_refused : AA.ConnectEnv :=
  {| AA.token_response := Normal token_granted;
     AA.user_media := Normal [mic];
     AA.create_offer := Normal "v=0 offer";
     AA.set_local_description := Normal tt;
     AA.sdp_response := Normal offer_refused;
     AA.set_remote_description := Normal tt |}.

(** Audio-only component: the answer arrives and cannot be set. *)
Definition audio_answer_rejected : AA.ConnectEnv :=
  {| AA.token_response := Normal token_granted;
     AA.user_media := Normal [mic];
     AA.create_offer := Normal "v=0 offer";
     AA.set_local_description := Normal tt;
     AA.sdp_response := Normal offer_answered;
     AA.set_remote_description := Throw (Rejection "Failed to parse SessionDescription") |}.

(** Component with camera: the offer is refused. *)
Definition video_offer_refused : RA.ConnectEnv :=
  {| RA.token_response := Normal token_granted;
     RA.user_media := Normal [mic; camera];
     RA.play := Normal tt;
     RA.create_offer := Normal "v=0 offer";
     RA.set_local_description := Normal tt;
     RA.sdp_response := Normal offer_refused;
     RA.set_remote_description := Normal tt |}.

(** A connected component of [RealtimeAssistant.tsx]: peer connection up,
    channel open, camera shown, some text accumulated. *)
Definition connected : RA.Component :=
  {| RA.state := {| RA.isConnected := true; RA.transcription := Str "partial";
                    RA.responseText := Str "Hello"; RA.sceneDescription := Str "";
                    RA.isVideoEnabled := true; RA.videoError := None;
                    RA.isProcessingScene := false |};
     RA.refs := {| RA.peerConnectionRef :=
                     Some {| connectionState := PcConnected; senders := [mic; camera] |};
                   RA.dataChannelRef := Some {| label := "oai-events"; readyState := DcOpen |};
                   RA.videoElRef := Some {| srcObject := Some [camera] |};
                   RA.localAudioStreamRef := Some [mic];
                   RA.localVideoStreamRef := Some [camera] |};
     RA.pending := []; RA.stopped := []; RA.trace := [] |}.

(** A connected audio-only component. *)
Definition connected_audio : AA.Component :=
  {| AA.state := {| AA.isConnected := true; AA.transcription := Str "partial";
                    AA.responseText := Str "Hello" |};
     AA.refs := {| AA.peerConnectionRef :=
                     Some {| connectionState := PcConnected; senders := [mic] |};
                   AA.dataChannelRef := Some {| label := "oai-events"; readyState := DcOpen |};
                   AA.localStreamRef := Some [mic] |};
     AA.pending := []; AA.stopped := []; AA.trace := [] |}.

(** The route answering with a description. *)
Definition described (D : string) : Response :=
  {| ok := true; status := 200;
     json := Normal (Obj [("description", Str D)]);
     text := Normal "" |}.

(** The route answering 500 with an error object. *)
Definition route_error : Response :=
  {| ok := false; status := 500;
     json := Normal (Obj [("error", Str "No description received from OpenAI.")]);
     text := Normal "" |}.

(** A scene description that succeeds with "A red chair". *)
Definition red_chair : RA.SceneEnv :=
  {| RA.video_size := (1280, 720)%nat;
     RA.video_size_after_wait := (1280, 720)%nat;
     RA.canvas_context := true;
     RA.capture := Normal "data:image/jpeg;base64,/9j/4AAQ";
     RA.describe_response := Normal (described "A red chair") |}.

(** The video never gets dimensions. *)
Definition no_frame : RA.SceneEnv :=
  {| RA.video_size := (0, 0)%nat;
     RA.video_size_after_wait := (0, 0)%nat;
     RA.canvas_context := true;
     RA.capture := Normal "data:image/jpeg;base64,/9j/4AAQ";
     RA.describe_response := Normal (described "A red chair") |}.

(** The route fails. *)
Definition route_fails : RA.SceneEnv :=
  {| RA.video_size := (1280, 720)%nat;
     RA.video_size_after_wait := (1280, 720)%nat;
     RA.canvas_context := true;
     RA.capture := Normal "data:image/jpeg;base64,/9j/4AAQ";
     RA.describe_response := Normal route_error |}.

(** The provider answering 429 with a JSON error. *)
Definition rate_limited : Response :=
  {| ok := false; status := 429;
     json := Normal (Obj [("error", Obj [("message", Str "Rate limit reached")])]);
     text := Normal "" |}.

(** The provider side answering 502 with a page that is not JSON. *)
Definition bad_gateway : Response :=
  {| ok := false; status := 502;
     json := Throw (Rejection "Unexpected token < in JSON at position 0");
     text := Normal "<html>502 Bad Gateway</html>" |}.

(** A request without image to a server with its key. *)
Definition post_without_image : DescribeScene.PostEnv :=
  {| DescribeScene.OPENAI_API_KEY := Some "sk-test";
     DescribeScene.request_json := Normal (Obj [("prompt", Str "What is this?")]);
     DescribeScene.openai_response := Normal rate_limited |}.

(** The same request to a server without key. *)
Definition post_without_image_nor_key : DescribeScene.PostEnv :=
  {| DescribeScene.OPENAI_API_KEY := None;
     DescribeScene.request_json := Normal (Obj [("prompt", Str "What is this?")]);
     DescribeScene.openai_response := Normal rate_limited |}.

(** A request with an image, the provider rate limited. *)
Definition post_rate_limited : DescribeScene.PostEnv :=
  {| DescribeScene.OPENAI_API_KEY := Some "sk-test";
     DescribeScene.request_json :=
       Normal (Obj [("image_data_url", Str "data:image/jpeg;base64,/9j/4AAQ")]);
     DescribeScene.openai_response := Normal rate_limited |}.

(** A request with an image, a gateway answering for the provider. *)
Definition post_bad_gateway : DescribeScene.PostEnv :=
  {| DescribeScene.OPENAI_API_KEY := Some "sk-test";
     DescribeScene.request_json :=
       Normal (Obj [("image_data_url", Str "data:image/jpeg;base64,/9j/4AAQ")]);
     DescribeScene.openai_response := Normal bad_gateway |}.

(** The provider answering a chat completion with one choice. *)
Definition completion (content : string) : Response :=
  {| ok := true; status := 200;
     json := Normal (Obj [("id", Str "chatcmpl-1");
                          ("choices",
                           Arr [Obj [("index", Num (Some 0%Z));
                                     ("message", Obj [("role", Str "assistant");
                                                      ("content", Str content)])]])]);
     text := Normal "" |}.

(** A request with an image and no prompt, answered with a description. *)
Definition post_described : DescribeScene.PostEnv :=
  {| DescribeScene.OPENAI_API_KEY := Some "sk-test";
     DescribeScene.request_json :=
       Normal (Obj [("image_data_url", Str "data:image/jpeg;base64,/9j/4AAQ")]);
     DescribeScene.openai_response := Normal (completion "A red chair") |}.

(** The provider creating a session. *)
Definition session_secret : value :=
  Obj [("value", Str "ek_test"); ("expires_at", Num (Some 1700000000%Z))].

Definition session_created : Response :=
  {| ok := true; status := 200;
     json := Normal (Obj [("id", Str "sess_1"); ("model", Str "gpt-4o-realtime-preview");
                          ("client_secret", session_secret)]);
     text := Normal "" |}.

Definition get_session : OpenAISession.GetEnv :=
  {| OpenAISession.OPENAI_API_KEY := Some "sk-test";
     OpenAISession.openai_response := Normal session_created |}.

Definition get_session_rate_limited : OpenAISession.GetEnv :=
  {| OpenAISession.OPENAI_API_KEY := Some "sk-test";
     OpenAISession.openai_response := Normal rate_limited |}.


(** [{type: "response.audio_transcript.delta"}], without [delta]. *)
Definition delta_without_text : value :=
  Obj [("type", Str "response.audio_transcript.delta")].

(** A [response.done] carrying the final output text "Hello there". *)
Definition done_with_output_text : value :=
  done_event (Obj [("output",
                    Arr [Obj [("content", Arr [Obj [("type", Str "text");
                                                    ("text", Str "Hello there")]])]])]).

(** Component with camera: every step of the connect succeeds. *)
Definition video_connects : RA.ConnectEnv :=
  {| RA.token_response := Normal token_granted;
     RA.user_media := Normal [mic; camera];
     RA.play := Normal tt;
     RA.create_offer := Normal "v=0 offer";
     RA.set_local_description := Normal tt;
     RA.sdp_response := Normal offer_answered;
     RA.set_remote_description := Normal tt |}.

(** The same, but the video element refuses to play. *)
Definition video_play_rejected : RA.ConnectEnv :=
  {| RA.token_response := Normal token_granted;
     RA.user_media := Normal [mic; camera];
     RA.play := Throw (Rejection "The play() request was interrupted");
     RA.create_offer := Normal "v=0 offer";
     RA.set_local_description := Normal tt;
     RA.sdp_response := Normal offer_answered;
     RA.set_remote_description := Normal tt |}.

(** Connected, camera shown, but the data channel has not opened yet. *)
Definition connected_channel_opening : RA.Component :=
  {| RA.state := RA.state connected;
     RA.refs := {| RA.peerConnectionRef := RA.peerConnectionRef (RA.refs connected);
                   RA.dataChannelRef :=
                     Some {| label := "oai-events"; readyState := DcConnecting |};
                   RA.videoElRef := Some {| srcObject := Some [camera] |};
                   RA.localAudioStreamRef := Some [mic];
                   RA.localVideoStreamRef := Some [camera] |};
     RA.pending := []; RA.stopped := []; RA.trace := [] |}.

(** The connected components with their audio elements. *)
Definition connected_page : RA.Page :=
  {| RA.component := connected;
     RA.audioElRef := Some {| autoplay := true; in_document := true;
                              audio_srcObject := None |} |}.

Definition connected_audio_page : AA.Page :=
  {| AA.component := connected_audio;
     AA.audioElRef := Some {| autoplay := true; in_document := true;
                              audio_srcObject := None |} |}.

(** The webcam component, mounted and unmounted. *)
Definition webcam_mounted : Webcam.Component :=
  {| Webcam.state := {| Webcam.isStreaming := false; Webcam.error := None |};
     Webcam.videoRef := Some {| srcObject := None |};
     Webcam.pending := []; Webcam.stopped := []; Webcam.trace := [] |}.

Definition webcam_unmounted : Webcam.Component :=
  {| Webcam.state := {| Webcam.isStreaming := false; Webcam.error := None |};
     Webcam.videoRef := None;
     Webcam.pending := []; Webcam.stopped := []; Webcam.trace := [] |}.

(** [{type: "response.audio_transcript.delta", delta: {toString: 1}}]: a
    delta that cannot be converted to a text. *)
Definition poisoned_delta : value :=
  Obj [("type", Str "response.audio_transcript.delta");
       ("delta", Obj [("toString", Num (Some 1%Z))])].

(** [{type: "response.done", response: {input_transcription: {text: "final"}}}] *)
Definition done_with_object_transcription : value :=
  done_event (Obj [("input_transcription", Obj [("text", Str "final")])]).

(** The route answering with a description that is an object. *)
Definition described_by_object : Response :=
  {| ok := true; status := 200;
     json := Normal (Obj [("description", Obj [("text", Str "A red chair")])]);
     text := Normal "" |}.

Definition red_chair_object : RA.SceneEnv :=
  {| RA.video_size := (1280, 720)%nat;
     RA.video_size_after_wait := (1280, 720)%nat;
     RA.canvas_context := true;
     RA.capture := Normal "data:image/jpeg;base64,/9j/4AAQ";
     RA.describe_response := Normal described_by_object |}.

(** The provider answering with a status no response can be built with. *)
Definition unknown_status : Response :=
  {| ok := false; status := 600;
     json := Normal (Obj [("error", Str "unknown")]);
     text := Normal "" |}.

Definition post_unknown_status : DescribeScene.PostEnv :=
  {| DescribeScene.OPENAI_API_KEY := Some "sk-test";
     DescribeScene.request_json :=
       Normal (Obj [("image_data_url", Str "data:image/jpeg;base64,/9j/4AAQ")]);
     DescribeScene.openai_response := Normal unknown_status |}.

Definition get_session_unknown_status : OpenAISession.GetEnv :=
  {| OpenAISession.OPENAI_API_KEY := Some "sk-test";
     OpenAISession.openai_response := Normal unknown_status |}.

(** A request whose body is the JSON text [null]. *)
Definition post_null : DescribeScene.PostEnv :=
  {| DescribeScene.OPENAI_API_KEY := Some "sk-test";
     DescribeScene.request_json := Normal Null;
     DescribeScene.openai_response := Normal rate_limited |}.

(** The provider creating a session without a [client_secret]. *)
Definition session_without_secret : Response :=
  {| ok := true; status := 200;
     json := Normal (Obj [("id", Str "sess_1")]);
     text := Normal "" |}.

Definition get_session_without_secret : OpenAISession.GetEnv :=
  {| OpenAISession.OPENAI_API_KEY := Some "sk-test";
     OpenAISession.openai_response := Normal session_without_secret |}.

(** Component with camera: the user refuses the camera and microphone. *)
Definition video_media_denied : RA.ConnectEnv :=
  {| RA.token_response := Normal token_granted;
     RA.user_media := Throw (Rejection "Permission denied");
     RA.play := Normal tt;
     RA.create_offer := Normal "v=0 offer";
     RA.set_local_description := Normal tt;
     RA.sdp_response := Normal offer_answered;
     RA.set_remote_description := Normal tt |}.

End Examples.

(** * Properties *)

Section Facts.
Context {E : JS.Engine}.
Import JS Browser Events.
Local Open Scope list_scope.

Lemma add_strings (a b : string) : add (Str a) (Str b) = Normal (Str (a ++ b)%string).
Proof. reflexivity. Qed.

Lemma final_transcription_defined (msg type : value) :
  get msg "type" = Normal type -> exists t, RA.final_transcription msg = Normal t.
Proof.
  unfold RA.final_transcription, opt.
  destruct msg; simpl; intros H; try discriminate; eauto.
  destruct (lookup "response" fields) as [r|]; simpl; eauto.
  destruct r; simpl; eauto.
Qed.

Lemma final_transcription_truthy (msg t : value) :
  RA.final_transcription msg = Normal t -> truthy t = true ->
  RA.response_input_transcription msg = Normal t.
Proof.
  unfold RA.final_transcription, RA.response_input_transcription, opt.
  destruct (get msg "response") as [r|e]; simpl; [|discriminate].
  destruct (nullish r); [|tauto].
  intros H; injection H as <-. discriminate.
Qed.

Lemma final_output_text_truthy (msg t : value) :
  AA.final_output_text msg = Normal t -> truthy t = true ->
  AA.response_output_text msg = Normal t.
Proof.
  unfold AA.final_output_text, AA.response_output_text, opt.
  destruct (get msg "response") as [r|e]; simpl; [|discriminate].
  destruct (nullish r); [intros H; injection H as <-; discriminate|].
  destruct (get r "output") as [o|e]; simpl; [|discriminate].
  destruct (nullish o); [intros H; injection H as <-; discriminate|].
  destruct (index0 o) as [item|e]; simpl; [|discriminate].
  destruct (nullish item); [intros H; injection H as <-; discriminate|].
  tauto.
Qed.

Ltac eqb_cases s :=
  repeat match goal with
  | |- context [String.eqb s ?l] =>
      let H := fresh "Heq" in
      destruct (String.eqb s l) eqn:H;
      [apply String.eqb_eq in H; subst s; simpl | simpl]
  end.

(** What [handleDataChannelMessage] does to the component, for every frame:
    it returns normally, queues [RA_updates] and touches nothing else but the
    console. *)
Lemma RA_handle (c : RA.Component) (data : MessageData) :
  let r := RA.handleDataChannelMessage data c in
  fst r = Normal tt /\
  RA.state (snd r) = RA.state c /\
  RA.refs (snd r) = RA.refs c /\
  RA.stopped (snd r) = RA.stopped c /\
  RA.pending (snd r) = RA.pending c ++ RA_updates data.
Proof.
  unfold RA.handleDataChannelMessage, try_catch, RA.handleDataChannelMessage_try, bind, lift,
    RA_updates.
  destruct data as [raw|msg]; simpl.
  { rewrite app_nil_r. tauto. }
  destruct (get msg "type") as [type|e] eqn:Htype; simpl.
  2:{ rewrite app_nil_r. tauto. }
  destruct type; simpl; try (rewrite app_nil_r; tauto).
  eqb_cases s; try discriminate.
  - destruct (cbind (get msg "session") (fun s => get s "id")); simpl;
      rewrite app_nil_r; tauto.
  - tauto.
  - tauto.
  - destruct (final_transcription_defined _ _ Htype) as [t Ht]. rewrite Ht. simpl.
    destruct (truthy t) eqn:Htr; simpl.
    + rewrite (final_transcription_truthy _ _ Ht Htr). simpl. tauto.
    + rewrite app_nil_r. tauto.
  - rewrite app_nil_r. tauto.
Qed.

Lemma AA_final_transcription_defined (msg type : value) :
  get msg "type" = Normal type -> exists t, AA.final_transcription msg = Normal t.
Proof. exact (final_transcription_defined msg type). Qed.

Lemma AA_final_transcription_truthy (msg t : value) :
  AA.final_transcription msg = Normal t -> truthy t = true ->
  AA.response_input_transcription msg = Normal t.
Proof. exact (final_transcription_truthy msg t). Qed.

(** The same for the audio-only component, with [AA_updates]. *)
Lemma AA_handle (c : AA.Component) (data : MessageData) :
  let r := AA.handleDataChannelMessage data c in
  fst r = Normal tt /\
  AA.state (snd r) = AA.state c /\
  AA.refs (snd r) = AA.refs c /\
  AA.stopped (snd r) = AA.stopped c /\
  AA.pending (snd r) = AA.pending c ++ AA_updates data.
Proof.
  unfold AA.handleDataChannelMessage, try_catch, AA.handleDataChannelMessage_try, bind, lift,
    AA_updates.
  destruct data as [raw|msg]; simpl.
  { rewrite app_nil_r. tauto. }
  destruct (get msg "type") as [type|e] eqn:Htype; simpl.
  2:{ rewrite app_nil_r. tauto. }
  destruct type; simpl; try (rewrite app_nil_r; tauto).
  eqb_cases s; try discriminate.
  - destruct (cbind (get msg "session") (fun s => get s "id")); simpl;
      rewrite app_nil_r; tauto.
  - tauto.
  - tauto.
  - destruct (AA_final_transcription_defined _ _ Htype) as [t Ht]. rewrite Ht. simpl.
    destruct (truthy t) eqn:Htr; simpl.
    + rewrite (AA_final_transcription_truthy _ _ Ht Htr). simpl.
      destruct (AA.final_output_text msg) as [o|e] eqn:Ho; simpl.
      * destruct (truthy o) eqn:Hto; simpl.
        -- rewrite (final_output_text_truthy _ _ Ho Hto). simpl.
           rewrite <- app_assoc. tauto.
        -- tauto.
      * tauto.
    + destruct (AA.final_output_text msg) as [o|e] eqn:Ho; simpl.
      * destruct (truthy o) eqn:Hto; simpl.
        -- rewrite (final_output_text_truthy _ _ Ho Hto). simpl. tauto.
        -- rewrite app_nil_r. tauto.
      * rewrite app_nil_r. tauto.
  - rewrite app_nil_r. tauto.
Qed.

(** When the [try] block of [RealtimeAssistant.tsx] throws, nothing was
    queued. *)
Lemma RA_try_throws (c : RA.Component) (data : MessageData) :
  is_throw (fst (RA.handleDataChannelMessage_try data c)) = true ->
  RA_updates data = [].
Proof.
  unfold RA.handleDataChannelMessage_try, bind, lift, RA_updates.
  destruct data as [raw|msg]; simpl; [reflexivity|].
  destruct (get msg "type") as [type|e] eqn:Htype; simpl; [|reflexivity].
  destruct type; simpl; try discriminate.
  eqb_cases s; try discriminate; try reflexivity.
  destruct (final_transcription_defined _ _ Htype) as [t Ht]. rewrite Ht. simpl.
  destruct (truthy t) eqn:Htr; simpl; [|discriminate].
  rewrite (final_transcription_truthy _ _ Ht Htr). simpl. discriminate.
Qed.

(** When the [try] block of the audio-only component throws, nothing was
    queued, or the frame was a [response.done] whose final transcription had
    already been queued when the output text could not be read. *)
Lemma AA_try_throws (c : AA.Component) (data : MessageData) :
  is_throw (fst (AA.handleDataChannelMessage_try data c)) = true ->
  AA_updates data = [] \/
  exists msg t,
    data = JSONText msg /\ is_response_done msg /\
    AA.final_transcription msg = Normal t /\ truthy t = true /\
    is_throw (AA.final_output_text msg) = true /\
    AA_updates data = [AA.SetTranscription (AA.SetTo t)].
Proof.
  unfold AA.handleDataChannelMessage_try, bind, lift, AA_updates.
  destruct data as [raw|msg]; simpl; [auto|].
  destruct (get msg "type") as [type|e] eqn:Htype; simpl; [|auto].
  destruct type; simpl; try discriminate.
  eqb_cases s; try discriminate; auto.
  destruct (AA_final_transcription_defined _ _ Htype) as [t Ht]. rewrite Ht. simpl.
  destruct (truthy t) eqn:Htr; simpl.
  - rewrite (AA_final_transcription_truthy _ _ Ht Htr). simpl.
    destruct (AA.final_output_text msg) as [o|e] eqn:Ho; simpl.
    + destruct (truthy o) eqn:Hto; simpl; [|discriminate].
      rewrite (final_output_text_truthy _ _ Ho Hto). simpl. discriminate.
    + intros _. right. exists msg, t. rewrite Ho. repeat split; auto.
  - destruct (AA.final_output_text msg) as [o|e] eqn:Ho; simpl; [|auto].
    destruct (truthy o) eqn:Hto; simpl; [|discriminate].
    rewrite (final_output_text_truthy _ _ Ho Hto). simpl. discriminate.
Qed.

Lemma string_app_assoc (a b c : string) : ((a ++ b) ++ c = a ++ (b ++ c))%string.
Proof. induction a as [|ch a IH]; simpl; [reflexivity | now rewrite IH]. Qed.

Lemma string_app_nil_r (a : string) : (a ++ "")%string = a.
Proof. induction a as [|ch a IH]; simpl; [reflexivity | now rewrite IH]. Qed.

Lemma RA_deliver_all_app (c : RA.Component) (xs ys : list MessageData) :
  RA.deliver_all c (xs ++ ys) =
  cbind (RA.deliver_all c xs) (fun c' => RA.deliver_all c' ys).
Proof.
  revert c. induction xs as [|x xs IH]; intros c; simpl; [reflexivity|].
  destruct (RA.deliver c x); simpl; auto.
Qed.

Lemma AA_deliver_all_app (c : AA.Component) (xs ys : list MessageData) :
  AA.deliver_all c (xs ++ ys) =
  cbind (AA.deliver_all c xs) (fun c' => AA.deliver_all c' ys).
Proof.
  revert c. induction xs as [|x xs IH]; intros c; simpl; [reflexivity|].
  destruct (AA.deliver c x); simpl; auto.
Qed.

(** One event on a component with nothing queued: the updates of the frame
    are applied to the state of the last render. *)
Lemma RA_deliver (c : RA.Component) (data : MessageData) :
  RA.pending c = [] ->
  RA.deliver c data =
  cbind (RA.apply_updates (RA.state c) (RA_updates data)) (fun st =>
    Normal {| RA.state := st; RA.refs := RA.refs c; RA.pending := [];
              RA.stopped := RA.stopped c;
              RA.trace := RA.trace (exec (RA.handleDataChannelMessage data) c) |}).
Proof.
  intros Hp. unfold RA.deliver, RA.render, exec.
  destruct (RA_handle c data) as (_ & Hs & Hr & Hst & Hpe).
  rewrite Hs, Hr, Hst, Hpe, Hp. reflexivity.
Qed.

Lemma AA_deliver (c : AA.Component) (data : MessageData) :
  AA.pending c = [] ->
  AA.deliver c data =
  cbind (AA.apply_updates (AA.state c) (AA_updates data)) (fun st =>
    Normal {| AA.state := st; AA.refs := AA.refs c; AA.pending := [];
              AA.stopped := AA.stopped c;
              AA.trace := AA.trace (exec (AA.handleDataChannelMessage data) c) |}).
Proof.
  intros Hp. unfold AA.deliver, AA.render, exec.
  destruct (AA_handle c data) as (_ & Hs & Hr & Hst & Hpe).
  rewrite Hs, Hr, Hst, Hpe, Hp. reflexivity.
Qed.

Lemma RA_updates_transcript_delta (msg : value) (d : string) :
  is_transcript_delta msg d ->
  RA_updates (JSONText msg) = [RA.SetTranscription (RA.PlusDeltaOf msg)].
Proof. intros [Ht _]. unfold RA_updates. simpl. rewrite Ht. reflexivity. Qed.

Lemma AA_updates_transcript_delta (msg : value) (d : string) :
  is_transcript_delta msg d ->
  AA_updates (JSONText msg) = [AA.SetTranscription (AA.PlusDeltaOf msg)].
Proof. intros [Ht _]. unfold AA_updates. simpl. rewrite Ht. reflexivity. Qed.

(** Transcript deltas, delivered in order, are appended in order. *)
Lemma RA_deliver_deltas (msgs : list value) (ds : list string) :
  Forall2 is_transcript_delta msgs ds ->
  forall (c : RA.Component) (s : string),
    RA.pending c = [] ->
    RA.transcription (RA.state c) = Str s ->
    exists c',
      RA.deliver_all c (map JSONText msgs) = Normal c' /\
      RA.pending c' = [] /\
      RA.transcription (RA.state c') = Str (s ++ concatenation ds)%string /\
      RA.responseText (RA.state c') = RA.responseText (RA.state c).
Proof.
  induction 1 as [|msg d msgs ds Hd _ IH]; intros c s Hp Hs; simpl.
  - exists c. repeat split; auto. now rewrite Hs, string_app_nil_r.
  - rewrite (RA_deliver c _ Hp), (RA_updates_transcript_delta _ _ Hd). simpl.
    rewrite Hs. destruct Hd as [_ Hd]. rewrite Hd. simpl.
    match goal with |- context [RA.deliver_all ?c1 _] =>
      destruct (IH c1 (s ++ d)%string eq_refl eq_refl) as (c' & Hrun & Hp' & Ht' & Hr')
    end.
    exists c'. repeat split; auto.
    rewrite Ht'. now rewrite string_app_assoc.
Qed.

Lemma AA_deliver_deltas (msgs : list value) (ds : list string) :
  Forall2 is_transcript_delta msgs ds ->
  forall (c : AA.Component) (s : string),
    AA.pending c = [] ->
    AA.transcription (AA.state c) = Str s ->
    exists c',
      AA.deliver_all c (map JSONText msgs) = Normal c' /\
      AA.pending c' = [] /\
      AA.transcription (AA.state c') = Str (s ++ concatenation ds)%string /\
      AA.responseText (AA.state c') = AA.responseText (AA.state c).
Proof.
  induction 1 as [|msg d msgs ds Hd _ IH]; intros c s Hp Hs; simpl.
  - exists c. repeat split; auto. now rewrite Hs, string_app_nil_r.
  - rewrite (AA_deliver c _ Hp), (AA_updates_transcript_delta _ _ Hd). simpl.
    rewrite Hs. destruct Hd as [_ Hd]. rewrite Hd. simpl.
    match goal with |- context [AA.deliver_all ?c1 _] =>
      destruct (IH c1 (s ++ d)%string eq_refl eq_refl) as (c' & Hrun & Hp' & Ht' & Hr')
    end.
    exists c'. repeat split; auto.
    rewrite Ht'. now rewrite string_app_assoc.
Qed.

Lemma RA_updates_done (msg : value) :
  is_response_done msg ->
  RA_updates (JSONText msg) =
  match RA.final_transcription msg with
  | Normal t => if truthy t then [RA.SetTranscription (RA.SetTo t)] else []
  | Throw _ => []
  end.
Proof. intros Ht. unfold RA_updates. simpl. rewrite Ht. reflexivity. Qed.

Lemma AA_updates_done (msg : value) :
  is_response_done msg ->
  AA_updates (JSONText msg) =
  match AA.final_transcription msg with
  | Normal t => if truthy t then [AA.SetTranscription (AA.SetTo t)] else []
  | Throw _ => []
  end ++
  match AA.final_output_text msg with
  | Normal t => if truthy t then [AA.SetResponseText (AA.SetTo t)] else []
  | Throw _ => []
  end.
Proof. intros Ht. unfold AA_updates. simpl. rewrite Ht. reflexivity. Qed.

Lemma absent_updates {U} (field : Completion value) (u : value -> list U) :
  absent field ->
  match field with
  | Normal t => if truthy t then u t else []
  | Throw _ => []
  end = [].
Proof. destruct field as [t|e]; simpl; [intros ->|]; reflexivity. Qed.

(** A [response.done] without a final transcription leaves the transcription
    of either component as it is. *)
Lemma RA_deliver_done_absent (c : RA.Component) (msg : value) :
  is_response_done msg -> absent (RA.final_transcription msg) ->
  RA.pending c = [] ->
  exists c', RA.deliver c (JSONText msg) = Normal c' /\ RA.state c' = RA.state c.
Proof.
  intros Hd Ha Hp. rewrite (RA_deliver c _ Hp), (RA_updates_done _ Hd).
  rewrite (absent_updates _ _ Ha). simpl. eauto.
Qed.

Lemma AA_deliver_done_absent (c : AA.Component) (msg : value) :
  is_response_done msg -> absent (AA.final_transcription msg) ->
  AA.pending c = [] ->
  exists c',
    AA.deliver c (JSONText msg) = Normal c' /\
    AA.transcription (AA.state c') = AA.transcription (AA.state c) /\
    AA.isConnected (AA.state c') = AA.isConnected (AA.state c) /\
    (absent (AA.final_output_text msg) -> AA.state c' = AA.state c).
Proof.
  intros Hd Ha Hp. rewrite (AA_deliver c _ Hp), (AA_updates_done _ Hd).
  rewrite (absent_updates _ _ Ha). simpl.
  destruct (AA.final_output_text msg) as [o|e]; simpl.
  - destruct (truthy o) eqn:Ho; simpl; eexists; repeat split; simpl; auto.
    intros H. congruence.
  - eexists; repeat split; auto.
Qed.

(** A [response.done] with a truthy final transcription replaces the
    transcription. *)
Lemma RA_deliver_done_final (c : RA.Component) (msg final : value) :
  is_response_done msg -> RA.final_transcription msg = Normal final ->
  truthy final = true -> RA.pending c = [] ->
  exists c',
    RA.deliver c (JSONText msg) = Normal c' /\
    RA.transcription (RA.state c') = final /\
    RA.responseText (RA.state c') = RA.responseText (RA.state c).
Proof.
  intros Hd Hf Ht Hp. rewrite (RA_deliver c _ Hp), (RA_updates_done _ Hd), Hf, Ht.
  simpl. eexists; repeat split.
Qed.

Lemma AA_deliver_done_final (c : AA.Component) (msg final : value) :
  is_response_done msg -> AA.final_transcription msg = Normal final ->
  truthy final = true -> AA.pending c = [] ->
  exists c',
    AA.deliver c (JSONText msg) = Normal c' /\
    AA.transcription (AA.state c') = final /\
    AA.isConnected (AA.state c') = AA.isConnected (AA.state c) /\
    (is_throw (AA.final_output_text msg) = true ->
     AA.responseText (AA.state c') = AA.responseText (AA.state c)).
Proof.
  intros Hd Hf Ht Hp. rewrite (AA_deliver c _ Hp), (AA_updates_done _ Hd), Hf, Ht.
  simpl. destruct (AA.final_output_text msg) as [o|e]; simpl.
  - destruct (truthy o); simpl; eexists; repeat split; simpl; auto; discriminate.
  - eexists; repeat split.
Qed.

(** A falsy value shows nothing, and is taken as a child. *)
Lemma valid_child_falsy (v : value) : truthy v = false -> valid_child v = true.
Proof. destruct v; simpl; auto; discriminate. Qed.

Lemma child_taken (v : value) (p : string) :
  valid_child v = true -> child v p = Normal (or_else v (Str p)).
Proof.
  intros H. unfold child, or_else. destruct (truthy v); [now rewrite H | reflexivity].
Qed.

Lemma child_refused (v : value) (p : string) :
  valid_child v = false -> child v p = Throw (EngineError InvalidChild).
Proof.
  intros H. unfold child, or_else. destruct (truthy v) eqn:Ht; [now rewrite H|].
  rewrite (valid_child_falsy v Ht) in H. discriminate.
Qed.

(** The JSX is taken exactly when the texts are valid children. *)
Lemma RA_view_throws (st : RA.ReactState) :
  is_throw (RA.view st) = negb (RA_texts_valid st).
Proof.
  unfold RA.view, RA_texts_valid.
  destruct (valid_child (RA.sceneDescription st)) eqn:H1;
    [rewrite (child_taken _ _ H1) | now rewrite (child_refused _ _ H1)].
  destruct (valid_child (RA.transcription st)) eqn:H2;
    [rewrite (child_taken _ _ H2) | now rewrite (child_refused _ _ H2)].
  destruct (valid_child (RA.responseText st)) eqn:H3;
    [rewrite (child_taken _ _ H3) | now rewrite (child_refused _ _ H3)].
  reflexivity.
Qed.

Lemma AA_view_throws (st : AA.ReactState) :
  is_throw (AA.view st) = negb (AA_texts_valid st).
Proof.
  unfold AA.view, AA_texts_valid.
  destruct (valid_child (AA.transcription st)) eqn:H2;
    [rewrite (child_taken _ _ H2) | now rewrite (child_refused _ _ H2)].
  destruct (valid_child (AA.responseText st)) eqn:H3;
    [rewrite (child_taken _ _ H3) | now rewrite (child_refused _ _ H3)].
  reflexivity.
Qed.

Lemma RA_shown_valid (c : RA.Component) : RA_shown c <-> RA_texts_valid (RA.state c) = true.
Proof.
  unfold RA_shown. rewrite RA_view_throws. destruct (RA_texts_valid (RA.state c)); simpl; intuition.
Qed.

Lemma AA_shown_valid (c : AA.Component) : AA_shown c <-> AA_texts_valid (AA.state c) = true.
Proof.
  unfold AA_shown. rewrite AA_view_throws. destruct (AA_texts_valid (AA.state c)); simpl; intuition.
Qed.

(** A render whose state is computed: the JSX decides. *)
Lemma RA_rerender_taken (c r : RA.Component) :
  RA.render c = Normal r -> RA_texts_valid (RA.state r) = true -> RA.rerender c = Normal r.
Proof.
  intros Hr Hv. unfold RA.rerender. rewrite Hr. simpl.
  pose proof (RA_view_throws (RA.state r)) as H. rewrite Hv in H.
  destruct (RA.view (RA.state r)); [reflexivity | discriminate].
Qed.

Lemma RA_rerender_refused (c r : RA.Component) :
  RA.render c = Normal r -> RA_texts_valid (RA.state r) = false ->
  is_throw (RA.rerender c) = true.
Proof.
  intros Hr Hv. unfold RA.rerender. rewrite Hr. simpl.
  pose proof (RA_view_throws (RA.state r)) as H. rewrite Hv in H.
  destruct (RA.view (RA.state r)); [discriminate | reflexivity].
Qed.

Lemma AA_rerender_taken (c r : AA.Component) :
  AA.render c = Normal r -> AA_texts_valid (AA.state r) = true -> AA.rerender c = Normal r.
Proof.
  intros Hr Hv. unfold AA.rerender. rewrite Hr. simpl.
  pose proof (AA_view_throws (AA.state r)) as H. rewrite Hv in H.
  destruct (AA.view (AA.state r)); [reflexivity | discriminate].
Qed.

Lemma AA_rerender_refused (c r : AA.Component) :
  AA.render c = Normal r -> AA_texts_valid (AA.state r) = false ->
  is_throw (AA.rerender c) = true.
Proof.
  intros Hr Hv. unfold AA.rerender. rewrite Hr. simpl.
  pose proof (AA_view_throws (AA.state r)) as H. rewrite Hv in H.
  destruct (AA.view (AA.state r)); [discriminate | reflexivity].
Qed.

(** One event: [receive] is [deliver] followed by the JSX. *)
Lemma RA_receive_taken (c c' : RA.Component) (data : MessageData) :
  RA.deliver c data = Normal c' -> RA_texts_valid (RA.state c') = true ->
  RA.receive c data = Normal c'.
Proof. exact (RA_rerender_taken _ c'). Qed.


Lemma AA_receive_taken (c c' : AA.Component) (data : MessageData) :
  AA.deliver c data = Normal c' -> AA_texts_valid (AA.state c') = true ->
  AA.receive c data = Normal c'.
Proof. exact (AA_rerender_taken _ c'). Qed.

Lemma AA_receive_refused (c c' : AA.Component) (data : MessageData) :
  AA.deliver c data = Normal c' -> AA_texts_valid (AA.state c') = false ->
  is_throw (AA.receive c data) = true.
Proof. exact (AA_rerender_refused _ c'). Qed.





(** The state a [response.done] leaves, by its two final fields. *)
Lemma RA_deliver_done (c : RA.Component) (msg final : value) :
  is_response_done msg -> RA.final_transcription msg = Normal final ->
  RA.pending c = [] ->
  exists c',
    RA.deliver c (JSONText msg) = Normal c' /\ RA.pending c' = [] /\
    RA.transcription (RA.state c')
      = (if truthy final then final else RA.transcription (RA.state c)) /\
    RA.responseText (RA.state c') = RA.responseText (RA.state c) /\
    RA.sceneDescription (RA.state c') = RA.sceneDescription (RA.state c) /\
    RA.isConnected (RA.state c') = RA.isConnected (RA.state c).
Proof.
  intros Hd Hf Hp. rewrite (RA_deliver c _ Hp), (RA_updates_done _ Hd), Hf.
  destruct (truthy final); simpl; eexists; repeat split.
Qed.

Lemma AA_deliver_done (c : AA.Component) (msg final : value) :
  is_response_done msg -> AA.final_transcription msg = Normal final ->
  AA.pending c = [] ->
  exists c',
    AA.deliver c (JSONText msg) = Normal c' /\ AA.pending c' = [] /\
    AA.transcription (AA.state c')
      = (if truthy final then final else AA.transcription (AA.state c)) /\
    AA.responseText (AA.state c')
      = match AA.final_output_text msg with
        | Normal o => if truthy o then o else AA.responseText (AA.state c)
        | Throw _ => AA.responseText (AA.state c)
        end /\
    AA.isConnected (AA.state c') = AA.isConnected (AA.state c).
Proof.
  intros Hd Hf Hp. rewrite (AA_deliver c _ Hp), (AA_updates_done _ Hd), Hf.
  destruct (truthy final); simpl;
    (destruct (AA.final_output_text msg) as [o|e]; simpl;
     [destruct (truthy o); simpl|]); eexists; repeat split.
Qed.


(** What [handleDataChannelMessage] leaves in the trace: console calls. *)
Lemma RA_handle_trace (c : RA.Component) (data : MessageData) :
  exists logs,
    RA.trace (snd (RA.handleDataChannelMessage data c)) = RA.trace c ++ logs /\
    forallb is_console logs = true.
Proof.
  unfold RA.handleDataChannelMessage, try_catch, RA.handleDataChannelMessage_try, bind, lift.
  destruct data as [raw|msg]; simpl.
  { eexists; split; reflexivity. }
  destruct (get msg "type") as [type|e] eqn:Htype; simpl.
  2:{ eexists; split; [rewrite <- ?app_assoc; reflexivity | reflexivity]. }
  destruct type; simpl; try (eexists; split; reflexivity).
  eqb_cases s; try discriminate.
  - destruct (cbind (get msg "session") (fun s => get s "id")); simpl;
      eexists; (split; [rewrite <- ?app_assoc; reflexivity | reflexivity]).
  - eexists; split; reflexivity.
  - eexists; split; reflexivity.
  - destruct (final_transcription_defined _ _ Htype) as [t Ht]. rewrite Ht. simpl.
    destruct (truthy t) eqn:Htr; simpl.
    + rewrite (final_transcription_truthy _ _ Ht Htr). simpl.
      eexists; (split; [rewrite <- ?app_assoc; reflexivity | reflexivity]).
    + eexists; (split; [rewrite <- ?app_assoc; reflexivity | reflexivity]).
  - eexists; split; reflexivity.
Qed.

Lemma AA_handle_trace (c : AA.Component) (data : MessageData) :
  exists logs,
    AA.trace (snd (AA.handleDataChannelMessage data c)) = AA.trace c ++ logs /\
    forallb is_console logs = true.
Proof.
  unfold AA.handleDataChannelMessage, try_catch, AA.handleDataChannelMessage_try, bind, lift.
  destruct data as [raw|msg]; simpl.
  { eexists; split; reflexivity. }
  destruct (get msg "type") as [type|e] eqn:Htype; simpl.
  2:{ eexists; split; [rewrite <- ?app_assoc; reflexivity | reflexivity]. }
  destruct type; simpl; try (eexists; split; reflexivity).
  eqb_cases s; try discriminate.
  - destruct (cbind (get msg "session") (fun s => get s "id")); simpl;
      eexists; (split; [rewrite <- ?app_assoc; reflexivity | reflexivity]).
  - eexists; split; reflexivity.
  - eexists; split; reflexivity.
  - destruct (AA_final_transcription_defined _ _ Htype) as [t Ht]. rewrite Ht. simpl.
    destruct (truthy t) eqn:Htr; simpl.
    + rewrite (AA_final_transcription_truthy _ _ Ht Htr). simpl.
      destruct (AA.final_output_text msg) as [o|e] eqn:Ho; simpl.
      * destruct (truthy o) eqn:Hto; simpl.
        -- rewrite (final_output_text_truthy _ _ Ho Hto). simpl.
           eexists; (split; [rewrite <- ?app_assoc; reflexivity | reflexivity]).
        -- eexists; (split; [rewrite <- ?app_assoc; reflexivity | reflexivity]).
      * eexists; (split; [rewrite <- ?app_assoc; reflexivity | reflexivity]).
    + destruct (AA.final_output_text msg) as [o|e] eqn:Ho; simpl.
      * destruct (truthy o) eqn:Hto; simpl.
        -- rewrite (final_output_text_truthy _ _ Ho Hto). simpl.
           eexists; (split; [rewrite <- ?app_assoc; reflexivity | reflexivity]).
        -- eexists; (split; [rewrite <- ?app_assoc; reflexivity | reflexivity]).
      * eexists; (split; [rewrite <- ?app_assoc; reflexivity | reflexivity]).
  - eexists; split; reflexivity.
Qed.

(** A message event only queues updates of the two accumulators. *)
Lemma RA_updates_texts (data : MessageData) : Forall RA_text_update (RA_updates data).
Proof.
  unfold RA_updates. destruct (JSON_parse data) as [msg|e]; [|constructor].
  destruct (get msg "type") as [type|e]; [|constructor].
  repeat match goal with
         | |- context [if ?b then _ else _] => destruct b
         | |- context [match ?x with Normal _ => _ | Throw _ => _ end] => destruct x
         end; repeat constructor.
Qed.

Lemma AA_updates_texts (data : MessageData) : Forall AA_text_update (AA_updates data).
Proof.
  unfold AA_updates. destruct (JSON_parse data) as [msg|e]; [|constructor].
  destruct (get msg "type") as [type|e]; [|constructor].
  repeat match goal with
         | |- context [if ?b then _ else _] => destruct b
         | |- context [match ?x with Normal _ => _ | Throw _ => _ end] => destruct x
         end; simpl; repeat constructor.
Qed.

Lemma RA_text_updates_keep_connection (us : list RA.StateUpdate) :
  Forall RA_text_update us ->
  forall st st', RA.apply_updates st us = Normal st' ->
                 RA.isConnected st' = RA.isConnected st.
Proof.
  induction 1 as [|u us Hu _ IH]; intros st st'; simpl.
  - intros H. now injection H as <-.
  - destruct u; simpl in Hu; try contradiction; simpl;
      (destruct (RA.next u _) as [v|e]; simpl; [|discriminate]);
      intros H; now rewrite (IH _ _ H).
Qed.

Lemma AA_text_updates_keep_connection (us : list AA.StateUpdate) :
  Forall AA_text_update us ->
  forall st st', AA.apply_updates st us = Normal st' ->
                 AA.isConnected st' = AA.isConnected st.
Proof.
  induction 1 as [|u us Hu _ IH]; intros st st'; simpl.
  - intros H. now injection H as <-.
  - destruct u; simpl in Hu; try contradiction; simpl;
      (destruct (AA.next u _) as [v|e]; simpl; [|discriminate]);
      intros H; now rewrite (IH _ _ H).
Qed.

(** A received event was delivered. *)
Lemma RA_receive_delivered (c c' : RA.Component) (data : MessageData) :
  RA.receive c data = Normal c' -> RA.deliver c data = Normal c'.
Proof.
  unfold RA.receive, RA.rerender, RA.deliver.
  destruct (RA.render _) as [r|e]; simpl; [|discriminate].
  destruct (RA.view _); simpl; congruence.
Qed.

Lemma AA_receive_delivered (c c' : AA.Component) (data : MessageData) :
  AA.receive c data = Normal c' -> AA.deliver c data = Normal c'.
Proof.
  unfold AA.receive, AA.rerender, AA.deliver.
  destruct (AA.render _) as [r|e]; simpl; [|discriminate].
  destruct (AA.view _); simpl; congruence.
Qed.

Lemma RA_received_connection (c c' : RA.Component) (data : MessageData) :
  RA.pending c = [] -> RA.receive c data = Normal c' ->
  RA.isConnected (RA.state c') = RA.isConnected (RA.state c).
Proof.
  intros Hp H. apply RA_receive_delivered in H. rewrite (RA_deliver c _ Hp) in H.
  destruct (RA.apply_updates _ _) as [st|e] eqn:Hst; simpl in H; [|discriminate].
  injection H as <-. simpl.
  exact (RA_text_updates_keep_connection _ (RA_updates_texts data) _ _ Hst).
Qed.

Lemma AA_received_connection (c c' : AA.Component) (data : MessageData) :
  AA.pending c = [] -> AA.receive c data = Normal c' ->
  AA.isConnected (AA.state c') = AA.isConnected (AA.state c).
Proof.
  intros Hp H. apply AA_receive_delivered in H. rewrite (AA_deliver c _ Hp) in H.
  destruct (AA.apply_updates _ _) as [st|e] eqn:Hst; simpl in H; [|discriminate].
  injection H as <-. simpl.
  exact (AA_text_updates_keep_connection _ (AA_updates_texts data) _ _ Hst).
Qed.

End Facts.

Import JS Browser Events.
Local Open Scope list_scope.

(** ** Streamed text (C1, C2, C9) *)







(** C9.  A [response.done] carrying neither a final transcription nor a final
    output text leaves the state of either component, and so both
    accumulators, as they were. *)
Theorem response_done_without_finals_changes_nothing {E : JS.Engine}
    (c1 : RA.Component) (c2 : AA.Component) (msg : value) :
  is_response_done msg ->
  absent (AA.final_transcription msg) ->
  absent (AA.final_output_text msg) ->
  RA.pending c1 = [] -> AA.pending c2 = [] ->
  (exists c1',
     RA.deliver c1 (JSONText msg) = Normal c1' /\
     RA.transcription (RA.state c1') = RA.transcription (RA.state c1) /\
     RA.responseText (RA.state c1') = RA.responseText (RA.state c1)) /\
  (exists c2',
     AA.deliver c2 (JSONText msg) = Normal c2' /\
     AA.transcription (AA.state c2') = AA.transcription (AA.state c2) /\
     AA.responseText (AA.state c2') = AA.responseText (AA.state c2)).
Proof.
  intros Hd Ht Ho Hp1 Hp2. split.
  - destruct (RA_deliver_done_absent c1 msg Hd Ht Hp1) as (c' & Hrun & Hst).
    exists c'. now rewrite Hst.
  - destruct (AA_deliver_done_absent c2 msg Hd Ht Hp2) as (c' & Hrun & _ & _ & Hst).
    exists c'. now rewrite (Hst Ho).
Qed.

Lemma response_done_without_finals_changes_nothing_witness :
  (exists c1',
     RA.deliver Examples.listening (JSONText (Examples.done_event (Obj []))) = Normal c1' /\
     RA.transcription (RA.state c1') = Str "partial" /\
     RA.responseText (RA.state c1') = Str "") /\
  (exists c2',
     AA.deliver Examples.listening_audio (JSONText (Examples.done_event (Obj [])))
       = Normal c2' /\
     AA.transcription (AA.state c2') = Str "partial" /\
     AA.responseText (AA.state c2') = Str "").
Proof.
  apply (response_done_without_finals_changes_nothing (E := IntegerEngine.engine)
           Examples.listening Examples.listening_audio (Examples.done_event (Obj [])));
    reflexivity.
Defined.

(** The text deltas "Hel" and "lo" give the response text "Hello", and
    [{type: "response.done", response: {}}] keeps it. *)
Example text_deltas_then_done :
  (exists c,
     RA.deliver_all Examples.mounted
       [JSONText (Examples.text_delta_event "Hel"); JSONText (Examples.text_delta_event "lo")]
       = Normal c /\
     RA.responseText (RA.state c) = Str "Hello") /\
  (exists c,
     RA.deliver_all Examples.mounted
       [JSONText (Examples.text_delta_event "Hel"); JSONText (Examples.text_delta_event "lo");
        JSONText (Examples.done_event (Obj []))]
       = Normal c /\
     RA.responseText (RA.state c) = Str "Hello").
Proof. split; eexists; split; vm_compute; reflexivity. Qed.

(** ** Tolerance of the inbound handler (C8) *)

(** C8, as the code has it.  For every frame, on a component that is on the
    page, the handler of either component returns normally, touches neither
    the refs nor the tracks, leaves only console calls in the trace (nothing
    is sent, nothing is closed) and queues only updates of the two
    accumulators; and the render that follows either goes through with the
    connection flag as it was, or throws, which it only does for a frame
    whose handling did not fail.  When the [try] block throws (the data is
    not JSON, or handling fails), the component of [RealtimeAssistant.tsx] is
    rendered with the state it had; so is the audio-only component, unless
    the frame is a [response.done] with a truthy final transcription, queued
    before the output text could not be read: that one is applied, and makes
    the render throw when it is a plain object. *)
Theorem handler_tolerates_every_frame {E : JS.Engine}
    (c1 : RA.Component) (c2 : AA.Component) (data : MessageData) :
  RA.pending c1 = [] -> RA_shown c1 -> AA.pending c2 = [] -> AA_shown c2 ->
  (fst (RA.handleDataChannelMessage data c1) = Normal tt /\
   RA.refs (exec (RA.handleDataChannelMessage data) c1) = RA.refs c1 /\
   RA.stopped (exec (RA.handleDataChannelMessage data) c1) = RA.stopped c1 /\
   (exists logs,
      RA.trace (exec (RA.handleDataChannelMessage data) c1) = RA.trace c1 ++ logs /\
      forallb is_console logs = true) /\
   Forall RA_text_update (RA.pending (exec (RA.handleDataChannelMessage data) c1)) /\
   match RA.receive c1 data with
   | Normal c1' => RA.isConnected (RA.state c1') = RA.isConnected (RA.state c1)
   | Throw _ => is_throw (fst (RA.handleDataChannelMessage_try data c1)) = false
   end /\
   (is_throw (fst (RA.handleDataChannelMessage_try data c1)) = true ->
    exists c1', RA.receive c1 data = Normal c1' /\ RA.state c1' = RA.state c1)) /\
  (fst (AA.handleDataChannelMessage data c2) = Normal tt /\
   AA.refs (exec (AA.handleDataChannelMessage data) c2) = AA.refs c2 /\
   AA.stopped (exec (AA.handleDataChannelMessage data) c2) = AA.stopped c2 /\
   (exists logs,
      AA.trace (exec (AA.handleDataChannelMessage data) c2) = AA.trace c2 ++ logs /\
      forallb is_console logs = true) /\
   Forall AA_text_update (AA.pending (exec (AA.handleDataChannelMessage data) c2)) /\
   match AA.receive c2 data with
   | Normal c2' => AA.isConnected (AA.state c2') = AA.isConnected (AA.state c2)
   | Throw _ =>
       is_throw (fst (AA.handleDataChannelMessage_try data c2)) = false \/
       exists msg final,
         data = JSONText msg /\ is_response_done msg /\
         AA.final_transcription msg = Normal final /\ valid_child final = false
   end /\
   (is_throw (fst (AA.handleDataChannelMessage_try data c2)) = true ->
    (exists c2', AA.receive c2 data = Normal c2' /\ AA.state c2' = AA.state c2) \/
    exists msg final,
      data = JSONText msg /\ is_response_done msg /\
      AA.final_transcription msg = Normal final /\ truthy final = true /\
      is_throw (AA.final_output_text msg) = true /\
      if valid_child final then
        exists c2',
          AA.receive c2 data = Normal c2' /\
          AA.transcription (AA.state c2') = final /\
          AA.responseText (AA.state c2') = AA.responseText (AA.state c2) /\
          AA.isConnected (AA.state c2') = AA.isConnected (AA.state c2)
      else is_throw (AA.receive c2 data) = true)).
Proof.
  intros Hp1 Hsh1 Hp2 Hsh2. split.
  - destruct (RA_handle c1 data) as (Hn & _ & Hr & Hs & Hpe).
    assert (Hfail : is_throw (fst (RA.handleDataChannelMessage_try data c1)) = true ->
                    exists c1', RA.receive c1 data = Normal c1' /\ RA.state c1' = RA.state c1).
    { intros Hthrow.
      assert (Hd : RA.deliver c1 data =
                   Normal {| RA.state := RA.state c1; RA.refs := RA.refs c1;
                             RA.pending := []; RA.stopped := RA.stopped c1;
                             RA.trace := RA.trace (exec (RA.handleDataChannelMessage data) c1) |}).
      { rewrite (RA_deliver c1 _ Hp1), (RA_try_throws _ _ Hthrow). reflexivity. }
      eexists. split; [apply (RA_receive_taken _ _ _ Hd); now apply RA_shown_valid|].
      reflexivity. }
    repeat split; auto.
    + exact (RA_handle_trace c1 data).
    + unfold exec. rewrite Hpe, Hp1. exact (RA_updates_texts data).
    + destruct (RA.receive c1 data) as [c1'|e] eqn:Hrec.
      * exact (RA_received_connection _ _ _ Hp1 Hrec).
      * destruct (is_throw (fst (RA.handleDataChannelMessage_try data c1))) eqn:Ht; auto.
        destruct (Hfail eq_refl) as (c1' & Hrec' & _). congruence.
  - destruct (AA_handle c2 data) as (Hn & _ & Hr & Hs & Hpe).
    assert (Hfail :
      is_throw (fst (AA.handleDataChannelMessage_try data c2)) = true ->
      (exists c2', AA.receive c2 data = Normal c2' /\ AA.state c2' = AA.state c2) \/
      exists msg final,
        data = JSONText msg /\ is_response_done msg /\
        AA.final_transcription msg = Normal final /\ truthy final = true /\
        is_throw (AA.final_output_text msg) = true /\
        if valid_child final then
          exists c2',
            AA.receive c2 data = Normal c2' /\
            AA.transcription (AA.state c2') = final /\
            AA.responseText (AA.state c2') = AA.responseText (AA.state c2) /\
            AA.isConnected (AA.state c2') = AA.isConnected (AA.state c2)
        else is_throw (AA.receive c2 data) = true).
    { intros Hthrow.
      destruct (AA_try_throws _ _ Hthrow) as [Hu | (msg & t & -> & Hd & Hf & Ht & Ho & Hu)].
      - left.
        assert (Hd : AA.deliver c2 data =
                     Normal {| AA.state := AA.state c2; AA.refs := AA.refs c2;
                               AA.pending := []; AA.stopped := AA.stopped c2;
                               AA.trace := AA.trace (exec (AA.handleDataChannelMessage data) c2) |}).
        { rewrite (AA_deliver c2 _ Hp2), Hu. reflexivity. }
        eexists. split; [apply (AA_receive_taken _ _ _ Hd); now apply AA_shown_valid|].
        reflexivity.
      - right. exists msg, t. split; [reflexivity|]. repeat (split; [assumption|]).
        assert (Hdel : AA.deliver c2 (JSONText msg) =
                     Normal {| AA.state := {| AA.isConnected := AA.isConnected (AA.state c2);
                                              AA.transcription := t;
                                              AA.responseText := AA.responseText (AA.state c2) |};
                               AA.refs := AA.refs c2;
                               AA.pending := []; AA.stopped := AA.stopped c2;
                               AA.trace :=
                                 AA.trace (exec (AA.handleDataChannelMessage (JSONText msg)) c2) |}).
        { rewrite (AA_deliver c2 _ Hp2), Hu. reflexivity. }
        apply AA_shown_valid in Hsh2. unfold AA_texts_valid in Hsh2.
        apply andb_true_iff in Hsh2 as [_ Hrv].
        destruct (valid_child t) eqn:Hv.
        + eexists. split.
          { apply (AA_receive_taken _ _ _ Hdel). unfold AA_texts_valid. cbn.
            now rewrite Hv, Hrv. }
          repeat split.
        + apply (AA_receive_refused _ _ _ Hdel). unfold AA_texts_valid. cbn. now rewrite Hv. }
    repeat split; auto.
    + exact (AA_handle_trace c2 data).
    + unfold exec. rewrite Hpe, Hp2. exact (AA_updates_texts data).
    + destruct (AA.receive c2 data) as [c2'|e] eqn:Hrec.
      * exact (AA_received_connection _ _ _ Hp2 Hrec).
      * destruct (is_throw (fst (AA.handleDataChannelMessage_try data c2))) eqn:Ht; auto.
        destruct (Hfail eq_refl) as [(c2' & Hrec' & _) | (msg & final & Hdata & Hd & Hf & _ & _ & Hv)];
          [congruence|].
        right. exists msg, final. repeat (split; [assumption|]).
        destruct (valid_child final); [|reflexivity].
        destruct Hv as (c2' & Hrec' & _). congruence.
Qed.

Lemma handler_tolerates_every_frame_witness :
  (fst (RA.handleDataChannelMessage (NotJSON "{") Examples.listening) = Normal tt /\
   RA.refs (exec (RA.handleDataChannelMessage (NotJSON "{")) Examples.listening)
     = RA.refs Examples.listening /\
   exists c1',
     RA.receive Examples.listening (NotJSON "{") = Normal c1' /\
     RA.state c1' = RA.state Examples.listening) /\
  (fst (AA.handleDataChannelMessage (NotJSON "{") Examples.listening_audio) = Normal tt /\
   AA.refs (exec (AA.handleDataChannelMessage (NotJSON "{")) Examples.listening_audio)
     = AA.refs Examples.listening_audio /\
   Forall AA_text_update
     (AA.pending (exec (AA.handleDataChannelMessage (NotJSON "{")) Examples.listening_audio))).
Proof.
  destruct (handler_tolerates_every_frame (E := IntegerEngine.engine)
              Examples.listening Examples.listening_audio (NotJSON "{")
              eq_refl eq_refl eq_refl eq_refl)
    as ((H1 & H2 & _ & _ & _ & _ & H3) & (H4 & H5 & _ & _ & H6 & _)).
  split; [|auto].
  split; [exact H1|]. split; [exact H2|]. exact (H3 eq_refl).
Defined.

(** C8 as stated fails in the audio-only component: on a [response.done]
    with a final transcription and an [output[0]] without [content], handling
    throws, and the transcription has changed all the same. *)
Lemma handling_failure_after_transcription_update :
  is_throw (fst (AA.handleDataChannelMessage_try
                   (JSONText Examples.done_with_shapeless_output)
                   Examples.listening_audio)) = true /\
  AA.transcription (AA.state Examples.listening_audio) = Str "partial" /\
  exists c',
    AA.deliver Examples.listening_audio (JSONText Examples.done_with_shapeless_output)
      = Normal c' /\
    AA.transcription (AA.state c') = Str "final" /\
    AA.transcription (AA.state c') <> AA.transcription (AA.state Examples.listening_audio).
Proof.
  split; [reflexivity|]. split; [reflexivity|].
  eexists. split; [reflexivity|]. split; [reflexivity|]. discriminate.
Qed.

(** The same frame on the component of [RealtimeAssistant.tsx], which does
    not read the output text: handling succeeds. *)
Example shapeless_output_on_video_component :
  fst (RA.handleDataChannelMessage_try (JSONText Examples.done_with_shapeless_output)
         Examples.listening) = Normal tt.
Proof. reflexivity. Qed.

(** A [session.created] without a [session]: handling throws, nothing
    changes. *)
Example session_created_without_session_is_dropped :
  is_throw (fst (RA.handleDataChannelMessage_try
                   (JSONText Examples.session_created_without_session)
                   Examples.listening)) = true /\
  exists c',
    RA.deliver Examples.listening (JSONText Examples.session_created_without_session)
      = Normal c' /\
    RA.state c' = RA.state Examples.listening.
Proof. split; [reflexivity|]. eexists. split; reflexivity. Qed.

(** A transcript delta whose [delta] cannot be converted to a text: handling
    succeeds and queues the updater, which throws when React runs it; the
    render fails in both components. *)
Example poisoned_delta_fails_the_render :
  fst (RA.handleDataChannelMessage_try (JSONText Examples.poisoned_delta) Examples.listening)
    = Normal tt /\
  RA.receive Examples.listening (JSONText Examples.poisoned_delta)
    = Throw (EngineError NotPrimitive) /\
  AA.receive Examples.listening_audio (JSONText Examples.poisoned_delta)
    = Throw (EngineError NotPrimitive).
Proof. repeat split. Qed.

(** A final transcription that is an object: handling succeeds, and the
    render throws on the child that is not a text. *)
Example object_transcription_fails_the_render :
  fst (RA.handleDataChannelMessage_try (JSONText Examples.done_with_object_transcription)
         Examples.listening) = Normal tt /\
  RA.receive Examples.listening (JSONText Examples.done_with_object_transcription)
    = Throw (EngineError InvalidChild).
Proof. split; reflexivity. Qed.

(** ** Failed negotiation (C3) *)

Section Connect.
Context {E : JS.Engine}.

Lemma track_is_audio_or_video (t : Track) : is_audio t = true \/ is_video t = true.
Proof. unfold is_audio, is_video. destruct (track_kind t); auto. Qed.

(** [add_tracks] only touches the senders of the peer connection. *)
Lemma RA_add_tracks (tracks : list Track) (c : RA.Component) :
  exists pc',
    RA.add_tracks tracks c =
    (Normal tt,
     {| RA.state := RA.state c;
        RA.refs := RA.with_peerConnection pc' (RA.refs c);
        RA.pending := RA.pending c; RA.stopped := RA.stopped c;
        RA.trace := RA.trace c |}) /\
    (RA.peerConnectionRef (RA.refs c) = None -> pc' = None) /\
    (RA.peerConnectionRef (RA.refs c) <> None -> pc' <> None).
Proof.
  revert c. induction tracks as [|t rest IH]; intros c.
  - exists (RA.peerConnectionRef (RA.refs c)). simpl. unfold ret.
    destruct c as [st [pc dc el la lv] p s tr]; simpl. auto.
  - simpl. unfold bind, RA.update_pc, RA.set_refs, modify. simpl.
    match goal with |- context [RA.add_tracks rest ?c1] =>
      destruct (IH c1) as (pc' & Hrun & Hnone & Hsome) end.
    exists pc'. rewrite Hrun. simpl in *. split; [reflexivity|].
    destruct c as [st [pc dc el la lv] p s tr]; simpl in *.
    destruct pc; simpl in *; split; auto; try congruence.
    intros _. apply Hsome. discriminate.
Qed.

(** [disconnectFromOpenAI] never throws, and leaves [RA_disconnected]. *)
Lemma RA_disconnect (c : RA.Component) :
  RA.disconnectFromOpenAI c = (Normal tt, RA_disconnected c).
Proof.
  destruct c as [st [pc dc el la lv] pend stp tr].
  unfold RA_disconnected, RA.disconnectFromOpenAI, bind, read, RA.set_refs, RA.stop_tracks,
    RA.emit, RA.enqueue, modify, ret, stop_all, getTracks.
  destruct pc, dc, la, lv, el; cbv -[app map];
    rewrite ?app_nil_r, <- ?app_assoc; reflexivity.
Qed.


(** The [try] block of [connectToOpenAI] when the negotiation fails: it
    throws, with the connection and the channel created, the audio tracks
    held, the video tracks held or already stopped, and no alert shown. *)
Lemma RA_connect_try_negotiation_failure (c : RA.Component) (env : RA.ConnectEnv)
    (ms : MediaStream) :
  RA_reaches_negotiation env ms ->
  RA_negotiation_succeeds env = false ->
  exists e s',
    RA.connectToOpenAI_try env c = (Throw e, s') /\
    RA.state s' = RA.state c /\
    RA.peerConnectionRef (RA.refs s') <> None /\
    RA.dataChannelRef (RA.refs s') <> None /\
    RA.localAudioStreamRef (RA.refs s') = Some (getAudioTracks ms) /\
    (RA.localVideoStreamRef (RA.refs s') = Some (getVideoTracks ms) \/
     all_stopped (getVideoTracks ms) (RA.stopped s')) /\
    alerts (RA.trace s') = alerts (RA.trace c) /\
    sent (RA.trace s') = sent (RA.trace c) /\
    exists us, RA.pending s' = RA.pending c ++ us /\ Forall RA_constant us.
Proof.
  intros (tr & sd & cs & key & bearer & offer & H1 & H2 & H3 & H4 & H5 & H6 & H7 & H8 & H9)
    Hfail.
  unfold RA_negotiation_succeeds in Hfail.
  destruct c as [st [pc0 dc0 el0 la0 lv0] pend stp tr0].
  destruct env as [tok um pl co sl sr srd].
  destruct tr as [tok_ok tok_status tok_json tok_text].
  cbn in H1, H2, H3, H7, H8, H9, Hfail. subst.
  destruct (RA.connectToOpenAI_try _ _) as [res s'] eqn:Hrun.
  cbv -[get to_string truthy app map filter RA.add_tracks In message_of] in Hrun.
  rewrite H4 in Hrun. cbv beta iota in Hrun. rewrite H5 in Hrun. cbv beta iota in Hrun.
  destruct el0 as [el|]; [destruct pl as [[]|pe]|].
  all: match type of Hrun with context [RA.add_tracks ?l ?s] =>
         destruct (RA_add_tracks l s) as (pc' & Hadd & _ & Hsome); rewrite Hadd in Hrun;
         clear Hadd;
         assert (Hpc : pc' <> None) by (apply Hsome; cbv; discriminate); clear Hsome
       end; cbv beta iota in Hrun; rewrite H6 in Hrun; cbv beta iota in Hrun.
  all: destruct sr as [[sr_ok sr_status sr_json sr_text]|e0];
    cbv [ok text is_throw negb andb] in Hrun, Hfail;
    [ destruct sr_ok;
      [ destruct sr_text as [t|e1];
        [ destruct srd as [[]|e2]; [discriminate|] | ]
      | destruct sr_text as [t|e1] ]
    | ].
  all: cbv -[app map filter] in Hrun; injection Hrun as <- <-.
  all: eexists; eexists; (split; [reflexivity|]).
  all: split; [reflexivity|]; split; [exact Hpc|]; split; [discriminate|];
       split; [reflexivity|].
  all: split;
    [ first [ left; reflexivity
            | right; intros t0 Hin; apply in_or_app; right; now apply in_map ] |].
  all: unfold alerts, sent; cbn [RA.trace RA.pending]; rewrite ?filter_app; cbn [filter is_alert is_send];
       rewrite ?app_nil_r.
  all: split; [reflexivity|]; split; [reflexivity|].
  all: eexists; rewrite <- ?app_assoc; cbn [app]; (split; [reflexivity|]); repeat constructor.
Qed.

Lemma RA_apply_updates_app (st : RA.ReactState) (us vs : list RA.StateUpdate) :
  RA.apply_updates st (us ++ vs) =
  cbind (RA.apply_updates st us) (fun st' => RA.apply_updates st' vs).
Proof.
  revert st. induction us as [|u us IH]; intros st; simpl; [reflexivity|].
  destruct (RA.apply_update st u); simpl; auto.
Qed.

Lemma RA_constant_updates (us : list RA.StateUpdate) :
  Forall RA_constant us ->
  forall st, exists st', RA.apply_updates st us = Normal st'.
Proof.
  induction 1 as [|u us Hu _ IH]; intros st; simpl; eauto.
  destruct u as [b|[v|m]|[v|m]|v|b|e|b]; simpl in *; try contradiction; apply IH.
Qed.

(** [connectToOpenAI] when no connection is up: the accumulators are reset,
    the [try] block runs, and a throw is answered by an alert and a
    disconnect. *)
Lemma RA_connect_unfold (c : RA.Component) (env : RA.ConnectEnv) :
  RA_not_connected c ->
  RA.connectToOpenAI env c =
  match RA.connectToOpenAI_try env
          {| RA.state := RA.state c; RA.refs := RA.refs c;
             RA.pending :=
               (((RA.pending c ++ [RA.SetTranscription (RA.SetTo (Str ""))])
                 ++ [RA.SetResponseText (RA.SetTo (Str ""))])
                ++ [RA.SetSceneDescription (Str "")])
               ++ [RA.SetVideoError None];
             RA.stopped := RA.stopped c; RA.trace := RA.trace c |}
  with
  | (Normal a, s') => (Normal a, s')
  | (Throw e, s') =>
      RA.disconnectFromOpenAI
        {| RA.state := RA.state s'; RA.refs := RA.refs s'; RA.pending := RA.pending s';
           RA.stopped := RA.stopped s';
           RA.trace := (RA.trace s' ++ [ConsoleError "Error initializing connection:"])
                       ++ [Alert ("Connection error: " ++ message_of e)] |}
  end.
Proof.
  intros Hnc. unfold RA.connectToOpenAI. unfold bind at 1, read at 1.
  assert (Hc : match RA.peerConnectionRef (RA.refs c) with
               | Some p => is_connected p | None => false end = false).
  { unfold RA_not_connected in Hnc. destruct (RA.peerConnectionRef (RA.refs c)); auto. }
  rewrite Hc.
  cbv [bind RA.enqueue RA.emit modify try_catch].
  cbn [RA.state RA.refs RA.pending RA.stopped RA.trace].
  reflexivity.
Qed.

(** [RealtimeAssistant.tsx]: a connect that fails at the negotiation stops
    every track it acquired, closes and drops the connection and the channel,
    shows one alert and renders as not connected. *)
Lemma RA_connect_negotiation_failure (c : RA.Component) (env : RA.ConnectEnv)
    (ms : MediaStream) :
  RA_not_connected c ->
  RA_reaches_negotiation env ms ->
  RA_negotiation_succeeds env = false ->
  let r := RA.connectToOpenAI env c in
  fst r = Normal tt /\
  all_stopped ms (RA.stopped (snd r)) /\
  RA.peerConnectionRef (RA.refs (snd r)) = None /\
  RA.dataChannelRef (RA.refs (snd r)) = None /\
  RA.localAudioStreamRef (RA.refs (snd r)) = None /\
  RA.localVideoStreamRef (RA.refs (snd r)) = None /\
  (exists e, alerts (RA.trace (snd r)) =
             alerts (RA.trace c) ++ [Alert ("Connection error: " ++ message_of e)]) /\
  sent (RA.trace (snd r)) = sent (RA.trace c) /\
  In ClosePeerConnection (RA.trace (snd r)) /\
  In CloseDataChannel (RA.trace (snd r)) /\
  (RA.pending c = [] ->
   exists c', RA.render (snd r) = Normal c' /\ RA.isConnected (RA.state c') = false).
Proof.
  intros Hnc Hreach Hfail. cbv zeta. rewrite (RA_connect_unfold c env Hnc).
  match goal with |- context [RA.connectToOpenAI_try env ?c1] =>
    destruct (RA_connect_try_negotiation_failure c1 env ms Hreach Hfail)
      as (e & s' & Hrun & Hst & Hpc & Hdc & Hla & Hlv & Hal & Hse & us & Hpe & Hus)
  end.
  rewrite Hrun, RA_disconnect.
  cbn [fst snd RA.state RA.refs RA.pending RA.stopped RA.trace] in *.
  unfold RA_disconnected.
  cbn [RA.state RA.refs RA.pending RA.stopped RA.trace RA.peerConnectionRef RA.dataChannelRef
       RA.localAudioStreamRef RA.localVideoStreamRef].
  rewrite Hla.
  split; [reflexivity|]. split.
  { intros t Hin. destruct (track_is_audio_or_video t) as [Ha|Hv].
    - apply in_or_app; left. apply in_or_app; right.
      apply in_map. apply filter_In. auto.
    - assert (Hin' : In t (getVideoTracks ms)) by (apply filter_In; auto).
      destruct Hlv as [Hlv|Hlv].
      + rewrite Hlv. apply in_or_app; right. now apply in_map.
      + apply in_or_app; left. apply in_or_app; left. now apply Hlv. }
  repeat (split; [reflexivity|]).
  split.
  { exists e. unfold alerts in *. rewrite !filter_app, Hal.
    destruct (RA.peerConnectionRef (RA.refs s')), (RA.dataChannelRef (RA.refs s'));
      cbn [filter is_alert app]; rewrite ?app_nil_r; reflexivity. }
  split.
  { unfold sent in *. rewrite !filter_app, Hse.
    destruct (RA.peerConnectionRef (RA.refs s')), (RA.dataChannelRef (RA.refs s'));
      cbn [filter is_send app]; rewrite ?app_nil_r; reflexivity. }
  split.
  { destruct (RA.peerConnectionRef (RA.refs s')); [|congruence].
    apply in_or_app; left. apply in_or_app; left.
    apply in_or_app; right. now left. }
  split.
  { destruct (RA.dataChannelRef (RA.refs s')); [|congruence].
    apply in_or_app; left. apply in_or_app; right. now left. }
  intros Hp. unfold RA.render.
  cbn [RA.state RA.refs RA.pending RA.stopped RA.trace].
  rewrite Hpe, Hp, Hst. cbn [app].
  cbn [RA.apply_updates RA.apply_update RA.next cbind].
  rewrite RA_apply_updates_app.
  match goal with |- context [RA.apply_updates ?st0 us] =>
    destruct (RA_constant_updates us Hus st0) as [st' Hst']; rewrite Hst'
  end.
  cbn [RA.apply_updates RA.apply_update RA.next cbind].
  eexists. split; reflexivity.
Qed.

End Connect.

(** C3 on the audio-only component.  The offer is refused, or the answer
    cannot be set: the peer connection is closed and one alert is shown, but
    the microphone track acquired for the attempt is not stopped and the refs
    keep the stream, the channel and the closed connection. *)
Theorem audio_connect_failure_keeps_microphone :
  (AA.stopped (exec (AA.connectToOpenAI Examples.audio_offer_refused) Examples.mounted_audio)
     = [] /\
   ~ all_stopped [Examples.mic]
       (AA.stopped (exec (AA.connectToOpenAI Examples.audio_offer_refused)
                      Examples.mounted_audio)) /\
   AA.localStreamRef
     (AA.refs (exec (AA.connectToOpenAI Examples.audio_offer_refused) Examples.mounted_audio))
     = Some [Examples.mic] /\
   AA.dataChannelRef
     (AA.refs (exec (AA.connectToOpenAI Examples.audio_offer_refused) Examples.mounted_audio))
     = Some (createDataChannel "oai-events") /\
   alerts (AA.trace (exec (AA.connectToOpenAI Examples.audio_offer_refused)
                       Examples.mounted_audio))
     = [Alert "Failed to get SDP answer: Unauthorized"]) /\
  (AA.stopped (exec (AA.connectToOpenAI Examples.audio_answer_rejected) Examples.mounted_audio)
     = [] /\
   ~ all_stopped [Examples.mic]
       (AA.stopped (exec (AA.connectToOpenAI Examples.audio_answer_rejected)
                      Examples.mounted_audio)) /\
   AA.localStreamRef
     (AA.refs (exec (AA.connectToOpenAI Examples.audio_answer_rejected) Examples.mounted_audio))
     = Some [Examples.mic] /\
   AA.dataChannelRef
     (AA.refs (exec (AA.connectToOpenAI Examples.audio_answer_rejected) Examples.mounted_audio))
     = Some (createDataChannel "oai-events") /\
   alerts (AA.trace (exec (AA.connectToOpenAI Examples.audio_answer_rejected)
                       Examples.mounted_audio))
     = [Alert "Error initializing WebRTC: Failed to parse SessionDescription"]).
Proof.
  split; (split; [vm_compute; reflexivity|]);
    (split; [vm_compute; intros H; exact (H Examples.mic (or_introl eq_refl))|]);
    repeat split; vm_compute; reflexivity.
Qed.

(** The same refusal on the component of [RealtimeAssistant.tsx]: both
    tracks are stopped and every ref is dropped. *)
Example video_connect_failure_releases_everything :
  fst (RA.connectToOpenAI Examples.video_offer_refused Examples.mounted) = Normal tt /\
  all_stopped [Examples.mic; Examples.camera]
    (RA.stopped (snd (RA.connectToOpenAI Examples.video_offer_refused Examples.mounted))) /\
  RA.peerConnectionRef
    (RA.refs (snd (RA.connectToOpenAI Examples.video_offer_refused Examples.mounted))) = None /\
  alerts (RA.trace (snd (RA.connectToOpenAI Examples.video_offer_refused Examples.mounted)))
    = [Alert "Connection error: Failed to get SDP answer: Unauthorized"].
Proof.
  assert (Hreach : RA_reaches_negotiation (E := IntegerEngine.engine)
                     Examples.video_offer_refused [Examples.mic; Examples.camera]).
  { unfold RA_reaches_negotiation.
    exists Examples.token_granted. do 5 eexists. repeat split; reflexivity. }
  destruct (RA_connect_negotiation_failure (E := IntegerEngine.engine)
              Examples.mounted Examples.video_offer_refused
              [Examples.mic; Examples.camera] I Hreach eq_refl)
    as (H1 & H2 & H3 & _).
  repeat split; auto.
Qed.

(** ** Disconnect (C5) *)

Section Disconnect.
Context {E : JS.Engine}.


(** A component that renders still renders after a disconnect, as not
    connected and with empty accumulators. *)
Lemma RA_render_disconnected (c r : RA.Component) :
  RA.render c = Normal r ->
  exists r',
    RA.render (RA_disconnected c) = Normal r' /\
    RA.isConnected (RA.state r') = false /\
    RA.transcription (RA.state r') = Str "" /\
    RA.responseText (RA.state r') = Str "".
Proof.
  unfold RA.render, RA_disconnected. cbn [RA.state RA.pending].
  rewrite RA_apply_updates_app.
  destruct (RA.apply_updates (RA.state c) (RA.pending c)) as [st|e]; [|discriminate].
  intros _. cbn. eexists. repeat split.
Qed.




End Disconnect.



(** ** Scene description (C4, C6, C7) *)

Section Scene.
Context {E : JS.Engine}.

(** [requestSceneDescription] past its two guards. *)
Lemma RA_request_unfold (c : RA.Component) (env : RA.SceneEnv) :
  RA.isConnected (RA.state c) = true ->
  RA_video_available c ->
  RA.requestSceneDescription env c =
  match RA.requestSceneDescription_try env
          {| RA.state := RA.state c; RA.refs := RA.refs c;
             RA.pending :=
               ((RA.pending c ++ [RA.SetIsProcessingScene true])
                ++ [RA.SetSceneDescription (Str "Capturing frame and analyzing scene...")])
               ++ [RA.SetVideoError None];
             RA.stopped := RA.stopped c; RA.trace := RA.trace c |}
  with
  | (Normal _, s') =>
      (Normal tt,
       {| RA.state := RA.state s'; RA.refs := RA.refs s';
          RA.pending := RA.pending s' ++ [RA.SetIsProcessingScene false];
          RA.stopped := RA.stopped s'; RA.trace := RA.trace s' |})
  | (Throw e, s') =>
      (Normal tt,
       {| RA.state := RA.state s'; RA.refs := RA.refs s';
          RA.pending :=
            ((RA.pending s'
              ++ [RA.SetSceneDescription (Str ("Error: " ++ message_of e)%string)])
             ++ [RA.SetVideoError (Some ("Error during scene analysis: " ++ message_of e)%string)])
            ++ [RA.SetIsProcessingScene false];
          RA.stopped := RA.stopped s';
          RA.trace := RA.trace s' ++ [ConsoleError "Error processing scene:"] |})
  end.
Proof.
  intros Hc (ms & el & shown & Hlv & Hel & Hsrc).
  unfold RA.requestSceneDescription. unfold bind at 1, read at 1. rewrite Hc.
  cbv [negb]. unfold bind at 1, read at 1. unfold bind at 1, read at 1.
  rewrite Hlv, Hel, Hsrc. cbv [orb].
  cbv [bind RA.enqueue RA.emit modify try_catch try_finally].
  cbn [RA.state RA.refs RA.pending RA.stopped RA.trace].
  destruct (RA.requestSceneDescription_try env _) as [[[]|e] s']; reflexivity.
Qed.

(** The [try] block when the description arrives and the channel is open:
    the description is shown, the response text is cleared, and the two
    commands are sent, after the request to the route. *)
Lemma RA_request_try_success (c : RA.Component) (env : RA.SceneEnv) (D : value) :
  describes env D ->
  RA_channel_open c ->
  exists url,
    RA.requestSceneDescription_try env c =
    (Normal tt,
     {| RA.state := RA.state c; RA.refs := RA.refs c;
        RA.pending := (RA.pending c ++ [RA.SetSceneDescription D])
                      ++ [RA.SetResponseText (RA.SetTo (Str ""))];
        RA.stopped := RA.stopped c;
        RA.trace :=
          (((RA.trace c
             ++ [Request "/api/describe-scene"
                   (Obj [("image_data_url", Str url); ("prompt", Str RA.scene_prompt)])])
            ++ [Send (RA.createItemEvent D)])
           ++ [Send RA.createResponseEvent])
          ++ [ConsoleLog "Sent request for TTS."] |}).
Proof.
  intros (Hdim & Hctx & (url & Hcap) & response & result & Hresp & Hok & Hjson & Hget & Htr)
    (dc & Hdc & Hopen).
  exists url.
  destruct c as [st [pc0 dc0 el0 la0 lv0] pend stp tr0].
  destruct env as [size size' ctx cap resp].
  destruct response as [r_ok r_status r_json r_text].
  cbn in Hdim, Hctx, Hcap, Hresp, Hok, Hjson, Hdc. subst.
  cbv [RA.requestSceneDescription_try RA.speakText bind lift throw ret read modify
       RA.emit RA.enqueue RA.video_size RA.video_size_after_wait RA.canvas_context
       RA.capture RA.describe_response ok json negb
       RA.state RA.refs RA.pending RA.stopped RA.trace RA.dataChannelRef].
  assert (Hd : (if RA.no_dimensions size
                then if RA.no_dimensions size' then true else false
                else false) = false).
  { destruct Hdim as [-> | ->]; [reflexivity|]. now destruct (RA.no_dimensions size). }
  destruct (RA.no_dimensions size); [destruct (RA.no_dimensions size'); [discriminate|]|];
    rewrite Hget; cbv beta iota; rewrite Htr, Hopen; reflexivity.
Qed.

(** The [try] block when the capture or the description service fails: it
    throws the error of the cause, with nothing queued and nothing sent. *)
Lemma RA_request_try_failure (c : RA.Component) (env : RA.SceneEnv) :
  capture_fails env \/ description_service_fails env ->
  exists e s',
    RA.requestSceneDescription_try env c = (Throw e, s') /\
    RA.state s' = RA.state c /\ RA.refs s' = RA.refs c /\
    RA.pending s' = RA.pending c /\ RA.stopped s' = RA.stopped c /\
    sent (RA.trace s') = sent (RA.trace c) /\
    alerts (RA.trace s') = alerts (RA.trace c) /\
    scene_failure env = Some (message_of e).
Proof.
  intros Hfail.
  destruct c as [st rf pend stp tr0].
  destruct env as [size size' ctx cap resp].
  unfold capture_fails, description_service_fails in Hfail. cbn in Hfail.
  unfold scene_failure.
  cbv [RA.requestSceneDescription_try bind lift throw ret read modify
       RA.emit RA.enqueue RA.video_size RA.video_size_after_wait RA.canvas_context
       RA.capture RA.describe_response negb new_Error cbind
       RA.state RA.refs RA.pending RA.stopped RA.trace].
  assert (Hsent : forall x, sent (tr0 ++ [Request "/api/describe-scene" x]) = sent tr0).
  { intros x. unfold sent. rewrite filter_app. cbn. apply app_nil_r. }
  assert (Halert : forall x, alerts (tr0 ++ [Request "/api/describe-scene" x]) = alerts tr0).
  { intros x. unfold alerts. rewrite filter_app. cbn. apply app_nil_r. }
  destruct (RA.no_dimensions size) eqn:Hs;
    [destruct (RA.no_dimensions size') eqn:Hs'; [do 2 eexists; repeat split|]|].
  all: destruct ctx; [|do 2 eexists; repeat split].
  all: destruct cap as [url|ce]; [|do 2 eexists; repeat split].
  all: destruct resp as [[r_ok r_status r_json r_text]|re]; cbn [ok json] in *;
    [|do 2 eexists; repeat split; cbn [RA.trace]; auto].
  all: destruct r_ok;
    [ destruct r_json as [result|je];
      [ destruct (get result "description") as [d|ge] eqn:Hget;
        [ destruct (truthy d) eqn:Htr | ]
      | ]
    | destruct r_json as [errorData|je];
      [ destruct (get errorData "error") as [err|ge];
        [ destruct (to_string (or_else err (Str "Failed to get scene description")))
            as [ne|te] | ]
      | ] ].
  all: try (do 2 eexists; repeat split; cbn [RA.trace]; auto; fail).
  all: exfalso; cbn in Hfail; rewrite ?Htr in Hfail;
    intuition (try discriminate; try congruence).
Qed.

(** C4.  A scene description that succeeds with the description [D], on a
    connected component whose data channel is open: exactly two messages are
    sent, first the [conversation.item.create] whose content text is [D],
    then the [response.create]; and the scene description rendered is [D]. *)
Theorem scene_description_is_spoken (c : RA.Component) (env : RA.SceneEnv) (D : value) :
  RA.isConnected (RA.state c) = true ->
  RA_video_available c ->
  RA_channel_open c ->
  describes env D ->
  RA.pending c = [] ->
  outcome (RA.requestSceneDescription env) c = Normal tt /\
  sent (RA.trace (exec (RA.requestSceneDescription env) c)) =
    sent (RA.trace c) ++ [Send (RA.createItemEvent D); Send RA.createResponseEvent] /\
  get (RA.createItemEvent D) "type" = Normal (Str "conversation.item.create") /\
  content_text (RA.createItemEvent D) = Normal D /\
  get RA.createResponseEvent "type" = Normal (Str "response.create") /\
  exists r,
    RA.render (exec (RA.requestSceneDescription env) c) = Normal r /\
    RA.sceneDescription (RA.state r) = D.
Proof.
  intros Hc Hv Ho Hd Hp. unfold outcome, exec.
  rewrite (RA_request_unfold c env Hc Hv).
  match goal with |- context [RA.requestSceneDescription_try env ?c1] =>
    destruct (RA_request_try_success c1 env D Hd Ho) as (url & Hrun)
  end.
  rewrite Hrun. cbn [fst snd RA.state RA.refs RA.pending RA.stopped RA.trace].
  split; [reflexivity|]. split.
  { unfold sent. rewrite !filter_app. cbn [filter is_send app].
    rewrite ?app_nil_r, <- ?app_assoc. reflexivity. }
  repeat (split; [reflexivity|]).
  unfold RA.render. cbn [RA.state RA.refs RA.pending RA.stopped RA.trace].
  rewrite Hp. cbn. eexists. split; reflexivity.
Qed.

(** C6.  A scene description asked for while not connected only shows the
    alert: nothing is queued, no ref changes, no track stops, nothing is sent
    and no request is made. *)
Theorem scene_description_needs_connection (c : RA.Component) (env : RA.SceneEnv) :
  RA.isConnected (RA.state c) = false ->
  RA.requestSceneDescription env c =
  (Normal tt,
   {| RA.state := RA.state c; RA.refs := RA.refs c; RA.pending := RA.pending c;
      RA.stopped := RA.stopped c;
      RA.trace := RA.trace c ++ [Alert "Please connect the assistant first."] |}) /\
  sent (RA.trace (exec (RA.requestSceneDescription env) c)) = sent (RA.trace c) /\
  requests (RA.trace (exec (RA.requestSceneDescription env) c)) = requests (RA.trace c) /\
  alerts (RA.trace (exec (RA.requestSceneDescription env) c)) =
    alerts (RA.trace c) ++ [Alert "Please connect the assistant first."].
Proof.
  intros Hc.
  assert (Hrun : RA.requestSceneDescription env c =
    (Normal tt,
     {| RA.state := RA.state c; RA.refs := RA.refs c; RA.pending := RA.pending c;
        RA.stopped := RA.stopped c;
        RA.trace := RA.trace c ++ [Alert "Please connect the assistant first."] |})).
  { unfold RA.requestSceneDescription. unfold bind at 1, read at 1. rewrite Hc.
    reflexivity. }
  unfold exec. rewrite Hrun. cbn [snd RA.trace].
  unfold sent, requests, alerts. rewrite !filter_app. cbn. rewrite !app_nil_r. auto.
Qed.

(** C7.  A scene description that fails at the image capture (also when the
    video has no dimensions after the one wait) or at the description
    service: nothing is sent on the channel, and the message of the cause,
    [scene_failure], is queued as the scene description and as the video
    error, and shown by the render that follows when the component is on the
    page. *)
Theorem scene_description_failure_sends_nothing (c : RA.Component) (env : RA.SceneEnv) :
  RA.isConnected (RA.state c) = true ->
  RA_video_available c ->
  capture_fails env \/ description_service_fails env ->
  RA.pending c = [] ->
  outcome (RA.requestSceneDescription env) c = Normal tt /\
  sent (RA.trace (exec (RA.requestSceneDescription env) c)) = sent (RA.trace c) /\
  exists message r,
    scene_failure env = Some message /\
    RA.render (exec (RA.requestSceneDescription env) c) = Normal r /\
    RA.sceneDescription (RA.state r) = Str ("Error: " ++ message) /\
    RA.videoError (RA.state r) = Some ("Error during scene analysis: " ++ message)%string /\
    RA.isProcessingScene (RA.state r) = false /\
    RA.transcription (RA.state r) = RA.transcription (RA.state c) /\
    RA.responseText (RA.state r) = RA.responseText (RA.state c) /\
    (RA_shown c -> RA.rerender (exec (RA.requestSceneDescription env) c) = Normal r).
Proof.
  intros Hc Hv Hfail Hp. unfold outcome, exec.
  rewrite (RA_request_unfold c env Hc Hv).
  match goal with |- context [RA.requestSceneDescription_try env ?c1] =>
    destruct (RA_request_try_failure c1 env Hfail)
      as (e & s' & Hrun & Hst & Hrf & Hpe & Hstp & Hse & Hal & Hmsg)
  end.
  rewrite Hrun. cbn [fst snd RA.state RA.refs RA.pending RA.stopped RA.trace] in *.
  split; [reflexivity|]. split.
  { unfold sent in *. rewrite filter_app, Hse. cbn. apply app_nil_r. }
  exists (message_of e). unfold RA.render.
  cbn [RA.state RA.refs RA.pending RA.stopped RA.trace].
  rewrite Hpe, Hp, Hst. cbn. eexists. split; [exact Hmsg|].
  repeat (split; [reflexivity|]).
  intros Hsh. apply RA_shown_valid in Hsh. unfold RA_texts_valid in Hsh.
  apply andb_true_iff in Hsh as [Hsh Hrv]. apply andb_true_iff in Hsh as [_ Htv].
  now rewrite (child_taken _ _ Htv), (child_taken _ _ Hrv).
Qed.

End Scene.

Lemma scene_description_is_spoken_witness :
  sent (RA.trace (exec (RA.requestSceneDescription Examples.red_chair) Examples.connected)) =
    [Send (RA.createItemEvent (Str "A red chair")); Send RA.createResponseEvent] /\
  content_text (E := IntegerEngine.engine) (RA.createItemEvent (Str "A red chair"))
    = Normal (Str "A red chair") /\
  exists r,
    RA.render (exec (RA.requestSceneDescription Examples.red_chair) Examples.connected)
      = Normal r /\
    RA.sceneDescription (RA.state r) = Str "A red chair".
Proof.
  assert (Hv : RA_video_available (E := IntegerEngine.engine) Examples.connected).
  { exists [Examples.camera], {| srcObject := Some [Examples.camera] |}, [Examples.camera].
    repeat split. }
  assert (Ho : RA_channel_open (E := IntegerEngine.engine) Examples.connected).
  { exists {| label := "oai-events"; readyState := DcOpen |}. split; reflexivity. }
  assert (Hd : describes (E := IntegerEngine.engine) Examples.red_chair (Str "A red chair")).
  { split; [left; reflexivity|]. split; [reflexivity|]. split; [eexists; reflexivity|].
    exists (Examples.described "A red chair"). eexists. repeat split. }
  destruct (scene_description_is_spoken (E := IntegerEngine.engine)
              Examples.connected Examples.red_chair (Str "A red chair")
              eq_refl Hv Ho Hd eq_refl)
    as (_ & Hsent & _ & Htext & _ & Hrender).
  split; [exact Hsent|]. split; [exact Htext | exact Hrender].
Defined.

Lemma scene_description_needs_connection_witness :
  RA.isConnected (RA.state Examples.mounted) = false /\
  RA.requestSceneDescription Examples.red_chair Examples.mounted =
  (Normal tt,
   {| RA.state := RA.state Examples.mounted; RA.refs := RA.refs Examples.mounted;
      RA.pending := []; RA.stopped := [];
      RA.trace := [Alert "Please connect the assistant first."] |}) /\
  sent (RA.trace (exec (RA.requestSceneDescription Examples.red_chair) Examples.mounted)) = [].
Proof.
  destruct (scene_description_needs_connection (E := IntegerEngine.engine)
              Examples.mounted Examples.red_chair eq_refl)
    as (Hrun & Hsent & _).
  split; [reflexivity|]. split; [exact Hrun | exact Hsent].
Defined.

Lemma scene_description_failure_sends_nothing_witness :
  (capture_fails Examples.no_frame /\
   sent (RA.trace (exec (RA.requestSceneDescription Examples.no_frame) Examples.connected))
     = [] /\
   exists r,
     RA.render (exec (RA.requestSceneDescription Examples.no_frame) Examples.connected)
       = Normal r /\
     RA.sceneDescription (RA.state r) = Str "Error: Video dimensions not available" /\
     RA.videoError (RA.state r)
       = Some "Error during scene analysis: Video dimensions not available"%string) /\
  (description_service_fails Examples.route_fails /\
   sent (RA.trace (exec (RA.requestSceneDescription Examples.route_fails) Examples.connected))
     = [] /\
   exists r,
     RA.render (exec (RA.requestSceneDescription Examples.route_fails) Examples.connected)
       = Normal r /\
     RA.sceneDescription (RA.state r)
       = Str "Error: No description received from OpenAI." /\
     RA.videoError (RA.state r)
       = Some "Error during scene analysis: No description received from OpenAI."%string).
Proof.
  assert (Hv : RA_video_available (E := IntegerEngine.engine) Examples.connected).
  { exists [Examples.camera], {| srcObject := Some [Examples.camera] |}, [Examples.camera].
    repeat split. }
  assert (H1 : capture_fails (E := IntegerEngine.engine) Examples.no_frame).
  { left. split; reflexivity. }
  assert (H2 : description_service_fails (E := IntegerEngine.engine) Examples.route_fails).
  { left. reflexivity. }
  split.
  - split; [exact H1|].
    destruct (scene_description_failure_sends_nothing
                (E := IntegerEngine.engine) Examples.connected Examples.no_frame
                eq_refl Hv (or_introl H1) eq_refl)
      as (_ & Hsent & message & r & Hmsg & Hr & Hd & He & _).
    split; [exact Hsent|]. exists r. injection Hmsg as <-. auto.
  - split; [exact H2|].
    destruct (scene_description_failure_sends_nothing
                (E := IntegerEngine.engine) Examples.connected Examples.route_fails
                eq_refl Hv (or_intror H2) eq_refl)
      as (_ & Hsent & message & r & Hmsg & Hr & Hd & He & _).
    split; [exact Hsent|]. exists r. injection Hmsg as <-. auto.
Defined.

(** The errors the two failures show. *)
Example scene_description_errors_shown :
  (exists r,
     RA.render (exec (RA.requestSceneDescription Examples.no_frame) Examples.connected)
       = Normal r /\
     RA.sceneDescription (RA.state r) = Str "Error: Video dimensions not available") /\
  (exists r,
     RA.render (exec (RA.requestSceneDescription Examples.route_fails) Examples.connected)
       = Normal r /\
     RA.sceneDescription (RA.state r)
       = Str "Error: No description received from OpenAI.").
Proof. split; eexists; split; vm_compute; reflexivity. Qed.

(** ** The describe-scene route (C10) *)

(** C10, as the code has it.  On a server that has its API key and for a
    request body that is JSON: the body [null] is answered 500, every other
    body without (truthy) [image_data_url] is answered 400, and the provider
    is asked in neither case; and when the provider, asked once, answers
    with a non-success status and a JSON body, the answer carries that
    status if a response with a body can have it, and is 500 if not. *)
Theorem POST_statuses {E : JS.Engine} (env : DescribeScene.PostEnv) (body : value) :
  key_configured env ->
  DescribeScene.request_json env = Normal body ->
  (nullish body = true ->
   exists response,
     DescribeScene.POST env [] = (Normal response, []) /\
     DescribeScene.response_status response = 500%Z) /\
  (nullish body = false ->
   exists image prompt,
     get body "image_data_url" = Normal image /\
     get body "prompt" = Normal prompt /\
     (truthy image = false ->
      DescribeScene.POST env [] =
      (Normal {| DescribeScene.response_status := 400;
                 DescribeScene.response_body :=
                   Obj [("error", Str "No image data provided.")] |},
       [])) /\
     (truthy image = true ->
      forall provider errorBody,
        DescribeScene.openai_response env = Normal provider ->
        ok provider = false ->
        json provider = Normal errorBody ->
        exists response,
          DescribeScene.POST env [] =
          (Normal response,
           [Request DescribeScene.chat_completions_url (DescribeScene.payload image prompt)]) /\
          DescribeScene.response_status response =
            if DescribeScene.valid_status (status provider) then status provider
            else 500%Z)).
Proof.
  intros (k & Hk & Hne) Hbody.
  destruct env as [key req up]. cbn in Hk, Hbody. subst.
  destruct k as [|ch k]; [congruence|].
  unfold DescribeScene.POST, DescribeScene.POST_try, try_catch, bind, lift, ret, modify.
  cbn [DescribeScene.OPENAI_API_KEY DescribeScene.request_json DescribeScene.openai_response].
  split.
  - intros Hnull. destruct body; try discriminate; cbn; eexists; split; reflexivity.
  - intros Hnull.
    assert (Hget : forall p, exists x, get body p = Normal x).
    { intros p. destruct body; try discriminate; cbn; eauto. }
    destruct (Hget "image_data_url") as [image Himage].
    destruct (Hget "prompt") as [prompt Hprompt].
    exists image, prompt. rewrite Himage, Hprompt.
    split; [reflexivity|]. split; [reflexivity|]. split.
    + intros ->. reflexivity.
    + intros -> provider errorBody Hup Hok Hjson. cbn in Hup. subst up.
      cbn [negb app]. rewrite Hok, Hjson. cbn [negb].
      unfold DescribeScene.NextResponse_json at 1.
      destruct (DescribeScene.valid_status (status provider));
        eexists; split; reflexivity.
Qed.

Lemma POST_statuses_witness :
  (exists response,
     DescribeScene.POST Examples.post_null [] = (Normal response, []) /\
     DescribeScene.response_status response = 500%Z) /\
  DescribeScene.POST Examples.post_without_image [] =
  (Normal {| DescribeScene.response_status := 400;
             DescribeScene.response_body := Obj [("error", Str "No image data provided.")] |},
   []) /\
  (exists response requested,
     DescribeScene.POST Examples.post_rate_limited [] = (Normal response, [requested]) /\
     DescribeScene.response_status response = 429%Z) /\
  (exists response requested,
     DescribeScene.POST Examples.post_unknown_status [] = (Normal response, [requested]) /\
     DescribeScene.response_status response = 500%Z).
Proof.
  assert (Hk0 : key_configured (E := IntegerEngine.engine) Examples.post_null).
  { exists "sk-test"%string. split; [reflexivity | discriminate]. }
  assert (Hk1 : key_configured (E := IntegerEngine.engine) Examples.post_without_image).
  { exists "sk-test"%string. split; [reflexivity | discriminate]. }
  assert (Hk2 : key_configured (E := IntegerEngine.engine) Examples.post_rate_limited).
  { exists "sk-test"%string. split; [reflexivity | discriminate]. }
  assert (Hk3 : key_configured (E := IntegerEngine.engine) Examples.post_unknown_status).
  { exists "sk-test"%string. split; [reflexivity | discriminate]. }
  split; [|split; [|split]].
  - exact (proj1 (POST_statuses (E := IntegerEngine.engine) Examples.post_null Null
                    Hk0 eq_refl) eq_refl).
  - destruct (proj2 (POST_statuses (E := IntegerEngine.engine) Examples.post_without_image
                       (Obj [("prompt", Str "What is this?")]) Hk1 eq_refl) eq_refl)
      as (image & prompt & Himage & _ & H400 & _).
    injection Himage as <-. exact (H400 eq_refl).
  - destruct (proj2 (POST_statuses (E := IntegerEngine.engine) Examples.post_rate_limited
                       (Obj [("image_data_url", Str "data:image/jpeg;base64,/9j/4AAQ")])
                       Hk2 eq_refl) eq_refl)
      as (image & prompt & Himage & _ & _ & Hup).
    injection Himage as <-.
    destruct (Hup eq_refl Examples.rate_limited _ eq_refl eq_refl eq_refl)
      as (response & Hrun & Hstatus).
    exists response. eexists. split; [exact Hrun | exact Hstatus].
  - destruct (proj2 (POST_statuses (E := IntegerEngine.engine) Examples.post_unknown_status
                       (Obj [("image_data_url", Str "data:image/jpeg;base64,/9j/4AAQ")])
                       Hk3 eq_refl) eq_refl)
      as (image & prompt & Himage & _ & _ & Hup).
    injection Himage as <-.
    destruct (Hup eq_refl Examples.unknown_status _ eq_refl eq_refl eq_refl)
      as (response & Hrun & Hstatus).
    exists response. eexists. split; [exact Hrun | exact Hstatus].
Defined.

(** C10 as stated fails when a gateway answers for the provider: the server
    has its key, the request has its image, the provider side answers 502
    with a page that is not JSON, and the handler answers 500, not 502. *)
Lemma POST_bad_gateway_is_500 :
  key_configured Examples.post_bad_gateway /\
  DescribeScene.openai_response Examples.post_bad_gateway = Normal Examples.bad_gateway /\
  ok Examples.bad_gateway = false /\
  status Examples.bad_gateway = 502%Z /\
  exists response requested,
    DescribeScene.POST Examples.post_bad_gateway [] = (Normal response, [requested]) /\
    DescribeScene.response_status response = 500%Z /\
    DescribeScene.response_status response <> status Examples.bad_gateway.
Proof.
  split; [exists "sk-test"%string; split; [reflexivity | discriminate]|].
  repeat (split; [reflexivity|]).
  do 2 eexists. split; [reflexivity|]. split; [reflexivity | discriminate].
Qed.

(** On a server without its API key the request without image is answered
    500 as well. *)
Example POST_without_key_is_500 :
  DescribeScene.OPENAI_API_KEY Examples.post_without_image_nor_key = None /\
  DescribeScene.POST Examples.post_without_image_nor_key [] =
  (Normal {| DescribeScene.response_status := 500;
             DescribeScene.response_body :=
               Obj [("error", Str "OpenAI API key not configured on server.")] |},
   []).
Proof. split; reflexivity. Qed.

(** * Further properties *)

Import Conditions.

(** ** The two route handlers *)

Section Routes.
Context {E : JS.Engine}.

(** [describe-scene]: with the key, an image and a provider answer whose
    first choice has a truthy content, the handler asks the provider once,
    with the image and the prompt, and answers 200 with that content as the
    description. *)
Theorem POST_describes (env : DescribeScene.PostEnv)
    (body image prompt data description : value) (provider : Response) :
  key_configured env ->
  DescribeScene.request_json env = Normal body ->
  get body "image_data_url" = Normal image -> truthy image = true ->
  get body "prompt" = Normal prompt ->
  DescribeScene.openai_response env = Normal provider -> ok provider = true ->
  json provider = Normal data ->
  DescribeScene.first_choice_content data = Normal description ->
  truthy description = true ->
  DescribeScene.POST env [] =
  (Normal {| DescribeScene.response_status := 200;
             DescribeScene.response_body := Obj [("description", description)] |},
   [Request DescribeScene.chat_completions_url (DescribeScene.payload image prompt)]).
Proof.
  intros (k & Hk & Hne) Hbody Himage Hti Hprompt Hup Hok Hjson Hc Htd.
  destruct env as [key req up]. cbn in Hk, Hbody, Hup. subst.
  destruct k as [|ch k]; [congruence|].
  unfold DescribeScene.POST, DescribeScene.POST_try, try_catch, bind, lift, ret, modify.
  cbn [DescribeScene.OPENAI_API_KEY DescribeScene.request_json DescribeScene.openai_response].
  rewrite Himage, Hprompt, Hti. cbn [negb app]. rewrite Hok, Hjson. cbn [negb].
  rewrite Hc, Htd. reflexivity.
Qed.

(** [describe-scene] never throws, asks the provider at most once, and
    answers 200 only with a truthy description taken from the provider's
    answer. *)
Theorem POST_is_total (env : DescribeScene.PostEnv) :
  (forall provider, DescribeScene.openai_response env = Normal provider -> coherent provider) ->
  exists response asked,
    DescribeScene.POST env [] = (Normal response, asked) /\
    (length asked <= 1)%nat /\
    (DescribeScene.OPENAI_API_KEY env = None -> asked = []) /\
    (DescribeScene.response_status response = 200%Z ->
     exists provider data description,
       DescribeScene.openai_response env = Normal provider /\
       json provider = Normal data /\
       DescribeScene.first_choice_content data = Normal description /\
       truthy description = true /\
       DescribeScene.response_body response = Obj [("description", description)]).
Proof.
  intros Hcoherent.
  destruct env as [key req up].
  cbn [DescribeScene.openai_response] in Hcoherent.
  unfold DescribeScene.POST, DescribeScene.POST_try, try_catch, bind, lift, ret, modify.
  cbn [DescribeScene.OPENAI_API_KEY DescribeScene.request_json DescribeScene.openai_response].
  destruct key as [[|ch k]|].
  1, 3: do 2 eexists; split; [reflexivity|]; cbn; repeat split; auto; discriminate.
  destruct req as [body|e]; cbn [app].
  2: { do 2 eexists; split; [reflexivity|]; cbn; repeat split; auto; discriminate. }
  destruct (get body "image_data_url") as [image|e].
  2: { do 2 eexists; split; [reflexivity|]; cbn; repeat split; auto; discriminate. }
  destruct (get body "prompt") as [prompt|e].
  2: { do 2 eexists; split; [reflexivity|]; cbn; repeat split; auto; discriminate. }
  destruct (truthy image); cbn [negb].
  2: { do 2 eexists; split; [reflexivity|]; cbn; repeat split; auto; discriminate. }
  destruct up as [provider|e].
  2: { do 2 eexists; split; [reflexivity|]; cbn; repeat split; auto; discriminate. }
  destruct (ok provider) eqn:Hok; cbn [negb].
  - destruct (json provider) as [data|e] eqn:Hjson.
    2: { do 2 eexists; split; [reflexivity|]; cbn; repeat split; auto; discriminate. }
    destruct (DescribeScene.first_choice_content data) as [d|e] eqn:Hc.
    2: { do 2 eexists; split; [reflexivity|]; cbn; repeat split; auto; discriminate. }
    destruct (truthy d) eqn:Htd.
    + do 2 eexists; split; [reflexivity|]; cbn. repeat split; auto; try discriminate.
      intros _. exists provider, data, d. auto.
    + do 2 eexists; split; [reflexivity|]; cbn; repeat split; auto; discriminate.
  - destruct (json provider) as [errorBody|e] eqn:Hjson.
    2: { do 2 eexists; split; [reflexivity|]; cbn; repeat split; auto; discriminate. }
    unfold DescribeScene.NextResponse_json at 1.
    destruct (DescribeScene.valid_status (status provider)).
    2: { do 2 eexists; split; [reflexivity|]; cbn; repeat split; auto; discriminate. }
    do 2 eexists; split; [reflexivity|]; cbn. repeat split; auto; try discriminate.
    intros H200. destruct (Hcoherent provider eq_refl) as [_ Hback].
    rewrite Hback in Hok; [discriminate | lia].
Qed.

(** [openai-session]: with the key and a provider answer that is a JSON
    object, the handler asks once and answers 200 with the [client_secret]
    field alone, whatever else the provider sent. *)
Theorem GET_forwards_only_the_secret (env : OpenAISession.GetEnv)
    (provider : Response) (data secret : value) :
  session_key_configured env ->
  OpenAISession.openai_response env = Normal provider -> ok provider = true ->
  json provider = Normal data ->
  get data "client_secret" = Normal secret ->
  OpenAISession.GET env [] =
  (Normal {| DescribeScene.response_status := 200;
             DescribeScene.response_body := Obj [("client_secret", secret)] |},
   [Request OpenAISession.sessions_url OpenAISession.session_request]).
Proof.
  intros (k & Hk & Hne) Hup Hok Hjson Hget.
  destruct env as [key up]. cbn in Hk, Hup. subst.
  destruct k as [|ch k]; [congruence|].
  unfold OpenAISession.GET, OpenAISession.GET_try, try_catch, bind, lift, ret, modify.
  cbn [OpenAISession.OPENAI_API_KEY OpenAISession.openai_response app].
  rewrite Hok. cbn [negb]. rewrite Hjson, Hget. reflexivity.
Qed.

(** [openai-session] never throws and asks the provider at most once, not at
    all without the key; a provider failure with a JSON body is answered
    with the provider's status if a response with a body can have it, and
    with 500 if not; and a 200 answer is built from the [client_secret] field
    of the provider's answer alone: the client reads that field, or the empty
    object when the provider sent none. *)
Theorem GET_is_total (env : OpenAISession.GetEnv) :
  (forall provider, OpenAISession.openai_response env = Normal provider -> coherent provider) ->
  exists response asked,
    OpenAISession.GET env [] = (Normal response, asked) /\
    (length asked <= 1)%nat /\
    (OpenAISession.OPENAI_API_KEY env = None ->
     asked = [] /\ DescribeScene.response_status response = 500%Z) /\
    (forall provider errorData,
       session_key_configured env ->
       OpenAISession.openai_response env = Normal provider ->
       ok provider = false -> json provider = Normal errorData ->
       DescribeScene.response_status response =
         if DescribeScene.valid_status (status provider) then status provider else 500%Z) /\
    (DescribeScene.response_status response = 200%Z ->
     exists provider data secret,
       OpenAISession.openai_response env = Normal provider /\
       json provider = Normal data /\
       get data "client_secret" = Normal secret /\
       DescribeScene.response_body response = Obj [("client_secret", secret)] /\
       DescribeScene.body_sent response =
         Obj match secret with
             | Undefined => []
             | _ => [("client_secret", through_JSON secret)]
             end).
Proof.
  intros Hcoherent.
  destruct env as [key up].
  cbn [OpenAISession.openai_response] in Hcoherent.
  unfold session_key_configured.
  unfold OpenAISession.GET, OpenAISession.GET_try, try_catch, bind, lift, ret, modify.
  cbn [OpenAISession.OPENAI_API_KEY OpenAISession.openai_response app].
  destruct key as [[|ch k]|].
  1, 3: do 2 eexists; split; [reflexivity|]; cbn; repeat split; auto; try discriminate;
        intros ? ? (k' & Hk' & Hne'); congruence.
  destruct up as [provider|e].
  2: { do 2 eexists; split; [reflexivity|]; cbn; repeat split; auto; discriminate. }
  destruct (ok provider) eqn:Hok; cbn [negb].
  - destruct (json provider) as [data|e] eqn:Hjson.
    2: { do 2 eexists; split; [reflexivity|]; cbn; repeat split; auto; try discriminate.
         intros p' ? _ Hp'. injection Hp' as <-. congruence. }
    destruct (get data "client_secret") as [secret|e] eqn:Hget.
    2: { do 2 eexists; split; [reflexivity|]; cbn; repeat split; auto; try discriminate.
         intros p' ? _ Hp'. injection Hp' as <-. congruence. }
    do 2 eexists; split; [reflexivity|]; cbn; repeat split; auto; try discriminate.
    + intros p' ? _ Hp'. injection Hp' as <-. congruence.
    + intros _. exists provider, data, secret. repeat split; auto.
  - destruct (json provider) as [errorData|e] eqn:Hjson.
    2: { do 2 eexists; split; [reflexivity|]; cbn; repeat split; auto; try discriminate.
         intros p' ? _ Hp'. injection Hp' as <-. congruence. }
    unfold DescribeScene.NextResponse_json at 1.
    destruct (DescribeScene.valid_status (status provider)) eqn:Hvalid.
    + do 2 eexists; split; [reflexivity|]; cbn; repeat split; auto; try discriminate.
      * intros p' ? _ Hp' _ _. injection Hp' as <-. now rewrite Hvalid.
      * intros H200. destruct (Hcoherent provider eq_refl) as [_ Hback].
        rewrite Hback in Hok; [discriminate | lia].
    + do 2 eexists; split; [reflexivity|]; cbn; repeat split; auto; try discriminate.
      intros p' ? _ Hp' _ _. injection Hp' as <-. now rewrite Hvalid.
Qed.

End Routes.

Lemma POST_describes_witness :
  DescribeScene.POST Examples.post_described [] =
  (Normal {| DescribeScene.response_status := 200;
             DescribeScene.response_body := Obj [("description", Str "A red chair")] |},
   [Request DescribeScene.chat_completions_url
      (DescribeScene.payload (Str "data:image/jpeg;base64,/9j/4AAQ") Undefined)]).
Proof.
  assert (Hk : key_configured (E := IntegerEngine.engine) Examples.post_described).
  { exists "sk-test"%string. split; [reflexivity | discriminate]. }
  exact (POST_describes (E := IntegerEngine.engine) Examples.post_described
           _ _ _ _ _ _ Hk eq_refl eq_refl eq_refl eq_refl eq_refl eq_refl eq_refl
           eq_refl eq_refl).
Defined.

Lemma POST_is_total_witness :
  exists response asked,
    DescribeScene.POST Examples.post_bad_gateway [] = (Normal response, asked) /\
    (length asked <= 1)%nat.
Proof.
  assert (Hc : forall provider,
             DescribeScene.openai_response (E := IntegerEngine.engine)
               Examples.post_bad_gateway = Normal provider -> coherent provider).
  { intros provider H. injection H as <-. unfold coherent. cbn.
    split; [discriminate | lia]. }
  destruct (POST_is_total (E := IntegerEngine.engine) Examples.post_bad_gateway Hc)
    as (response & asked & Hrun & Hlen & _).
  exists response, asked. split; assumption.
Defined.

Lemma GET_forwards_only_the_secret_witness :
  OpenAISession.GET Examples.get_session [] =
  (Normal {| DescribeScene.response_status := 200;
             DescribeScene.response_body :=
               Obj [("client_secret", Examples.session_secret)] |},
   [Request OpenAISession.sessions_url OpenAISession.session_request]).
Proof.
  assert (Hk : session_key_configured (E := IntegerEngine.engine) Examples.get_session).
  { exists "sk-test"%string. split; [reflexivity | discriminate]. }
  exact (GET_forwards_only_the_secret (E := IntegerEngine.engine) Examples.get_session
           _ _ _ Hk eq_refl eq_refl eq_refl eq_refl).
Defined.

Lemma GET_is_total_witness :
  (exists response asked,
     OpenAISession.GET Examples.get_session_rate_limited [] = (Normal response, asked) /\
     DescribeScene.response_status response = 429%Z) /\
  (exists response asked,
     OpenAISession.GET Examples.get_session_unknown_status [] = (Normal response, asked) /\
     DescribeScene.response_status response = 500%Z).
Proof.
  assert (Hc1 : forall provider,
             OpenAISession.openai_response (E := IntegerEngine.engine)
               Examples.get_session_rate_limited = Normal provider -> coherent provider).
  { intros provider H. injection H as <-. unfold coherent. cbn.
    split; [discriminate | lia]. }
  assert (Hk1 : session_key_configured (E := IntegerEngine.engine)
                  Examples.get_session_rate_limited).
  { exists "sk-test"%string. split; [reflexivity | discriminate]. }
  assert (Hc2 : forall provider,
             OpenAISession.openai_response (E := IntegerEngine.engine)
               Examples.get_session_unknown_status = Normal provider -> coherent provider).
  { intros provider H. injection H as <-. unfold coherent. cbn.
    split; [discriminate | lia]. }
  assert (Hk2 : session_key_configured (E := IntegerEngine.engine)
                  Examples.get_session_unknown_status).
  { exists "sk-test"%string. split; [reflexivity | discriminate]. }
  split.
  - destruct (GET_is_total (E := IntegerEngine.engine) Examples.get_session_rate_limited Hc1)
      as (response & asked & Hrun & _ & _ & Hstatus & _).
    exists response, asked. split; [exact Hrun|].
    exact (Hstatus Examples.rate_limited _ Hk1 eq_refl eq_refl eq_refl).
  - destruct (GET_is_total (E := IntegerEngine.engine) Examples.get_session_unknown_status Hc2)
      as (response & asked & Hrun & _ & _ & Hstatus & _).
    exists response, asked. split; [exact Hrun|].
    exact (Hstatus Examples.unknown_status _ Hk2 eq_refl eq_refl eq_refl).
Defined.

(** A session created without a [client_secret]: the handler answers 200,
    and the client reads the empty object. *)
Example GET_without_secret_sends_nothing :
  exists response asked,
    OpenAISession.GET Examples.get_session_without_secret [] = (Normal response, asked) /\
    DescribeScene.response_status response = 200%Z /\
    DescribeScene.response_body response = Obj [("client_secret", Undefined)] /\
    DescribeScene.body_sent response = Obj [].
Proof. do 2 eexists. repeat split. Qed.

(** ** Streams of events *)

Section Streams.
Context {E : JS.Engine}.

Lemma RA_updates_text_delta (msg : value) (d : string) :
  is_text_delta msg d ->
  RA_updates (JSONText msg) = [RA.SetResponseText (RA.PlusDeltaOf msg)].
Proof. intros [Ht _]. unfold RA_updates. simpl. rewrite Ht. reflexivity. Qed.

Lemma AA_updates_text_delta (msg : value) (d : string) :
  is_text_delta msg d ->
  AA_updates (JSONText msg) = [AA.SetResponseText (AA.PlusDeltaOf msg)].
Proof. intros [Ht _]. unfold AA_updates. simpl. rewrite Ht. reflexivity. Qed.

Lemma RA_deliver_stream (msgs : list value) (xs : list Delta) :
  Forall2 is_delta msgs xs ->
  forall (c : RA.Component) (s t : string),
    RA.pending c = [] ->
    RA.transcription (RA.state c) = Str s ->
    RA.responseText (RA.state c) = Str t ->
    exists c',
      RA.deliver_all c (map JSONText msgs) = Normal c' /\
      RA.pending c' = [] /\
      RA.transcription (RA.state c') = Str (s ++ transcript_of xs)%string /\
      RA.responseText (RA.state c') = Str (t ++ text_of xs)%string /\
      RA.isConnected (RA.state c') = RA.isConnected (RA.state c) /\
      RA.refs c' = RA.refs c.
Proof.
  induction 1 as [|msg x msgs xs Hx _ IH]; intros c s t Hp Hs Ht; simpl.
  - exists c. rewrite Hs, Ht, !string_app_nil_r. repeat split; auto.
  - rewrite (RA_deliver c _ Hp). destruct x as [d|d]; cbn [is_delta] in Hx.
    + rewrite (RA_updates_transcript_delta _ _ Hx). simpl.
      rewrite Hs. destruct Hx as [_ Hd]. rewrite Hd. simpl.
      match goal with |- context [RA.deliver_all ?c1 _] =>
        destruct (IH c1 (s ++ d)%string t eq_refl eq_refl Ht)
          as (c' & Hrun & Hp' & Hs' & Ht' & Hc' & Hr')
      end.
      exists c'. rewrite Hs', Ht', string_app_assoc. repeat split; auto.
    + rewrite (RA_updates_text_delta _ _ Hx). simpl.
      rewrite Ht. destruct Hx as [_ Hd]. rewrite Hd. simpl.
      match goal with |- context [RA.deliver_all ?c1 _] =>
        destruct (IH c1 s (t ++ d)%string eq_refl Hs eq_refl)
          as (c' & Hrun & Hp' & Hs' & Ht' & Hc' & Hr')
      end.
      exists c'. rewrite Hs', Ht', string_app_assoc. repeat split; auto.
Qed.

Lemma AA_deliver_stream (msgs : list value) (xs : list Delta) :
  Forall2 is_delta msgs xs ->
  forall (c : AA.Component) (s t : string),
    AA.pending c = [] ->
    AA.transcription (AA.state c) = Str s ->
    AA.responseText (AA.state c) = Str t ->
    exists c',
      AA.deliver_all c (map JSONText msgs) = Normal c' /\
      AA.pending c' = [] /\
      AA.transcription (AA.state c') = Str (s ++ transcript_of xs)%string /\
      AA.responseText (AA.state c') = Str (t ++ text_of xs)%string /\
      AA.isConnected (AA.state c') = AA.isConnected (AA.state c) /\
      AA.refs c' = AA.refs c.
Proof.
  induction 1 as [|msg x msgs xs Hx _ IH]; intros c s t Hp Hs Ht; simpl.
  - exists c. rewrite Hs, Ht, !string_app_nil_r. repeat split; auto.
  - rewrite (AA_deliver c _ Hp). destruct x as [d|d]; cbn [is_delta] in Hx.
    + rewrite (AA_updates_transcript_delta _ _ Hx). simpl.
      rewrite Hs. destruct Hx as [_ Hd]. rewrite Hd. simpl.
      match goal with |- context [AA.deliver_all ?c1 _] =>
        destruct (IH c1 (s ++ d)%string t eq_refl eq_refl Ht)
          as (c' & Hrun & Hp' & Hs' & Ht' & Hc' & Hr')
      end.
      exists c'. rewrite Hs', Ht', string_app_assoc. repeat split; auto.
    + rewrite (AA_updates_text_delta _ _ Hx). simpl.
      rewrite Ht. destruct Hx as [_ Hd]. rewrite Hd. simpl.
      match goal with |- context [AA.deliver_all ?c1 _] =>
        destruct (IH c1 s (t ++ d)%string eq_refl Hs eq_refl)
          as (c' & Hrun & Hp' & Hs' & Ht' & Hc' & Hr')
      end.
      exists c'. rewrite Hs', Ht', string_app_assoc. repeat split; auto.
Qed.

(** Transcript and text deltas arriving interleaved: each accumulator
    receives the fragments of its own kind, in arrival order, and nothing
    of the other kind; the connection state and the refs are untouched.  In
    both components. *)
Theorem interleaved_deltas_fill_their_own_buffers
    (c1 : RA.Component) (c2 : AA.Component) (msgs : list value) (xs : list Delta)
    (s t : string) :
  Forall2 is_delta msgs xs ->
  RA.pending c1 = [] -> RA.transcription (RA.state c1) = Str s ->
  RA.responseText (RA.state c1) = Str t ->
  AA.pending c2 = [] -> AA.transcription (AA.state c2) = Str s ->
  AA.responseText (AA.state c2) = Str t ->
  (exists c1',
     RA.deliver_all c1 (map JSONText msgs) = Normal c1' /\
     RA.transcription (RA.state c1') = Str (s ++ transcript_of xs)%string /\
     RA.responseText (RA.state c1') = Str (t ++ text_of xs)%string /\
     RA.isConnected (RA.state c1') = RA.isConnected (RA.state c1) /\
     RA.refs c1' = RA.refs c1) /\
  (exists c2',
     AA.deliver_all c2 (map JSONText msgs) = Normal c2' /\
     AA.transcription (AA.state c2') = Str (s ++ transcript_of xs)%string /\
     AA.responseText (AA.state c2') = Str (t ++ text_of xs)%string /\
     AA.isConnected (AA.state c2') = AA.isConnected (AA.state c2) /\
     AA.refs c2' = AA.refs c2).
Proof.
  intros Hx Hp1 Hs1 Ht1 Hp2 Hs2 Ht2. split.
  - destruct (RA_deliver_stream _ _ Hx c1 s t Hp1 Hs1 Ht1) as (c' & H1 & _ & H2).
    exists c'. auto.
  - destruct (AA_deliver_stream _ _ Hx c2 s t Hp2 Hs2 Ht2) as (c' & H1 & _ & H2).
    exists c'. auto.
Qed.


(** The final output text of a [response.done], truthy and showable, on
    components that are on the page: the audio-only component replaces the
    response text with it; the component of [RealtimeAssistant.tsx] leaves
    the response text as it was, its [response.done] branch never writing
    it.  The final transcription of the payload, which both components show,
    is showable too. *)
Theorem final_output_text_only_in_audio_component
    (c1 : RA.Component) (c2 : AA.Component) (msg final : value) :
  is_response_done msg ->
  AA.final_output_text msg = Normal final ->
  truthy final = true -> valid_child final = true ->
  showable (RA.final_transcription msg) ->
  RA.pending c1 = [] -> RA_shown c1 ->
  AA.pending c2 = [] -> AA_shown c2 ->
  (exists c1',
     RA.receive c1 (JSONText msg) = Normal c1' /\
     RA.responseText (RA.state c1') = RA.responseText (RA.state c1)) /\
  (exists c2',
     AA.receive c2 (JSONText msg) = Normal c2' /\
     AA.responseText (AA.state c2') = final).
Proof.
  intros Hd Hf Ht Hv Hsh Hp1 Hsh1 Hp2 Hsh2.
  destruct (final_transcription_defined _ _ Hd) as [t Hft].
  unfold showable in Hsh. rewrite Hft in Hsh.
  destruct (RA_deliver_done c1 msg t Hd Hft Hp1) as (r1 & Hrun1 & _ & Ht1 & Hr1 & Hd1 & _).
  destruct (AA_deliver_done c2 msg t Hd Hft Hp2) as (r2 & Hrun2 & _ & Ht2 & Hr2 & _).
  rewrite Hf, Ht in Hr2.
  apply RA_shown_valid in Hsh1. apply AA_shown_valid in Hsh2.
  unfold RA_texts_valid in Hsh1. unfold AA_texts_valid in Hsh2.
  apply andb_true_iff in Hsh1 as [Hsh1 Hrv1]. apply andb_true_iff in Hsh1 as [Hdv1 Htv1].
  apply andb_true_iff in Hsh2 as [Htv2 Hrv2].
  split.
  - exists r1. split; [|exact Hr1]. apply (RA_receive_taken _ _ _ Hrun1).
    unfold RA_texts_valid. rewrite Ht1, Hr1, Hd1, Hdv1, Hrv1.
    destruct (truthy t); [now rewrite Hsh | now rewrite Htv1].
  - exists r2. split; [|exact Hr2]. apply (AA_receive_taken _ _ _ Hrun2).
    unfold AA_texts_valid. rewrite Ht2, Hr2, Hv.
    destruct (truthy t); [now rewrite Hsh | now rewrite Htv2].
Qed.

(** A transcript delta event without a [delta] field appends the text
    "undefined", in both components. *)
Theorem delta_without_text_appends_undefined
    (c1 : RA.Component) (c2 : AA.Component) (msg : value) (s : string) :
  get msg "type" = Normal (Str "response.audio_transcript.delta") ->
  get msg "delta" = Normal Undefined ->
  RA.pending c1 = [] -> RA.transcription (RA.state c1) = Str s ->
  AA.pending c2 = [] -> AA.transcription (AA.state c2) = Str s ->
  (exists c1',
     RA.deliver c1 (JSONText msg) = Normal c1' /\
     RA.transcription (RA.state c1') = Str (s ++ "undefined")%string) /\
  (exists c2',
     AA.deliver c2 (JSONText msg) = Normal c2' /\
     AA.transcription (AA.state c2') = Str (s ++ "undefined")%string).
Proof.
  intros Ht Hd Hp1 Hs1 Hp2 Hs2. split.
  - rewrite (RA_deliver c1 _ Hp1). unfold RA_updates. simpl. rewrite Ht. simpl.
    rewrite Hd, Hs1. simpl. eexists; split; reflexivity.
  - rewrite (AA_deliver c2 _ Hp2). unfold AA_updates. simpl. rewrite Ht. simpl.
    rewrite Hd, Hs2. simpl. eexists; split; reflexivity.
Qed.

End Streams.

Lemma interleaved_deltas_fill_their_own_buffers_witness :
  (exists c1',
     RA.deliver_all Examples.mounted
       (map JSONText [Examples.delta_event "Hi"; Examples.text_delta_event "Hel";
                      Examples.delta_event " there"; Examples.text_delta_event "lo"])
       = Normal c1' /\
     RA.transcription (RA.state c1') = Str "Hi there" /\
     RA.responseText (RA.state c1') = Str "Hello") /\
  (exists c2',
     AA.deliver_all Examples.mounted_audio
       (map JSONText [Examples.delta_event "Hi"; Examples.text_delta_event "Hel";
                      Examples.delta_event " there"; Examples.text_delta_event "lo"])
       = Normal c2' /\
     AA.transcription (AA.state c2') = Str "Hi there" /\
     AA.responseText (AA.state c2') = Str "Hello").
Proof.
  assert (Hx : Forall2 (is_delta (E := IntegerEngine.engine))
                 [Examples.delta_event "Hi"; Examples.text_delta_event "Hel";
                  Examples.delta_event " there"; Examples.text_delta_event "lo"]
                 [TranscriptDelta "Hi"; TextDelta "Hel"; TranscriptDelta " there";
                  TextDelta "lo"]).
  { repeat constructor. }
  destruct (interleaved_deltas_fill_their_own_buffers (E := IntegerEngine.engine)
              Examples.mounted Examples.mounted_audio _ _ "" "" Hx
              eq_refl eq_refl eq_refl eq_refl eq_refl eq_refl)
    as ((c1' & H1 & H2 & H3 & _) & (c2' & H4 & H5 & H6 & _)).
  split; [exists c1' | exists c2']; repeat split; assumption.
Defined.


Lemma final_output_text_only_in_audio_component_witness :
  (exists c1',
     RA.receive Examples.connected (JSONText Examples.done_with_output_text) = Normal c1' /\
     RA.responseText (RA.state c1') = Str "Hello") /\
  (exists c2',
     AA.receive Examples.connected_audio (JSONText Examples.done_with_output_text)
       = Normal c2' /\
     AA.responseText (AA.state c2') = Str "Hello there").
Proof.
  exact (final_output_text_only_in_audio_component (E := IntegerEngine.engine)
           Examples.connected Examples.connected_audio
           Examples.done_with_output_text (Str "Hello there")
           eq_refl eq_refl eq_refl eq_refl eq_refl eq_refl eq_refl eq_refl eq_refl).
Defined.

Lemma delta_without_text_appends_undefined_witness :
  (exists c1',
     RA.deliver Examples.listening (JSONText Examples.delta_without_text) = Normal c1' /\
     RA.transcription (RA.state c1') = Str "partialundefined") /\
  (exists c2',
     AA.deliver Examples.listening_audio (JSONText Examples.delta_without_text)
       = Normal c2' /\
     AA.transcription (AA.state c2') = Str "partialundefined").
Proof.
  exact (delta_without_text_appends_undefined (E := IntegerEngine.engine)
           Examples.listening Examples.listening_audio
           Examples.delta_without_text "partial"
           eq_refl eq_refl eq_refl eq_refl eq_refl eq_refl).
Defined.

(** ** Speaking a text *)

Section Speak.
Context {E : JS.Engine}.

(** [speakText] without an open data channel only warns on the console:
    nothing is sent, nothing is queued, in both components. *)
Theorem speakText_needs_open_channel
    (c1 : RA.Component) (c2 : AA.Component) (textToSpeak : value) :
  RA_channel_closed c1 -> AA_channel_closed c2 ->
  RA.speakText textToSpeak c1 =
    (Normal tt,
     {| RA.state := RA.state c1; RA.refs := RA.refs c1; RA.pending := RA.pending c1;
        RA.stopped := RA.stopped c1;
        RA.trace := RA.trace c1
                    ++ [ConsoleWarn "Data channel not open. Cannot send text for TTS."] |}) /\
  AA.speakText textToSpeak c2 =
    (Normal tt,
     {| AA.state := AA.state c2; AA.refs := AA.refs c2; AA.pending := AA.pending c2;
        AA.stopped := AA.stopped c2;
        AA.trace := AA.trace c2
                    ++ [ConsoleWarn "Data channel not open. Cannot send text for TTS."] |}).
Proof.
  unfold RA_channel_closed, AA_channel_closed. intros H1 H2. split.
  - unfold RA.speakText. unfold bind at 1, read at 1.
    destruct (RA.dataChannelRef (RA.refs c1)) as [dc|]; [rewrite H1|]; reflexivity.
  - unfold AA.speakText. unfold bind at 1, read at 1.
    destruct (AA.dataChannelRef (AA.refs c2)) as [dc|]; [rewrite H2|]; reflexivity.
Qed.

Lemma RA_speakText_open (c : RA.Component) (textToSpeak : value) :
  RA_channel_open c ->
  RA.speakText textToSpeak c =
    (Normal tt,
     {| RA.state := RA.state c; RA.refs := RA.refs c;
        RA.pending := RA.pending c ++ [RA.SetResponseText (RA.SetTo (Str ""))];
        RA.stopped := RA.stopped c;
        RA.trace := ((RA.trace c ++ [Send (RA.createItemEvent textToSpeak)])
                     ++ [Send RA.createResponseEvent])
                    ++ [ConsoleLog "Sent request for TTS."] |}).
Proof.
  intros (dc & Hdc & Hopen). unfold RA.speakText. unfold bind at 1, read at 1.
  rewrite Hdc, Hopen. reflexivity.
Qed.

Lemma AA_speakText_open (c : AA.Component) (textToSpeak : value) :
  AA_channel_open c ->
  AA.speakText textToSpeak c =
    (Normal tt,
     {| AA.state := AA.state c; AA.refs := AA.refs c;
        AA.pending := AA.pending c ++ [AA.SetResponseText (AA.SetTo (Str ""))];
        AA.stopped := AA.stopped c;
        AA.trace := ((((AA.trace c ++ [Send (AA.createItemEvent textToSpeak)])
                       ++ [ConsoleLog "Sent conversation.item.create for TTS:"])
                      ++ [Send AA.createResponseEvent])
                     ++ [ConsoleLog "Sent response.create for TTS."]) |}).
Proof.
  intros (dc & Hdc & Hopen). unfold AA.speakText. unfold bind at 1, read at 1.
  rewrite Hdc, Hopen. reflexivity.
Qed.

(** A spoken turn.  [speakText] on an open channel sends the item and then
    the response request, and nothing else; the next render has an empty
    response text and the transcription it had; and the deltas that follow
    build the response text from empty.  In both components. *)
Theorem speakText_starts_a_turn
    (c1 : RA.Component) (c2 : AA.Component) (textToSpeak : value)
    (msgs : list value) (xs : list Delta) (s : string) :
  RA_channel_open c1 -> AA_channel_open c2 ->
  RA.pending c1 = [] -> AA.pending c2 = [] ->
  RA.transcription (RA.state c1) = Str s -> AA.transcription (AA.state c2) = Str s ->
  Forall2 is_delta msgs xs ->
  (sent (RA.trace (exec (RA.speakText textToSpeak) c1)) =
     sent (RA.trace c1) ++ [Send (RA.createItemEvent textToSpeak); Send RA.createResponseEvent] /\
   exists r c',
     RA.render (exec (RA.speakText textToSpeak) c1) = Normal r /\
     RA.responseText (RA.state r) = Str "" /\
     RA.deliver_all r (map JSONText msgs) = Normal c' /\
     RA.responseText (RA.state c') = Str (text_of xs) /\
     RA.transcription (RA.state c') = Str (s ++ transcript_of xs)%string) /\
  (sent (AA.trace (exec (AA.speakText textToSpeak) c2)) =
     sent (AA.trace c2) ++ [Send (AA.createItemEvent textToSpeak); Send AA.createResponseEvent] /\
   exists r c',
     AA.render (exec (AA.speakText textToSpeak) c2) = Normal r /\
     AA.responseText (AA.state r) = Str "" /\
     AA.deliver_all r (map JSONText msgs) = Normal c' /\
     AA.responseText (AA.state c') = Str (text_of xs) /\
     AA.transcription (AA.state c') = Str (s ++ transcript_of xs)%string).
Proof.
  intros Ho1 Ho2 Hp1 Hp2 Hs1 Hs2 Hx. unfold exec. split.
  - rewrite (RA_speakText_open c1 _ Ho1). cbn [snd RA.trace]. split.
    { unfold sent. rewrite !filter_app. cbn [filter is_send app].
      rewrite ?app_nil_r, <- ?app_assoc. reflexivity. }
    unfold RA.render. cbn [RA.state RA.refs RA.pending RA.stopped RA.trace].
    rewrite Hp1. cbn [app RA.apply_updates RA.apply_update RA.next cbind].
    match goal with |- context [Normal ?r0 = Normal _] =>
      destruct (RA_deliver_stream _ _ Hx r0 s "" eq_refl Hs1 eq_refl)
        as (c' & Hrun & _ & Ht & Hr & _)
    end.
    eexists. exists c'. repeat split; eauto.
  - rewrite (AA_speakText_open c2 _ Ho2). cbn [snd AA.trace]. split.
    { unfold sent. rewrite !filter_app. cbn [filter is_send app].
      rewrite ?app_nil_r, <- ?app_assoc. reflexivity. }
    unfold AA.render. cbn [AA.state AA.refs AA.pending AA.stopped AA.trace].
    rewrite Hp2. cbn [app AA.apply_updates AA.apply_update AA.next cbind].
    match goal with |- context [Normal ?r0 = Normal _] =>
      destruct (AA_deliver_stream _ _ Hx r0 s "" eq_refl Hs2 eq_refl)
        as (c' & Hrun & _ & Ht & Hr & _)
    end.
    eexists. exists c'. repeat split; eauto.
Qed.

End Speak.

Lemma speakText_needs_open_channel_witness :
  sent (RA.trace (exec (RA.speakText (Str "Hello")) Examples.mounted)) = [] /\
  RA.pending (exec (RA.speakText (Str "Hello")) Examples.mounted) = [] /\
  sent (AA.trace (exec (AA.speakText (Str "Hello")) Examples.mounted_audio)) = [] /\
  AA.pending (exec (AA.speakText (Str "Hello")) Examples.mounted_audio) = [].
Proof.
  destruct (speakText_needs_open_channel (E := IntegerEngine.engine)
              Examples.mounted Examples.mounted_audio (Str "Hello") I I) as [H1 H2].
  unfold exec. rewrite H1, H2. repeat split.
Defined.

Lemma speakText_starts_a_turn_witness :
  (exists r c',
     RA.render (exec (RA.speakText (Str "Say hello")) Examples.connected) = Normal r /\
     RA.deliver_all r
       (map JSONText [Examples.text_delta_event "Hel"; Examples.text_delta_event "lo"])
       = Normal c' /\
     RA.responseText (RA.state c') = Str "Hello") /\
  (exists r c',
     AA.render (exec (AA.speakText (Str "Say hello")) Examples.connected_audio) = Normal r /\
     AA.deliver_all r
       (map JSONText [Examples.text_delta_event "Hel"; Examples.text_delta_event "lo"])
       = Normal c' /\
     AA.responseText (AA.state c') = Str "Hello").
Proof.
  assert (Ho1 : RA_channel_open (E := IntegerEngine.engine) Examples.connected).
  { exists {| label := "oai-events"; readyState := DcOpen |}. split; reflexivity. }
  assert (Ho2 : AA_channel_open (E := IntegerEngine.engine) Examples.connected_audio).
  { exists {| label := "oai-events"; readyState := DcOpen |}. split; reflexivity. }
  assert (Hx : Forall2 (is_delta (E := IntegerEngine.engine))
                 [Examples.text_delta_event "Hel"; Examples.text_delta_event "lo"]
                 [TextDelta "Hel"; TextDelta "lo"]).
  { repeat constructor. }
  destruct (speakText_starts_a_turn (E := IntegerEngine.engine)
              Examples.connected Examples.connected_audio (Str "Say hello") _ _ "partial"
              Ho1 Ho2 eq_refl eq_refl eq_refl eq_refl Hx)
    as ((_ & r1 & c1' & Hr1 & _ & Hd1 & Ht1 & _) & (_ & r2 & c2' & Hr2 & _ & Hd2 & Ht2 & _)).
  split; [exists r1, c1' | exists r2, c2']; repeat split; assumption.
Defined.

(** ** Connecting *)

Ltac split_run H :=
  repeat (match type of H with
          | context [match ?x with _ => _ end] =>
              match x with
              | context [match _ with _ => _ end] => fail 1
              | _ => destruct x eqn:?
              end
          end; cbv beta iota in H).

Section ConnectMore.
Context {E : JS.Engine}.

(** [connectToOpenAI] while the peer connection reports "connected" only
    logs: no request, no state update, no change of the refs, in both
    components. *)
Theorem connect_when_connected_does_nothing
    (c1 : RA.Component) (c2 : AA.Component) (env1 : RA.ConnectEnv) (env2 : AA.ConnectEnv)
    (pc1 pc2 : PeerConnection) :
  RA.peerConnectionRef (RA.refs c1) = Some pc1 -> is_connected pc1 = true ->
  AA.peerConnectionRef (AA.refs c2) = Some pc2 -> is_connected pc2 = true ->
  RA.connectToOpenAI env1 c1 =
    (Normal tt,
     {| RA.state := RA.state c1; RA.refs := RA.refs c1; RA.pending := RA.pending c1;
        RA.stopped := RA.stopped c1;
        RA.trace := RA.trace c1 ++ [ConsoleLog "Already connected."] |}) /\
  AA.connectToOpenAI env2 c2 =
    (Normal tt,
     {| AA.state := AA.state c2; AA.refs := AA.refs c2; AA.pending := AA.pending c2;
        AA.stopped := AA.stopped c2;
        AA.trace := AA.trace c2 ++ [ConsoleLog "Already connected."] |}).
Proof.
  intros H1 Hc1 H2 Hc2. split.
  - unfold RA.connectToOpenAI. unfold bind at 1, read at 1. rewrite H1, Hc1. reflexivity.
  - unfold AA.connectToOpenAI. unfold bind at 1, read at 1. rewrite H2, Hc2. reflexivity.
Qed.

(** The transport reporting a state: the next render is connected exactly
    when the state is "connected", in both components. *)
Theorem connection_state_decides_isConnected
    (c1 : RA.Component) (c2 : AA.Component) (s : ConnectionState) :
  RA.pending c1 = [] -> AA.pending c2 = [] ->
  (exists r,
     RA.render (exec (RA.onconnectionstatechange s) c1) = Normal r /\
     RA.isConnected (RA.state r) = match s with PcConnected => true | _ => false end /\
     RA.transcription (RA.state r) = RA.transcription (RA.state c1) /\
     RA.responseText (RA.state r) = RA.responseText (RA.state c1)) /\
  (exists r,
     AA.render (exec (AA.onconnectionstatechange s) c2) = Normal r /\
     AA.isConnected (AA.state r) = match s with PcConnected => true | _ => false end /\
     AA.transcription (AA.state r) = AA.transcription (AA.state c2) /\
     AA.responseText (AA.state r) = AA.responseText (AA.state c2)).
Proof.
  intros Hp1 Hp2. split.
  - destruct c1 as [st rf pend stp tr]. cbn in Hp1. subst pend.
    destruct s; cbv -[app]; eexists; repeat split.
  - destruct c2 as [st rf pend stp tr]. cbn in Hp2. subst pend.
    destruct s; cbv -[app]; eexists; repeat split.
Qed.

(** [add_tracks] hands every track to the peer connection, in order. *)
Lemma RA_add_tracks_senders (tracks : list Track) (c : RA.Component) (pc : PeerConnection) :
  RA.peerConnectionRef (RA.refs c) = Some pc ->
  RA.add_tracks tracks c =
  (Normal tt,
   {| RA.state := RA.state c;
      RA.refs := RA.with_peerConnection
                   (Some {| connectionState := connectionState pc;
                            senders := senders pc ++ tracks |}) (RA.refs c);
      RA.pending := RA.pending c; RA.stopped := RA.stopped c; RA.trace := RA.trace c |}).
Proof.
  revert c pc. induction tracks as [|t rest IH]; intros c pc Hpc.
  - destruct c as [st [pc0 dc el la lv] p s tr]. cbn in Hpc. subst pc0.
    destruct pc as [cs sn]. cbn. unfold ret. now rewrite app_nil_r.
  - cbn [RA.add_tracks]. unfold bind at 1. unfold RA.update_pc at 1, RA.set_refs, modify.
    rewrite (IH _ (pc_addTrack t pc)).
    + destruct c as [st [pc0 dc el la lv] p s tr]. cbn in Hpc. subst pc0.
      cbn. now rewrite <- app_assoc.
    + cbn. now rewrite Hpc.
Qed.

(** The [try] block of [connectToOpenAI] when every step succeeds and the
    video element is there. *)
Lemma RA_connect_try_success (c : RA.Component) (env : RA.ConnectEnv) (ms : MediaStream)
    (el : VideoElement) :
  RA_reaches_negotiation env ms ->
  RA_negotiation_succeeds env = true ->
  RA.videoElRef (RA.refs c) = Some el ->
  exists s',
    RA.connectToOpenAI_try env c = (Normal tt, s') /\
    RA.state s' = RA.state c /\
    RA.peerConnectionRef (RA.refs s')
      = Some {| connectionState := PcNew; senders := ms |} /\
    RA.dataChannelRef (RA.refs s') = Some (createDataChannel "oai-events") /\
    RA.localAudioStreamRef (RA.refs s') = Some (getAudioTracks ms) /\
    alerts (RA.trace s') = alerts (RA.trace c) /\
    sent (RA.trace s') = sent (RA.trace c) /\
    length (requests (RA.trace s')) = (length (requests (RA.trace c)) + 2)%nat /\
    match RA.play env with
    | Normal _ =>
        RA.localVideoStreamRef (RA.refs s') = Some (getVideoTracks ms) /\
        RA.videoElRef (RA.refs s') = Some {| srcObject := Some (getVideoTracks ms) |} /\
        RA.stopped s' = RA.stopped c /\
        RA.pending s' = RA.pending c ++
          [RA.SetVideoError None; RA.SetIsVideoEnabled true; RA.SetIsConnected true]
    | Throw e =>
        RA.localVideoStreamRef (RA.refs s') = None /\
        RA.videoElRef (RA.refs s') = Some {| srcObject := Some (getVideoTracks ms) |} /\
        RA.stopped s' = RA.stopped c ++ map track_id (getVideoTracks ms) /\
        RA.pending s' = RA.pending c ++
          [RA.SetVideoError None; RA.SetVideoError (Some (message_of e));
           RA.SetIsVideoEnabled false; RA.SetIsVideoEnabled true; RA.SetIsConnected true]
    end.
Proof.
  intros (tr & sd & cs & key & bearer & offer & H1 & H2 & H3 & H4 & H5 & H6 & H7 & H8 & H9)
    Hok Hel.
  unfold RA_negotiation_succeeds in Hok.
  destruct c as [st [pc0 dc0 el0 la0 lv0] pend stp tr0].
  destruct env as [tok um pl co sl sr srd].
  destruct tr as [tok_ok tok_status tok_json tok_text].
  cbn in H1, H2, H3, H7, H8, H9, Hok, Hel. subst.
  destruct (RA.connectToOpenAI_try _ _) as [res s'] eqn:Hrun.
  cbv -[get to_string truthy app map filter RA.add_tracks In message_of] in Hrun.
  rewrite H4 in Hrun. cbv beta iota in Hrun. rewrite H5 in Hrun. cbv beta iota in Hrun.
  destruct sr as [[sr_ok sr_status sr_json sr_text]|e0]; [|discriminate].
  cbv [ok text is_throw negb andb] in Hok.
  destruct sr_ok; [|discriminate]. destruct sr_text as [t|e1]; [|discriminate].
  destruct srd as [[]|e2]; [|discriminate].
  destruct pl as [[]|pe].
  all: match type of Hrun with context [RA.add_tracks ?l ?s] =>
         rewrite (RA_add_tracks_senders l s new_RTCPeerConnection eq_refl) in Hrun
       end; cbv beta iota in Hrun; rewrite H6 in Hrun;
       cbv -[app map filter] in Hrun; injection Hrun as <- <-.
  all: eexists; split; [reflexivity|].
  all: cbn [RA.state RA.refs RA.pending RA.stopped RA.trace RA.peerConnectionRef
            RA.dataChannelRef RA.localAudioStreamRef RA.localVideoStreamRef RA.videoElRef
            RA.play].
  all: unfold alerts, sent, requests; rewrite ?filter_app;
       cbn [filter is_alert is_send is_request]; rewrite ?app_nil_r, ?length_app;
       cbn [length]; rewrite <- ?app_assoc; cbn [app].
  all: repeat split; try reflexivity; try lia.
Qed.

Lemma RA_connect_success (c : RA.Component) (env : RA.ConnectEnv) (ms : MediaStream)
    (el : VideoElement) :
  RA_not_connected c ->
  RA_reaches_negotiation env ms ->
  RA_negotiation_succeeds env = true ->
  RA.videoElRef (RA.refs c) = Some el ->
  RA.play env = Normal tt ->
  RA.pending c = [] ->
  outcome (RA.connectToOpenAI env) c = Normal tt /\
  RA.peerConnectionRef (RA.refs (exec (RA.connectToOpenAI env) c))
    = Some {| connectionState := PcNew; senders := ms |} /\
  RA.dataChannelRef (RA.refs (exec (RA.connectToOpenAI env) c))
    = Some (createDataChannel "oai-events") /\
  RA.localAudioStreamRef (RA.refs (exec (RA.connectToOpenAI env) c))
    = Some (getAudioTracks ms) /\
  RA.localVideoStreamRef (RA.refs (exec (RA.connectToOpenAI env) c))
    = Some (getVideoTracks ms) /\
  RA.stopped (exec (RA.connectToOpenAI env) c) = RA.stopped c /\
  alerts (RA.trace (exec (RA.connectToOpenAI env) c)) = alerts (RA.trace c) /\
  sent (RA.trace (exec (RA.connectToOpenAI env) c)) = sent (RA.trace c) /\
  length (requests (RA.trace (exec (RA.connectToOpenAI env) c)))
    = (length (requests (RA.trace c)) + 2)%nat /\
  exists r,
    RA.render (exec (RA.connectToOpenAI env) c) = Normal r /\
    RA.isConnected (RA.state r) = true /\
    RA.isVideoEnabled (RA.state r) = true /\
    RA.videoError (RA.state r) = None /\
    RA.transcription (RA.state r) = Str "" /\
    RA.responseText (RA.state r) = Str "" /\
    RA.sceneDescription (RA.state r) = Str "".
Proof.
  intros Hnc Hreach Hok Hel Hplay Hp. unfold outcome, exec.
  rewrite (RA_connect_unfold c env Hnc).
  match goal with |- context [RA.connectToOpenAI_try env ?c1] =>
    destruct (RA_connect_try_success c1 env ms el Hreach Hok Hel)
      as (s' & Hrun & Hst & Hpc & Hdc & Hla & Hal & Hse & Hrq & Hrest)
  end.
  rewrite Hplay in Hrest. destruct Hrest as (Hlv & _ & Hstp & Hpe).
  rewrite Hrun. cbn [fst snd RA.state RA.refs RA.pending RA.stopped RA.trace] in *.
  repeat (split; [assumption || reflexivity|]).
  unfold RA.render. rewrite Hpe, Hp, Hst. cbn. eexists. repeat split.
Qed.

(** A connect in which every step succeeds: two requests are made (the
    token, then the offer), nothing is alerted or sent; the peer connection
    holds the acquired tracks in order, the channel is created, the refs hold
    the audio and the video tracks apart; and the next render is connected,
    with the video enabled and the three texts empty. *)
Theorem connect_succeeds (c : RA.Component) (env : RA.ConnectEnv) (ms : MediaStream)
    (el : VideoElement) :
  RA_not_connected c ->
  RA_reaches_negotiation env ms ->
  RA_negotiation_succeeds env = true ->
  RA.videoElRef (RA.refs c) = Some el ->
  RA.play env = Normal tt ->
  RA.pending c = [] ->
  outcome (RA.connectToOpenAI env) c = Normal tt /\
  RA.peerConnectionRef (RA.refs (exec (RA.connectToOpenAI env) c))
    = Some {| connectionState := PcNew; senders := ms |} /\
  RA.dataChannelRef (RA.refs (exec (RA.connectToOpenAI env) c))
    = Some (createDataChannel "oai-events") /\
  RA.localAudioStreamRef (RA.refs (exec (RA.connectToOpenAI env) c))
    = Some (getAudioTracks ms) /\
  RA.localVideoStreamRef (RA.refs (exec (RA.connectToOpenAI env) c))
    = Some (getVideoTracks ms) /\
  RA.stopped (exec (RA.connectToOpenAI env) c) = RA.stopped c /\
  alerts (RA.trace (exec (RA.connectToOpenAI env) c)) = alerts (RA.trace c) /\
  sent (RA.trace (exec (RA.connectToOpenAI env) c)) = sent (RA.trace c) /\
  length (requests (RA.trace (exec (RA.connectToOpenAI env) c)))
    = (length (requests (RA.trace c)) + 2)%nat /\
  exists r,
    RA.render (exec (RA.connectToOpenAI env) c) = Normal r /\
    RA.isConnected (RA.state r) = true /\
    RA.isVideoEnabled (RA.state r) = true /\
    RA.videoError (RA.state r) = None /\
    RA.transcription (RA.state r) = Str "" /\
    RA.responseText (RA.state r) = Str "" /\
    RA.sceneDescription (RA.state r) = Str "".
Proof. exact (RA_connect_success c env ms el). Qed.

(** A connect in which only [play()] on the video element is rejected still
    connects: the video tracks are stopped and dropped, the audio tracks are
    kept, the error is shown as the video error, and the video is rendered
    as enabled all the same. *)
Theorem connect_survives_play_failure (c : RA.Component) (env : RA.ConnectEnv)
    (ms : MediaStream) (el : VideoElement) (e : Exn) :
  RA_not_connected c ->
  RA_reaches_negotiation env ms ->
  RA_negotiation_succeeds env = true ->
  RA.videoElRef (RA.refs c) = Some el ->
  RA.play env = Throw e ->
  RA.pending c = [] ->
  outcome (RA.connectToOpenAI env) c = Normal tt /\
  RA.localAudioStreamRef (RA.refs (exec (RA.connectToOpenAI env) c))
    = Some (getAudioTracks ms) /\
  RA.localVideoStreamRef (RA.refs (exec (RA.connectToOpenAI env) c)) = None /\
  RA.stopped (exec (RA.connectToOpenAI env) c)
    = RA.stopped c ++ map track_id (getVideoTracks ms) /\
  alerts (RA.trace (exec (RA.connectToOpenAI env) c)) = alerts (RA.trace c) /\
  exists r,
    RA.render (exec (RA.connectToOpenAI env) c) = Normal r /\
    RA.isConnected (RA.state r) = true /\
    RA.videoError (RA.state r) = Some (message_of e) /\
    RA.isVideoEnabled (RA.state r) = true.
Proof.
  intros Hnc Hreach Hok Hel Hplay Hp. unfold outcome, exec.
  rewrite (RA_connect_unfold c env Hnc).
  match goal with |- context [RA.connectToOpenAI_try env ?c1] =>
    destruct (RA_connect_try_success c1 env ms el Hreach Hok Hel)
      as (s' & Hrun & Hst & Hpc & Hdc & Hla & Hal & Hse & Hrq & Hrest)
  end.
  rewrite Hplay in Hrest. destruct Hrest as (Hlv & _ & Hstp & Hpe).
  rewrite Hrun. cbn [fst snd RA.state RA.refs RA.pending RA.stopped RA.trace] in *.
  repeat (split; [assumption || reflexivity|]).
  unfold RA.render. rewrite Hpe, Hp, Hst. cbn. eexists. repeat split.
Qed.

(** Connect, then disconnect: every track acquired by the connect is
    stopped, the connection and the channel are closed, and the component is
    disconnected. *)
Theorem connect_then_disconnect_releases_everything (c : RA.Component)
    (env : RA.ConnectEnv) (ms : MediaStream) (el : VideoElement) :
  RA_not_connected c ->
  RA_reaches_negotiation env ms ->
  RA_negotiation_succeeds env = true ->
  RA.videoElRef (RA.refs c) = Some el ->
  RA.play env = Normal tt ->
  RA.pending c = [] ->
  all_stopped ms
    (RA.stopped (exec RA.disconnectFromOpenAI (exec (RA.connectToOpenAI env) c))) /\
  RA_is_disconnected (exec RA.disconnectFromOpenAI (exec (RA.connectToOpenAI env) c)) /\
  In ClosePeerConnection
    (RA.trace (exec RA.disconnectFromOpenAI (exec (RA.connectToOpenAI env) c))) /\
  In CloseDataChannel
    (RA.trace (exec RA.disconnectFromOpenAI (exec (RA.connectToOpenAI env) c))) /\
  sent (RA.trace (exec RA.disconnectFromOpenAI (exec (RA.connectToOpenAI env) c)))
    = sent (RA.trace c).
Proof.
  intros Hnc Hreach Hok Hel Hplay Hp.
  destruct (RA_connect_success c env ms el Hnc Hreach Hok Hel Hplay Hp)
    as (_ & Hpc & Hdc & Hla & Hlv & Hstp & _ & Hse & _ & r & Hr & _).
  set (c' := exec (RA.connectToOpenAI env) c) in *.
  unfold exec. rewrite RA_disconnect. cbn [snd].
  destruct (RA_render_disconnected c' r Hr) as (r' & Hr' & Hd).
  split.
  { unfold RA_disconnected. cbn [RA.stopped]. rewrite Hla, Hlv. intros t Hin.
    destruct (track_is_audio_or_video t) as [Ha|Hv].
    - apply in_or_app; left. apply in_or_app; right. apply in_map, filter_In. auto.
    - apply in_or_app; right. apply in_map, filter_In. auto. }
  split; [unfold RA_is_disconnected; eauto 10|].
  unfold RA_disconnected. cbn [RA.trace]. rewrite Hpc, Hdc.
  split; [|split].
  - apply in_or_app; left. apply in_or_app; left. apply in_or_app; right. now left.
  - apply in_or_app; left. apply in_or_app; right. now left.
  - unfold sent in *. rewrite !filter_app, Hse. cbn. now rewrite !app_nil_r.
Qed.

Ltac close_run H :=
  cbv -[app map filter message_of] in H; injection H as <- <-;
  do 3 eexists; split; [reflexivity|];
  cbn [RA.state RA.trace RA.pending RA.refs RA.stopped];
  split; [rewrite <- ?app_assoc; cbn [app];
          first [reflexivity | symmetry; apply app_nil_r]|];
  unfold alerts, sent, requests; rewrite ?filter_app;
  cbn [filter is_alert is_send is_request]; rewrite ?app_nil_r;
  repeat split; auto; repeat constructor.

Lemma RA_keeps_texts_updates (us : list RA.StateUpdate) :
  Forall RA_keeps_texts us ->
  forall st, exists st',
    RA.apply_updates st us = Normal st' /\
    RA.transcription st' = RA.transcription st /\
    RA.responseText st' = RA.responseText st /\
    RA.sceneDescription st' = RA.sceneDescription st /\
    RA.isConnected st' = connected_after us (RA.isConnected st).
Proof.
  induction 1 as [|u us Hu _ IH]; intros st; cbn [RA.apply_updates].
  - exists st. repeat split.
  - destruct u as [b|[v|m]|[v|m]|v|b|e|b]; cbn in Hu; try contradiction;
      cbn [RA.apply_update cbind];
      match goal with |- context [RA.apply_updates ?st1 us] =>
        destruct (IH st1) as (st' & Hrun & Ht & Hr & Hs & Hc)
      end; exists st'; cbn in *; repeat split; assumption.
Qed.

(** The [try] block of [connectToOpenAI], whatever the platform answers: it
    alerts and sends nothing, queues only updates of the connection and
    video cells, and when it returns they leave [isConnected] true. *)
Lemma RA_connect_try_any (c : RA.Component) (env : RA.ConnectEnv) :
  exists res s' us,
    RA.connectToOpenAI_try env c = (res, s') /\
    RA.pending s' = RA.pending c ++ us /\
    RA.state s' = RA.state c /\
    alerts (RA.trace s') = alerts (RA.trace c) /\
    sent (RA.trace s') = sent (RA.trace c) /\
    Forall RA_keeps_texts us /\
    match res with
    | Normal _ => connected_after us false = true
    | Throw _ => True
    end.
Proof.
  destruct c as [st [pc0 dc0 el0 la0 lv0] pend stp tr0].
  destruct env as [tok um pl co sl sr srd].
  destruct (RA.connectToOpenAI_try _ _) as [res s'] eqn:Hrun.
  cbv -[get to_string truthy or_else new_Error app map filter RA.add_tracks In message_of]
    in Hrun.
  destruct tok as [[tok_ok tok_status tok_json tok_text]|e]; cbv beta iota in Hrun;
    [|close_run Hrun].
  destruct tok_ok; cbv beta iota in Hrun; [|split_run Hrun; close_run Hrun].
  destruct tok_json as [sd|e]; cbv beta iota in Hrun; [|close_run Hrun].
  destruct (get sd "client_secret") as [cs|e]; cbv beta iota in Hrun; [|close_run Hrun].
  destruct (get cs "value") as [key|e]; cbv beta iota in Hrun; [|close_run Hrun].
  destruct um as [ms|e]; cbv beta iota in Hrun; [|destruct lv0; close_run Hrun].
  destruct el0 as [el|]; [destruct pl as [[]|pe]|]; cbv beta iota in Hrun.
  all: match type of Hrun with context [RA.add_tracks ?l ?s] =>
         rewrite (RA_add_tracks_senders l s new_RTCPeerConnection eq_refl) in Hrun
       end; cbv beta iota in Hrun.
  all: destruct co as [offer|e]; cbv beta iota in Hrun; [|close_run Hrun].
  all: destruct sl as [[]|e]; cbv beta iota in Hrun; [|close_run Hrun].
  all: destruct (to_string key) as [bearer|e]; cbv beta iota in Hrun; [|close_run Hrun].
  all: destruct sr as [[sr_ok sr_status sr_json sr_text]|e]; cbv beta iota in Hrun;
    [|close_run Hrun].
  all: destruct sr_ok; destruct sr_text as [t|e]; try (close_run Hrun; fail).
  all: destruct srd as [[]|e]; close_run Hrun.
Qed.

Lemma connected_after_start (us : list RA.StateUpdate) (b1 b2 : bool) :
  connected_after us b1 = connected_after us b2 \/
  (connected_after us b1 = b1 /\ connected_after us b2 = b2).
Proof.
  unfold connected_after. revert b1 b2.
  induction us as [|u us IH]; intros b1 b2; cbn [fold_left]; [auto|].
  destruct u; try apply IH. left. reflexivity.
Qed.

(** [connectToOpenAI] settles, whatever the platform answers: it never
    throws and never sends on the channel, the next render has the three
    texts empty, and either it is connected and nothing was alerted, or it
    is not connected, the four refs are null and exactly one alert was
    shown. *)
Theorem connect_always_settles (c : RA.Component) (env : RA.ConnectEnv) :
  RA_not_connected c ->
  RA.pending c = [] ->
  outcome (RA.connectToOpenAI env) c = Normal tt /\
  sent (RA.trace (exec (RA.connectToOpenAI env) c)) = sent (RA.trace c) /\
  exists r,
    RA.render (exec (RA.connectToOpenAI env) c) = Normal r /\
    RA.transcription (RA.state r) = Str "" /\
    RA.responseText (RA.state r) = Str "" /\
    RA.sceneDescription (RA.state r) = Str "" /\
    ((RA.isConnected (RA.state r) = true /\
      alerts (RA.trace (exec (RA.connectToOpenAI env) c)) = alerts (RA.trace c)) \/
     (RA.isConnected (RA.state r) = false /\
      RA.peerConnectionRef (RA.refs (exec (RA.connectToOpenAI env) c)) = None /\
      RA.dataChannelRef (RA.refs (exec (RA.connectToOpenAI env) c)) = None /\
      RA.localAudioStreamRef (RA.refs (exec (RA.connectToOpenAI env) c)) = None /\
      RA.localVideoStreamRef (RA.refs (exec (RA.connectToOpenAI env) c)) = None /\
      exists e,
        alerts (RA.trace (exec (RA.connectToOpenAI env) c)) =
        alerts (RA.trace c) ++ [Alert ("Connection error: " ++ message_of e)])).
Proof.
  intros Hnc Hp. unfold outcome, exec. rewrite (RA_connect_unfold c env Hnc).
  match goal with |- context [RA.connectToOpenAI_try env ?c1] =>
    destruct (RA_connect_try_any c1 env)
      as (res & s' & us & Hrun & Hpe & Hst & Hal & Hse & Hus & Hres)
  end.
  rewrite Hrun. cbn [RA.state RA.refs RA.pending RA.stopped RA.trace] in *.
  rewrite Hp in Hpe. cbn [app] in Hpe.
  destruct res as [[]|e].
  - cbn [fst snd]. split; [reflexivity|]. split; [assumption|].
    unfold RA.render. rewrite Hpe, Hst.
    cbn [RA.apply_updates RA.apply_update RA.next cbind].
    match goal with |- context [RA.apply_updates ?st0 us] =>
      destruct (RA_keeps_texts_updates us Hus st0) as (st' & Hrun' & Ht & Hr & Hs & Hc)
    end.
    rewrite Hrun'. cbn [cbind]. eexists. split; [reflexivity|].
    cbn [RA.state]. cbn in Ht, Hr, Hs, Hc.
    repeat (split; [assumption|]). left. split; [|assumption].
    rewrite Hc. destruct (connected_after_start us (RA.isConnected (RA.state c)) false)
      as [Heq | [_ Hid]]; congruence.
  - rewrite RA_disconnect. cbn [fst snd]. unfold RA_disconnected.
    cbn [RA.state RA.refs RA.pending RA.stopped RA.trace RA.peerConnectionRef
         RA.dataChannelRef RA.localAudioStreamRef RA.localVideoStreamRef].
    split; [reflexivity|]. split.
    { unfold sent in *. rewrite !filter_app, Hse.
      destruct (RA.peerConnectionRef (RA.refs s')), (RA.dataChannelRef (RA.refs s'));
        cbn [filter is_send app]; rewrite ?app_nil_r; reflexivity. }
    unfold RA.render. cbn [RA.state RA.refs RA.pending RA.stopped RA.trace].
    rewrite Hpe, Hst. cbn [app RA.apply_updates RA.apply_update RA.next cbind].
    rewrite RA_apply_updates_app.
    match goal with |- context [RA.apply_updates ?st0 us] =>
      destruct (RA_keeps_texts_updates us Hus st0) as (st' & Hrun' & _)
    end.
    rewrite Hrun'. cbn [RA.apply_updates RA.apply_update RA.next cbind].
    eexists. split; [reflexivity|]. cbn [RA.state RA.transcription RA.responseText
                                         RA.sceneDescription RA.isConnected].
    repeat (split; [reflexivity|]). right. repeat (split; [reflexivity|]).
    exists e. unfold alerts in *. rewrite !filter_app, Hal.
    destruct (RA.peerConnectionRef (RA.refs s')), (RA.dataChannelRef (RA.refs s'));
      cbn [filter is_alert app]; rewrite ?app_nil_r; reflexivity.
Qed.

Lemma AA_add_tracks (tracks : list Track) (c : AA.Component) :
  exists pc',
    AA.add_tracks tracks c =
    (Normal tt,
     {| AA.state := AA.state c;
        AA.refs := AA.with_peerConnection pc' (AA.refs c);
        AA.pending := AA.pending c; AA.stopped := AA.stopped c;
        AA.trace := AA.trace c |}).
Proof.
  revert c. induction tracks as [|t rest IH]; intros c.
  - exists (AA.peerConnectionRef (AA.refs c)). simpl. unfold ret.
    destruct c as [st [pc dc ls] p s tr]; reflexivity.
  - simpl. unfold bind, AA.update_pc, AA.set_refs, modify. simpl.
    match goal with |- context [AA.add_tracks rest ?c1] =>
      destruct (IH c1) as (pc' & Hrun) end.
    exists pc'. rewrite Hrun. destruct c as [st [pc dc ls] p s tr]; reflexivity.
Qed.

Ltac close_audio_run H :=
  cbv -[app map filter message_of String.append] in H; injection H as <- <-;
  cbn [fst snd AA.state AA.trace AA.pending AA.refs AA.stopped AA.localStreamRef
       AA.with_peerConnection AA.with_dataChannel AA.with_localStream];
  unfold alerts, sent; rewrite ?filter_app;
  cbn [filter is_alert is_send]; rewrite ?app_nil_r;
  repeat split; auto;
  try (intros ? Hheld; eauto; fail);
  first [ exists []; split; [symmetry; apply app_nil_r | cbn; lia]
        | eexists; split; [reflexivity | cbn; lia] ].

(** The audio-only [connectToOpenAI], whatever the platform answers: it
    never throws, sends nothing on the channel, shows at most one alert, and
    never stops a track nor drops the stream ref. *)
Theorem audio_connect_never_stops_a_track (c : AA.Component) (env : AA.ConnectEnv) :
  outcome (AA.connectToOpenAI env) c = Normal tt /\
  AA.stopped (exec (AA.connectToOpenAI env) c) = AA.stopped c /\
  sent (AA.trace (exec (AA.connectToOpenAI env) c)) = sent (AA.trace c) /\
  (forall ms, AA.localStreamRef (AA.refs c) = Some ms ->
     exists ms', AA.localStreamRef (AA.refs (exec (AA.connectToOpenAI env) c)) = Some ms') /\
  exists shown,
    alerts (AA.trace (exec (AA.connectToOpenAI env) c)) = alerts (AA.trace c) ++ shown /\
    (length shown <= 1)%nat.
Proof.
  unfold outcome, exec.
  destruct c as [st [pc0 dc0 ls0] pend stp tr0].
  destruct env as [tok um co sl sr srd].
  destruct (AA.connectToOpenAI _ _) as [res s'] eqn:Hrun.
  cbv -[get to_string truthy or_else app map filter AA.add_tracks In message_of
        is_connected String.append] in Hrun.
  destruct pc0 as [pc0|]; [destruct (is_connected pc0)|]; cbv beta iota in Hrun.
  1: { close_audio_run Hrun. }
  all: destruct tok as [[tok_ok tok_status tok_json tok_text]|e]; cbv beta iota in Hrun;
    [|close_audio_run Hrun].
  all: destruct tok_ok; cbv beta iota in Hrun; [|split_run Hrun; close_audio_run Hrun].
  all: destruct tok_json as [sd|e]; cbv beta iota in Hrun; [|close_audio_run Hrun].
  all: destruct (get sd "client_secret") as [cs|e]; cbv beta iota in Hrun;
    [|close_audio_run Hrun].
  all: destruct (get cs "value") as [key|e]; cbv beta iota in Hrun; [|close_audio_run Hrun].
  all: destruct um as [ms|e]; cbv beta iota in Hrun; [|close_audio_run Hrun].
  all: match type of Hrun with context [AA.add_tracks ?l ?s] =>
         destruct (AA_add_tracks l s) as (pc' & Hadd); rewrite Hadd in Hrun; clear Hadd
       end; cbv beta iota in Hrun.
  all: destruct co as [offer|e]; cbv beta iota in Hrun;
    [|destruct pc'; close_audio_run Hrun].
  all: destruct sl as [[]|e]; cbv beta iota in Hrun; [|destruct pc'; close_audio_run Hrun].
  all: destruct (to_string key) as [bearer|e]; cbv beta iota in Hrun;
    [|destruct pc'; close_audio_run Hrun].
  all: destruct sr as [[sr_ok sr_status sr_json sr_text]|e]; cbv beta iota in Hrun;
    [|destruct pc'; close_audio_run Hrun].
  all: destruct sr_ok; destruct sr_text as [t|e];
    try (destruct pc'; close_audio_run Hrun; fail).
  all: destruct srd as [[]|e]; destruct pc'; close_audio_run Hrun.
Qed.

End ConnectMore.

Lemma connect_when_connected_does_nothing_witness :
  requests (RA.trace (exec (RA.connectToOpenAI Examples.video_connects) Examples.connected))
    = [] /\
  RA.pending (exec (RA.connectToOpenAI Examples.video_connects) Examples.connected) = [] /\
  requests (AA.trace (exec (AA.connectToOpenAI Examples.audio_offer_refused)
                        Examples.connected_audio)) = [] /\
  AA.pending (exec (AA.connectToOpenAI Examples.audio_offer_refused)
                Examples.connected_audio) = [].
Proof.
  destruct (connect_when_connected_does_nothing (E := IntegerEngine.engine)
              Examples.connected Examples.connected_audio
              Examples.video_connects Examples.audio_offer_refused
              _ _ eq_refl eq_refl eq_refl eq_refl) as [H1 H2].
  unfold exec. rewrite H1, H2. repeat split.
Defined.

Lemma connection_state_decides_isConnected_witness :
  (exists r,
     RA.render (exec (RA.onconnectionstatechange PcFailed) Examples.connected) = Normal r /\
     RA.isConnected (RA.state r) = false) /\
  (exists r,
     AA.render (exec (AA.onconnectionstatechange PcConnected) Examples.mounted_audio)
       = Normal r /\
     AA.isConnected (AA.state r) = true).
Proof.
  destruct (connection_state_decides_isConnected (E := IntegerEngine.engine)
              Examples.connected Examples.mounted_audio PcFailed eq_refl eq_refl)
    as ((r1 & Hr1 & Hc1 & _) & _).
  destruct (connection_state_decides_isConnected (E := IntegerEngine.engine)
              Examples.connected Examples.mounted_audio PcConnected eq_refl eq_refl)
    as (_ & (r2 & Hr2 & Hc2 & _)).
  split; [exists r1 | exists r2]; split; assumption.
Defined.

Lemma video_connects_reaches_negotiation :
  RA_reaches_negotiation (E := IntegerEngine.engine) Examples.video_connects
    [Examples.mic; Examples.camera].
Proof.
  unfold RA_reaches_negotiation.
  exists Examples.token_granted. do 5 eexists. repeat split; reflexivity.
Defined.

Lemma video_play_rejected_reaches_negotiation :
  RA_reaches_negotiation (E := IntegerEngine.engine) Examples.video_play_rejected
    [Examples.mic; Examples.camera].
Proof.
  unfold RA_reaches_negotiation.
  exists Examples.token_granted. do 5 eexists. repeat split; reflexivity.
Defined.

Lemma connect_succeeds_witness :
  RA.peerConnectionRef
    (RA.refs (exec (RA.connectToOpenAI Examples.video_connects) Examples.mounted))
    = Some {| connectionState := PcNew; senders := [Examples.mic; Examples.camera] |} /\
  RA.localAudioStreamRef
    (RA.refs (exec (RA.connectToOpenAI Examples.video_connects) Examples.mounted))
    = Some [Examples.mic] /\
  RA.localVideoStreamRef
    (RA.refs (exec (RA.connectToOpenAI Examples.video_connects) Examples.mounted))
    = Some [Examples.camera] /\
  exists r,
    RA.render (exec (RA.connectToOpenAI Examples.video_connects) Examples.mounted)
      = Normal r /\
    RA.isConnected (RA.state r) = true.
Proof.
  destruct (connect_succeeds (E := IntegerEngine.engine)
              Examples.mounted Examples.video_connects [Examples.mic; Examples.camera]
              {| srcObject := None |} I video_connects_reaches_negotiation
              eq_refl eq_refl eq_refl eq_refl)
    as (_ & Hpc & _ & Hla & Hlv & _ & _ & _ & _ & r & Hr & Hc & _).
  repeat split; try assumption. exists r. split; assumption.
Defined.

Lemma connect_survives_play_failure_witness :
  RA.stopped (exec (RA.connectToOpenAI Examples.video_play_rejected) Examples.mounted)
    = [2%nat] /\
  exists r,
    RA.render (exec (RA.connectToOpenAI Examples.video_play_rejected) Examples.mounted)
      = Normal r /\
    RA.isConnected (RA.state r) = true /\
    RA.videoError (RA.state r) = Some "The play() request was interrupted"%string /\
    RA.isVideoEnabled (RA.state r) = true.
Proof.
  destruct (connect_survives_play_failure (E := IntegerEngine.engine)
              Examples.mounted Examples.video_play_rejected [Examples.mic; Examples.camera]
              {| srcObject := None |} _ I video_play_rejected_reaches_negotiation
              eq_refl eq_refl eq_refl eq_refl)
    as (_ & _ & _ & Hstp & _ & Hr).
  split; [exact Hstp | exact Hr].
Defined.

Lemma connect_then_disconnect_releases_everything_witness :
  all_stopped [Examples.mic; Examples.camera]
    (RA.stopped (exec RA.disconnectFromOpenAI
                   (exec (RA.connectToOpenAI Examples.video_connects) Examples.mounted))) /\
  RA_is_disconnected
    (exec RA.disconnectFromOpenAI
       (exec (RA.connectToOpenAI Examples.video_connects) Examples.mounted)).
Proof.
  destruct (connect_then_disconnect_releases_everything (E := IntegerEngine.engine)
              Examples.mounted Examples.video_connects [Examples.mic; Examples.camera]
              {| srcObject := None |} I video_connects_reaches_negotiation
              eq_refl eq_refl eq_refl eq_refl)
    as (H1 & H2 & _).
  split; assumption.
Defined.

Lemma connect_always_settles_witness :
  exists r,
    RA.render (exec (RA.connectToOpenAI Examples.video_offer_refused) Examples.mounted)
      = Normal r /\
    RA.transcription (RA.state r) = Str "" /\
    RA.responseText (RA.state r) = Str "".
Proof.
  destruct (connect_always_settles (E := IntegerEngine.engine)
              Examples.mounted Examples.video_offer_refused I eq_refl)
    as (_ & _ & r & Hr & Ht & Hrt & _).
  exists r. repeat split; assumption.
Defined.

(** ** More on the scene description *)

Section SceneMore.
Context {E : JS.Engine}.

(** A scene description asked for while connected but without a camera
    stream shown in the video element: one alert, the video error is set,
    and nothing else happens: no request, nothing sent. *)
Theorem scene_description_needs_video (c : RA.Component) (env : RA.SceneEnv) :
  RA.isConnected (RA.state c) = true ->
  RA_video_missing c ->
  RA.requestSceneDescription env c =
  (Normal tt,
   {| RA.state := RA.state c; RA.refs := RA.refs c;
      RA.pending := RA.pending c
                    ++ [RA.SetVideoError (Some "Video stream not available to capture frame.")];
      RA.stopped := RA.stopped c;
      RA.trace := RA.trace c ++ [Alert "Video stream not available."] |}).
Proof.
  intros Hc Hm. unfold RA.requestSceneDescription. unfold bind at 1, read at 1. rewrite Hc.
  cbv [negb]. unfold bind at 1, read at 1. unfold bind at 1, read at 1.
  assert (Hg : (match RA.localVideoStreamRef (RA.refs c) with
                | Some _ => false | None => true end
                || match RA.videoElRef (RA.refs c) with
                   | Some v => match srcObject v with Some _ => false | None => true end
                   | None => true
                   end)%bool = true).
  { destruct Hm as [Hm|Hm].
    - now rewrite Hm.
    - apply orb_true_iff. right.
      destruct (RA.videoElRef (RA.refs c)) as [v|]; [now rewrite Hm | reflexivity]. }
  rewrite Hg. reflexivity.
Qed.

Lemma RA_scene_updates (us : list RA.StateUpdate) :
  Forall RA_scene_update us ->
  forall st, exists st',
    RA.apply_updates st us = Normal st' /\
    RA.transcription st' = RA.transcription st /\
    RA.isConnected st' = RA.isConnected st.
Proof.
  induction 1 as [|u us Hu _ IH]; intros st; cbn [RA.apply_updates].
  - exists st. repeat split.
  - destruct u as [b|[v|m]|[v|m]|v|b|e|b]; cbn in Hu; try contradiction;
      cbn [RA.apply_update RA.next cbind];
      match goal with |- context [RA.apply_updates ?st1 us] =>
        destruct (IH st1) as (st' & Hrun & Ht & Hc)
      end; exists st'; cbn in *; repeat split; assumption.
Qed.

Ltac close_scene_run H :=
  cbv -[app map filter message_of String.append] in H; injection H as <- <-;
  do 3 eexists; split; [reflexivity|];
  cbn [RA.state RA.trace RA.pending RA.refs RA.stopped];
  split; [rewrite <- ?app_assoc; cbn [app];
          first [reflexivity | symmetry; apply app_nil_r]|];
  unfold alerts, sent, requests; rewrite ?filter_app;
  cbn [filter is_alert is_send is_request]; rewrite ?app_nil_r, ?length_app; cbn [length];
  repeat split; auto; try lia; repeat constructor.

(** The [try] block of [requestSceneDescription], whatever the platform
    answers. *)
Lemma RA_request_try_any (c : RA.Component) (env : RA.SceneEnv) :
  exists res s' us,
    RA.requestSceneDescription_try env c = (res, s') /\
    RA.pending s' = RA.pending c ++ us /\
    RA.state s' = RA.state c /\ RA.refs s' = RA.refs c /\ RA.stopped s' = RA.stopped c /\
    alerts (RA.trace s') = alerts (RA.trace c) /\
    (length (requests (RA.trace s')) <= length (requests (RA.trace c)) + 1)%nat /\
    Forall RA_scene_update us.
Proof.
  destruct c as [st [pc0 dc0 el0 la0 lv0] pend stp tr0].
  destruct env as [size size' ctx cap resp].
  destruct (RA.requestSceneDescription_try _ _) as [res s'] eqn:Hrun.
  cbv -[get to_string truthy or_else new_Error app map filter In message_of
        RA.no_dimensions is_open] in Hrun.
  destruct (RA.no_dimensions size);
    [destruct (RA.no_dimensions size'); [close_scene_run Hrun|]|].
  all: destruct ctx; cbv beta iota in Hrun; [|close_scene_run Hrun].
  all: destruct cap as [url|e]; cbv beta iota in Hrun; [|close_scene_run Hrun].
  all: destruct resp as [[r_ok r_status r_json r_text]|e]; cbv beta iota in Hrun;
    [|close_scene_run Hrun].
  all: destruct r_ok; cbv beta iota in Hrun; [|split_run Hrun; close_scene_run Hrun].
  all: destruct r_json as [result|e]; cbv beta iota in Hrun; [|close_scene_run Hrun].
  all: destruct (get result "description") as [d|e]; cbv beta iota in Hrun;
    [|close_scene_run Hrun].
  all: destruct (truthy d); cbv beta iota in Hrun; [|close_scene_run Hrun].
  all: destruct dc0 as [dc|]; [destruct (is_open dc)|]; close_scene_run Hrun.
Qed.

Lemma RA_request_capture_failure (c : RA.Component) (env : RA.SceneEnv) :
  capture_fails env ->
  requests (RA.trace (snd (RA.requestSceneDescription_try env c))) = requests (RA.trace c).
Proof.
  intros Hfail.
  destruct c as [st rf pend stp tr0].
  destruct env as [size size' ctx cap resp].
  unfold capture_fails in Hfail. cbn in Hfail.
  cbv [RA.requestSceneDescription_try bind lift throw ret read modify
       RA.emit RA.enqueue RA.video_size RA.video_size_after_wait RA.canvas_context
       RA.capture RA.describe_response negb
       RA.state RA.refs RA.pending RA.stopped RA.trace].
  destruct (RA.no_dimensions size) eqn:Hs;
    [destruct (RA.no_dimensions size') eqn:Hs'; [reflexivity|]|].
  all: destruct ctx; [|reflexivity].
  all: destruct cap as [url|ce]; [|reflexivity].
  all: exfalso; cbn in Hfail; intuition (try discriminate; try congruence).
Qed.

(** The function past its guards, whatever the platform answers, and the
    state of the next render. *)
Lemma RA_request_settles (c : RA.Component) (env : RA.SceneEnv) :
  RA.isConnected (RA.state c) = true ->
  RA_video_available c ->
  RA.pending c = [] ->
  outcome (RA.requestSceneDescription env) c = Normal tt /\
  RA.refs (exec (RA.requestSceneDescription env) c) = RA.refs c /\
  RA.stopped (exec (RA.requestSceneDescription env) c) = RA.stopped c /\
  alerts (RA.trace (exec (RA.requestSceneDescription env) c)) = alerts (RA.trace c) /\
  (length (requests (RA.trace (exec (RA.requestSceneDescription env) c)))
   <= length (requests (RA.trace c)) + 1)%nat /\
  (capture_fails env ->
   requests (RA.trace (exec (RA.requestSceneDescription env) c)) = requests (RA.trace c)) /\
  exists r,
    RA.render (exec (RA.requestSceneDescription env) c) = Normal r /\
    RA.isProcessingScene (RA.state r) = false /\
    RA.transcription (RA.state r) = RA.transcription (RA.state c) /\
    RA.isConnected (RA.state r) = true.
Proof.
  intros Hc Hv Hp. unfold outcome, exec.
  rewrite (RA_request_unfold c env Hc Hv).
  match goal with |- context [RA.requestSceneDescription_try env ?c1] =>
    pose proof (RA_request_capture_failure c1 env) as Hcap;
    destruct (RA_request_try_any c1 env)
      as (res & s' & us & Hrun & Hpe & Hst & Hrf & Hstp & Hal & Hrq & Hus)
  end.
  rewrite Hrun in *. cbn [RA.state RA.refs RA.pending RA.stopped RA.trace snd] in *.
  rewrite Hp in Hpe. cbn [app] in Hpe.
  assert (Hrender : forall tail,
            Forall RA_scene_update tail ->
            exists st',
              RA.apply_updates (RA.state c) (RA.pending s' ++ tail) = Normal st' /\
              RA.transcription st' = RA.transcription (RA.state c) /\
              RA.isConnected st' = RA.isConnected (RA.state c)).
  { intros tail Htail. rewrite Hpe.
    apply (RA_scene_updates
             ((RA.SetIsProcessingScene true
               :: RA.SetSceneDescription (Str "Capturing frame and analyzing scene...")
               :: RA.SetVideoError None :: us) ++ tail)).
    apply Forall_app. split; [|assumption]. repeat constructor. assumption. }
  destruct res as [[]|e]; cbn [fst snd RA.state RA.refs RA.pending RA.stopped RA.trace].
  - repeat (split; [assumption || reflexivity|]).
    destruct (Hrender [RA.SetIsProcessingScene false]) as (st' & Hrun' & Ht & Hcn);
      [repeat constructor|].
    unfold RA.render. cbn [RA.state RA.refs RA.pending RA.stopped RA.trace].
    rewrite Hst. rewrite Hrun'. cbn [cbind]. eexists. split; [reflexivity|].
    cbn [RA.state]. split; [|split; [assumption | congruence]].
    revert Hrun'. rewrite RA_apply_updates_app.
    destruct (RA.apply_updates (RA.state c) (RA.pending s')) as [st1|]; [|discriminate].
    cbn. intros H; injection H as <-. reflexivity.
  - split; [reflexivity|]. split; [assumption|]. split; [assumption|].
    split. { unfold alerts in *. rewrite filter_app, Hal. cbn. apply app_nil_r. }
    split. { unfold requests in *. rewrite filter_app. cbn. now rewrite app_nil_r. }
    split. { intros Hf. unfold requests in *. rewrite filter_app. cbn.
             rewrite app_nil_r. auto. }
    destruct (Hrender
                [RA.SetSceneDescription (Str ("Error: " ++ message_of e)%string);
                 RA.SetVideoError (Some ("Error during scene analysis: " ++ message_of e)%string);
                 RA.SetIsProcessingScene false]) as (st' & Hrun' & Ht & Hcn);
      [repeat constructor|].
    unfold RA.render. cbn [RA.state RA.refs RA.pending RA.stopped RA.trace].
    rewrite Hst, <- !app_assoc. cbn [app]. rewrite Hrun'. cbn [cbind].
    eexists. split; [reflexivity|].
    cbn [RA.state]. split; [|split; [assumption | congruence]].
    revert Hrun'. rewrite RA_apply_updates_app.
    destruct (RA.apply_updates (RA.state c) (RA.pending s')) as [st1|]; [|discriminate].
    cbn. intros H; injection H as <-. reflexivity.
Qed.

Ltac close_rendered H Hc :=
  solve [injection H as <- <-; unfold RA.render; cbn; rewrite ?Hc;
         eexists; repeat split; auto].

(** A scene description that goes through has no failure, and one
    description. *)
Lemma describes_no_failure (env : RA.SceneEnv) (D : value) :
  describes env D -> scene_failure env = None.
Proof.
  intros (Hdim & Hctx & (url & Hcap) & response & result & Hresp & Hok & Hjson & Hget & Htr).
  unfold scene_failure. rewrite Hctx, Hcap, Hresp, Hjson, Hok, Hget, Htr.
  destruct Hdim as [-> | ->]; [reflexivity | now rewrite andb_false_r].
Qed.

Lemma describes_unique (env : RA.SceneEnv) (D D' : value) :
  describes env D -> describes env D' -> D' = D.
Proof.
  intros (_ & _ & _ & response & result & Hresp & _ & Hjson & Hget & _)
         (_ & _ & _ & response' & result' & Hresp' & _ & Hjson' & Hget' & _).
  congruence.
Qed.

(** The render after a scene description past its guards: the state it
    leaves, whatever the platform answers. *)
Lemma RA_request_rendered (c : RA.Component) (env : RA.SceneEnv) :
  RA.isConnected (RA.state c) = true ->
  RA_video_available c ->
  RA.pending c = [] ->
  exists r,
    RA.render (exec (RA.requestSceneDescription env) c) = Normal r /\
    RA.isProcessingScene (RA.state r) = false /\
    RA.transcription (RA.state r) = RA.transcription (RA.state c) /\
    RA.isConnected (RA.state r) = true /\
    (RA.responseText (RA.state r) = RA.responseText (RA.state c) \/
     RA.responseText (RA.state r) = Str "") /\
    match scene_failure env with
    | Some message => RA.sceneDescription (RA.state r) = Str ("Error: " ++ message)
    | None => describes env (RA.sceneDescription (RA.state r))
    end.
Proof.
  intros Hc Hv Hp. unfold exec. rewrite (RA_request_unfold c env Hc Hv).
  destruct c as [st [pc0 dc0 el0 la0 lv0] pend stp tr0]. cbn in Hp, Hc. subst pend.
  destruct env as [size size' ctx cap resp].
  unfold scene_failure, describes.
  cbn [RA.video_size RA.video_size_after_wait RA.canvas_context RA.capture
       RA.describe_response RA.state RA.refs RA.pending RA.stopped RA.trace app].
  destruct (RA.requestSceneDescription_try _ _) as [res s'] eqn:Hrun.
  cbv -[get to_string truthy or_else app map filter In message_of
        RA.no_dimensions is_open String.append] in Hrun.
  destruct (RA.no_dimensions size) eqn:Hs;
    [destruct (RA.no_dimensions size') eqn:Hs'|]; cbn [andb negb];
    cbv beta iota in Hrun; try close_rendered Hrun Hc.
  all: destruct ctx; cbn [negb]; cbv beta iota in Hrun; try close_rendered Hrun Hc.
  all: destruct cap as [url|e]; cbv beta iota in Hrun; try close_rendered Hrun Hc.
  all: destruct resp as [[r_ok r_status r_json r_text]|e]; cbn [ok json];
    cbv beta iota in Hrun; try close_rendered Hrun Hc.
  all: destruct r_json as [body|e]; destruct r_ok; cbv beta iota in Hrun;
    try close_rendered Hrun Hc.
  all: match type of Hrun with
       | context [get ?b "error"] =>
           destruct (get b "error") as [err|e]; cbv beta iota in Hrun;
           [destruct (to_string (or_else err (Str "Failed to get scene description")))
              as [m|e]; cbv beta iota in Hrun|];
           close_rendered Hrun Hc
       | _ => idtac
       end.
  all: match type of Hrun with
       | context [get ?b "description"] =>
           destruct (get b "description") as [d|e] eqn:Hget; cbv beta iota in Hrun
       end; try close_rendered Hrun Hc.
  all: destruct (truthy d) eqn:Htr; cbv beta iota in Hrun; try close_rendered Hrun Hc.
  all: destruct dc0 as [dc|]; [destruct (is_open dc)|]; cbv beta iota in Hrun;
    injection Hrun as <- <-; unfold RA.render; cbn; rewrite ?Hc;
    eexists; (split; [reflexivity|]); cbn;
    repeat (split; [auto; fail|]).
  all: (split; [eauto|]); do 2 eexists; repeat split; eauto.
Qed.

(** A scene description past its guards settles, whatever the platform
    answers: it never throws, makes at most one request (none when the
    capture fails), alerts nothing, touches no ref and stops no track.  The
    render that follows goes through, with the processing flag off and the
    transcription and the connection flag as they were, unless the route
    answers with a description that is not showable (a plain object): then
    the render throws. *)
Theorem scene_description_always_settles (c : RA.Component) (env : RA.SceneEnv) :
  RA.isConnected (RA.state c) = true ->
  RA_video_available c ->
  RA.pending c = [] ->
  RA_shown c ->
  outcome (RA.requestSceneDescription env) c = Normal tt /\
  RA.refs (exec (RA.requestSceneDescription env) c) = RA.refs c /\
  RA.stopped (exec (RA.requestSceneDescription env) c) = RA.stopped c /\
  alerts (RA.trace (exec (RA.requestSceneDescription env) c)) = alerts (RA.trace c) /\
  (length (requests (RA.trace (exec (RA.requestSceneDescription env) c)))
   <= length (requests (RA.trace c)) + 1)%nat /\
  (capture_fails env ->
   requests (RA.trace (exec (RA.requestSceneDescription env) c)) = requests (RA.trace c)) /\
  ((forall D, describes env D -> valid_child D = true) ->
   exists r,
     RA.rerender (exec (RA.requestSceneDescription env) c) = Normal r /\
     RA.isProcessingScene (RA.state r) = false /\
     RA.transcription (RA.state r) = RA.transcription (RA.state c) /\
     RA.isConnected (RA.state r) = true) /\
  (forall D, describes env D -> valid_child D = false ->
   is_throw (RA.rerender (exec (RA.requestSceneDescription env) c)) = true).
Proof.
  intros Hc Hv Hp Hsh.
  destruct (RA_request_settles c env Hc Hv Hp) as (H1 & H2 & H3 & H4 & H5 & H6 & _).
  repeat (split; [assumption|]).
  destruct (RA_request_rendered c env Hc Hv Hp) as (r & Hr & Hps & Ht & Hcn & Hrt & Hsd).
  apply RA_shown_valid in Hsh. unfold RA_texts_valid in Hsh.
  apply andb_true_iff in Hsh as [Hsh Hrv]. apply andb_true_iff in Hsh as [_ Htv].
  assert (Hrv' : valid_child (RA.responseText (RA.state r)) = true).
  { destruct Hrt as [-> | ->]; [assumption | reflexivity]. }
  split.
  - intros Hall. exists r. split; [|auto].
    apply (RA_rerender_taken _ _ Hr). unfold RA_texts_valid. rewrite Ht, Htv, Hrv'.
    destruct (scene_failure env); [now rewrite Hsd | now rewrite (Hall _ Hsd)].
  - intros D HD Hbad. apply (RA_rerender_refused _ _ Hr).
    rewrite (describes_no_failure _ _ HD) in Hsd.
    unfold RA_texts_valid. now rewrite (describes_unique _ _ _ HD Hsd), Hbad.
Qed.

(** A scene description that succeeds while the data channel is missing or
    not open: the description is shown, nothing is sent, and the response
    text is not cleared. *)
Theorem scene_description_without_channel (c : RA.Component) (env : RA.SceneEnv)
    (D : value) :
  RA.isConnected (RA.state c) = true ->
  RA_video_available c ->
  RA_channel_closed c ->
  describes env D ->
  RA.pending c = [] ->
  sent (RA.trace (exec (RA.requestSceneDescription env) c)) = sent (RA.trace c) /\
  exists r,
    RA.render (exec (RA.requestSceneDescription env) c) = Normal r /\
    RA.sceneDescription (RA.state r) = D /\
    RA.responseText (RA.state r) = RA.responseText (RA.state c) /\
    RA.videoError (RA.state r) = None.
Proof.
  intros Hc Hv Hclosed
    (Hdim & Hctx & (url & Hcap) & response & result & Hresp & Hok & Hjson & Hget & Htr) Hp.
  unfold exec. rewrite (RA_request_unfold c env Hc Hv).
  unfold RA_channel_closed in Hclosed.
  destruct c as [st [pc0 dc0 el0 la0 lv0] pend stp tr0].
  destruct env as [size size' ctx cap resp].
  destruct response as [r_ok r_status r_json r_text].
  cbn in Hdim, Hctx, Hcap, Hresp, Hok, Hjson, Hp, Hclosed. subst.
  cbv [RA.requestSceneDescription_try RA.speakText bind lift throw ret read modify
       RA.emit RA.enqueue RA.video_size RA.video_size_after_wait RA.canvas_context
       RA.capture RA.describe_response ok json negb
       RA.state RA.refs RA.pending RA.stopped RA.trace RA.dataChannelRef].
  assert (Hopen : match dc0 with Some d => is_open d | None => false end = false).
  { destruct dc0; auto. }
  destruct (RA.no_dimensions size); [destruct (RA.no_dimensions size'); [|]|];
    try (destruct Hdim; discriminate);
    rewrite Hget; cbv beta iota; rewrite Htr, Hopen; cbn [snd RA.trace];
    (split; [unfold sent; rewrite !filter_app; cbn; now rewrite !app_nil_r|]);
    unfold RA.render; cbn; eexists; repeat split.
Qed.

End SceneMore.

Lemma scene_description_needs_video_witness :
  alerts (RA.trace (exec (RA.requestSceneDescription Examples.red_chair) Examples.listening))
    = [Alert "Video stream not available."] /\
  requests (RA.trace (exec (RA.requestSceneDescription Examples.red_chair)
                        Examples.listening)) = [] /\
  sent (RA.trace (exec (RA.requestSceneDescription Examples.red_chair) Examples.listening))
    = [].
Proof.
  assert (Hm : RA_video_missing (E := IntegerEngine.engine) Examples.listening).
  { left. reflexivity. }
  pose proof (scene_description_needs_video (E := IntegerEngine.engine)
                Examples.listening Examples.red_chair eq_refl Hm) as Hrun.
  unfold exec. rewrite Hrun. repeat split.
Defined.

Lemma scene_description_always_settles_witness :
  (exists r,
     RA.rerender (exec (RA.requestSceneDescription Examples.route_fails) Examples.connected)
       = Normal r /\
     RA.isProcessingScene (RA.state r) = false /\
     RA.transcription (RA.state r) = Str "partial") /\
  is_throw (RA.rerender (exec (RA.requestSceneDescription Examples.red_chair_object)
                           Examples.connected)) = true.
Proof.
  assert (Hv : RA_video_available (E := IntegerEngine.engine) Examples.connected).
  { exists [Examples.camera], {| srcObject := Some [Examples.camera] |}, [Examples.camera].
    repeat split. }
  split.
  - destruct (scene_description_always_settles (E := IntegerEngine.engine)
                Examples.connected Examples.route_fails eq_refl Hv eq_refl eq_refl)
      as (_ & _ & _ & _ & _ & _ & Hgood & _).
    destruct Hgood as (r & Hr & Hp & Ht & _).
    + intros D (_ & _ & _ & response & result & Hresp & Hok & _).
      injection Hresp as <-. discriminate.
    + exists r. repeat split; assumption.
  - destruct (scene_description_always_settles (E := IntegerEngine.engine)
                Examples.connected Examples.red_chair_object eq_refl Hv eq_refl eq_refl)
      as (_ & _ & _ & _ & _ & _ & _ & Hbad).
    apply (Hbad (Obj [("text", Str "A red chair")])); [|reflexivity].
    split; [left; reflexivity|]. split; [reflexivity|]. split; [eexists; reflexivity|].
    exists Examples.described_by_object. eexists. repeat split.
Defined.

Lemma scene_description_without_channel_witness :
  sent (RA.trace (exec (RA.requestSceneDescription Examples.red_chair)
                    Examples.connected_channel_opening)) = [] /\
  exists r,
    RA.render (exec (RA.requestSceneDescription Examples.red_chair)
                 Examples.connected_channel_opening) = Normal r /\
    RA.sceneDescription (RA.state r) = Str "A red chair" /\
    RA.responseText (RA.state r) = Str "Hello".
Proof.
  assert (Hv : RA_video_available (E := IntegerEngine.engine)
                 Examples.connected_channel_opening).
  { exists [Examples.camera], {| srcObject := Some [Examples.camera] |}, [Examples.camera].
    repeat split. }
  assert (Hd : describes (E := IntegerEngine.engine) Examples.red_chair (Str "A red chair")).
  { split; [left; reflexivity|]. split; [reflexivity|]. split; [eexists; reflexivity|].
    exists (Examples.described "A red chair"). eexists. repeat split. }
  destruct (scene_description_without_channel (E := IntegerEngine.engine)
              Examples.connected_channel_opening Examples.red_chair (Str "A red chair")
              eq_refl Hv eq_refl Hd eq_refl)
    as (Hsent & r & Hr & Hs & Hrt & _).
  split; [exact Hsent|]. exists r. repeat split; assumption.
Defined.

(** ** Unmounting, and the webcam component *)

Section Unmount.
Context {E : JS.Engine}.

(** Unmounting the component of [RealtimeAssistant.tsx]: every held track
    is stopped, the connection and the channel are dropped, the component is
    disconnected, and an audio element that is in the document is removed. *)
Theorem unmount_releases_everything (p : RA.Page) (r : RA.Component) :
  RA.render (RA.component p) = Normal r ->
  all_stopped (RA_held_tracks (RA.component p)) (RA.stopped (RA.component (RA.unmount p))) /\
  RA_is_disconnected (RA.component (RA.unmount p)) /\
  sent (RA.trace (RA.component (RA.unmount p))) = sent (RA.trace (RA.component p)) /\
  (forall el, RA.audioElRef p = Some el -> in_document el = true ->
     RA.audioElRef (RA.unmount p) = None).
Proof.
  intros Hr.
  set (c0 := {| RA.state := RA.state (RA.component p);
                RA.refs := RA.with_videoEl None (RA.refs (RA.component p));
                RA.pending := RA.pending (RA.component p);
                RA.stopped := RA.stopped (RA.component p);
                RA.trace := RA.trace (RA.component p) |}).
  assert (H0 : exec (RA.set_refs (RA.with_videoEl None) ;; RA.disconnectFromOpenAI)
                 (RA.component p) = RA_disconnected c0).
  { unfold exec.
    change ((RA.set_refs (RA.with_videoEl None) ;; RA.disconnectFromOpenAI) (RA.component p))
      with (RA.disconnectFromOpenAI c0).
    now rewrite RA_disconnect. }
  assert (Hu : RA.component (RA.unmount p) = RA_disconnected c0).
  { unfold RA.unmount. cbn [RA.component]. rewrite H0. reflexivity. }
  rewrite Hu.
  assert (Hr0 : exists r0, RA.render c0 = Normal r0).
  { revert Hr. unfold RA.render. cbn [RA.state RA.pending c0].
    destruct (RA.apply_updates _ _); [eexists; reflexivity | discriminate]. }
  destruct Hr0 as [r0 Hr0].
  destruct (RA_render_disconnected _ r0 Hr0) as (r' & Hr' & Hd).
  split.
  { unfold RA_held_tracks, RA_disconnected.
    cbn [RA.stopped RA.refs c0 RA.with_videoEl RA.localAudioStreamRef RA.localVideoStreamRef].
    intros t Hin.
    apply in_app_or in Hin. destruct Hin as [Hin|Hin].
    - apply in_or_app; left. apply in_or_app; right.
      destruct (RA.localAudioStreamRef (RA.refs (RA.component p)));
        [now apply in_map | contradiction].
    - apply in_or_app; right.
      destruct (RA.localVideoStreamRef (RA.refs (RA.component p)));
        [now apply in_map | contradiction]. }
  split; [unfold RA_is_disconnected; eauto 10|].
  split.
  { unfold RA_disconnected, sent.
    cbn [RA.trace RA.refs c0 RA.with_videoEl RA.peerConnectionRef RA.dataChannelRef].
    rewrite !filter_app.
    destruct (RA.peerConnectionRef (RA.refs (RA.component p))),
             (RA.dataChannelRef (RA.refs (RA.component p)));
      cbn [filter is_send app]; rewrite ?app_nil_r; reflexivity. }
  intros el Hel Hin. unfold RA.unmount. cbn [RA.audioElRef]. now rewrite Hel, Hin.
Qed.

(** Unmounting the audio-only component, its audio element in the document
    as the mount effect leaves it: the held tracks are stopped and the
    connection is closed, nothing is sent and the audio element is dropped;
    but the refs keep the stream, the channel and the closed connection. *)
Theorem audio_unmount_stops_tracks_keeps_refs (p : AA.Page) :
  match AA.audioElRef p with Some el => in_document el = true | None => True end ->
  exists p',
    AA.unmount p = Normal p' /\
    all_stopped (AA_held_tracks (AA.component p)) (AA.stopped (AA.component p')) /\
    AA.localStreamRef (AA.refs (AA.component p'))
      = AA.localStreamRef (AA.refs (AA.component p)) /\
    AA.dataChannelRef (AA.refs (AA.component p'))
      = AA.dataChannelRef (AA.refs (AA.component p)) /\
    AA.peerConnectionRef (AA.refs (AA.component p'))
      = option_map pc_close (AA.peerConnectionRef (AA.refs (AA.component p))) /\
    AA.pending (AA.component p') = AA.pending (AA.component p) /\
    sent (AA.trace (AA.component p')) = sent (AA.trace (AA.component p)) /\
    AA.audioElRef p' = None.
Proof.
  destruct p as [[st [pc dc ls] pend stp tr] audio]. unfold AA.unmount.
  cbn [AA.component AA.audioElRef].
  destruct audio as [[ap ind src]|]; cbn [in_document]; [intros ->|intros _];
    eexists; (split; [reflexivity|]);
    destruct pc, ls; cbv -[app map filter In track_id]; unfold sent;
    rewrite ?filter_app; cbn [filter is_send]; rewrite ?app_nil_r;
    repeat split; auto; intros t Hin; try contradiction;
    apply in_or_app; right; now apply in_map.
Qed.

(** The webcam cannot be had: the fixed message is shown, the component
    does not stream, and the video element is left alone. *)
Theorem webcam_failure_shows_the_message (c : Webcam.Component) (e : Exn) :
  Webcam.pending c = [] ->
  outcome (Webcam.startWebcam (Throw e)) c = Normal tt /\
  Webcam.error (Webcam.state (Webcam.render (exec (Webcam.startWebcam (Throw e)) c)))
    = Some Webcam.webcam_error /\
  Webcam.isStreaming (Webcam.state (Webcam.render (exec (Webcam.startWebcam (Throw e)) c)))
    = Webcam.isStreaming (Webcam.state c) /\
  Webcam.videoRef (exec (Webcam.startWebcam (Throw e)) c) = Webcam.videoRef c /\
  Webcam.stopped (exec (Webcam.startWebcam (Throw e)) c) = Webcam.stopped c.
Proof.
  destruct c as [st el pend stp tr]. cbn [Webcam.pending]. intros ->.
  repeat split.
Qed.

(** The webcam started with the video element present: the stream is
    attached and the component streams without error.  Unmounting it then
    stops no track: the cleanup finds the ref of the video element detached,
    and the camera stays on. *)
Theorem webcam_unmount_leaves_the_camera_on (c : Webcam.Component) (el : VideoElement)
    (stream : MediaStream) :
  Webcam.videoRef c = Some el ->
  Webcam.pending c = [] ->
  Webcam.isStreaming (Webcam.state (Webcam.render (exec (Webcam.startWebcam (Normal stream)) c)))
    = true /\
  Webcam.error (Webcam.state (Webcam.render (exec (Webcam.startWebcam (Normal stream)) c)))
    = None /\
  Webcam.videoRef (exec (Webcam.startWebcam (Normal stream)) c)
    = Some {| srcObject := Some stream |} /\
  outcome Webcam.unmount (exec (Webcam.startWebcam (Normal stream)) c) = Normal tt /\
  Webcam.stopped (exec Webcam.unmount (exec (Webcam.startWebcam (Normal stream)) c))
    = Webcam.stopped c.
Proof.
  destruct c as [st v pend stp tr]. cbn [Webcam.videoRef Webcam.pending]. intros -> ->.
  repeat split.
Qed.

(** The webcam stream arriving when the video element is gone: nothing is
    attached or queued, and the cleanup stops no track. *)
Theorem webcam_without_element_keeps_the_stream (c : Webcam.Component)
    (stream : MediaStream) :
  Webcam.videoRef c = None ->
  exec (Webcam.startWebcam (Normal stream)) c = c /\
  exec Webcam.cleanup (exec (Webcam.startWebcam (Normal stream)) c) = c.
Proof.
  destruct c as [st v pend stp tr]. cbn [Webcam.videoRef]. intros ->. split; reflexivity.
Qed.

End Unmount.

Lemma unmount_releases_everything_witness :
  all_stopped [Examples.mic; Examples.camera]
    (RA.stopped (RA.component (RA.unmount Examples.connected_page))) /\
  RA_is_disconnected (RA.component (RA.unmount Examples.connected_page)) /\
  RA.audioElRef (RA.unmount Examples.connected_page) = None.
Proof.
  destruct (unmount_releases_everything (E := IntegerEngine.engine)
              Examples.connected_page Examples.connected eq_refl)
    as (Hs & Hd & _ & Ha).
  split; [exact Hs|]. split; [exact Hd|]. exact (Ha _ eq_refl eq_refl).
Defined.

Lemma audio_unmount_stops_tracks_keeps_refs_witness :
  exists p',
    AA.unmount Examples.connected_audio_page = Normal p' /\
    all_stopped [Examples.mic] (AA.stopped (AA.component p')) /\
    AA.localStreamRef (AA.refs (AA.component p')) = Some [Examples.mic].
Proof.
  destruct (audio_unmount_stops_tracks_keeps_refs (E := IntegerEngine.engine)
              Examples.connected_audio_page eq_refl)
    as (p' & Hrun & Hs & Hl & _).
  exists p'. repeat split; assumption.
Defined.

Lemma webcam_failure_shows_the_message_witness :
  Webcam.error
    (Webcam.state (Webcam.render
       (exec (Webcam.startWebcam (Throw (Rejection "Permission denied")))
          Examples.webcam_mounted)))
  = Some Webcam.webcam_error.
Proof.
  exact (proj1 (proj2 (webcam_failure_shows_the_message (E := IntegerEngine.engine)
                         Examples.webcam_mounted (Rejection "Permission denied") eq_refl))).
Defined.

Lemma webcam_unmount_leaves_the_camera_on_witness :
  Webcam.videoRef (exec (Webcam.startWebcam (Normal [Examples.camera])) Examples.webcam_mounted)
    = Some {| srcObject := Some [Examples.camera] |} /\
  Webcam.stopped (exec Webcam.unmount
                    (exec (Webcam.startWebcam (Normal [Examples.camera]))
                       Examples.webcam_mounted)) = [].
Proof.
  destruct (webcam_unmount_leaves_the_camera_on (E := IntegerEngine.engine)
              Examples.webcam_mounted {| srcObject := None |}
              [Examples.camera] eq_refl eq_refl)
    as (_ & _ & Hv & _ & Hs).
  split; [exact Hv | exact Hs].
Defined.

Lemma webcam_without_element_keeps_the_stream_witness :
  Webcam.stopped (exec Webcam.cleanup
                    (exec (Webcam.startWebcam (Normal [Examples.camera]))
                       Examples.webcam_unmounted)) = [].
Proof.
  exact (f_equal Webcam.stopped
           (proj2 (webcam_without_element_keeps_the_stream (E := IntegerEngine.engine)
                     Examples.webcam_unmounted [Examples.camera] eq_refl))).
Defined.

(** ** Media access *)

Section Media.
Context {E : JS.Engine}.

(** A connect in which the token is granted and [getUserMedia] is
    rejected: the offer is never sent (the token request is the only one),
    the peer connection just created is closed and dropped, no track is
    stopped, and the message of the rejection is both alerted and rendered as
    the video error, with the video disabled and the session not
    connected. *)
Theorem connect_without_media_access (c : RA.Component) (env : RA.ConnectEnv) (e : Exn) :
  RA_not_connected c ->
  RA_token_granted env ->
  RA.user_media env = Throw e ->
  RA.localVideoStreamRef (RA.refs c) = None ->
  RA.localAudioStreamRef (RA.refs c) = None ->
  RA.pending c = [] ->
  outcome (RA.connectToOpenAI env) c = Normal tt /\
  requests (RA.trace (exec (RA.connectToOpenAI env) c))
    = requests (RA.trace c) ++ [Request "/api/openai-session" Undefined] /\
  alerts (RA.trace (exec (RA.connectToOpenAI env) c))
    = alerts (RA.trace c) ++ [Alert ("Connection error: " ++ message_of e)] /\
  In ClosePeerConnection (RA.trace (exec (RA.connectToOpenAI env) c)) /\
  RA.peerConnectionRef (RA.refs (exec (RA.connectToOpenAI env) c)) = None /\
  RA.stopped (exec (RA.connectToOpenAI env) c) = RA.stopped c /\
  exists r,
    RA.render (exec (RA.connectToOpenAI env) c) = Normal r /\
    RA.videoError (RA.state r) = Some (message_of e) /\
    RA.isVideoEnabled (RA.state r) = false /\
    RA.isConnected (RA.state r) = false.
Proof.
  intros Hnc (tr & sd & cs & key & H1 & H2 & H3 & H4 & H5) Hum Hlv Hla Hp.
  unfold outcome, exec. rewrite (RA_connect_unfold c env Hnc).
  destruct c as [st [pc0 dc0 el0 la0 lv0] pend stp tr0].
  destruct env as [tok um pl co sl sr srd].
  destruct tr as [tok_ok tok_status tok_json tok_text].
  cbn in H1, H2, H3, Hum, Hlv, Hla, Hp. subst.
  cbn [RA.state RA.refs RA.pending RA.stopped RA.trace].
  destruct (RA.connectToOpenAI_try _ _) as [res s'] eqn:Hrun.
  cbv -[get to_string truthy or_else new_Error app map filter RA.add_tracks In message_of]
    in Hrun.
  rewrite H4 in Hrun. cbv beta iota in Hrun. rewrite H5 in Hrun. cbv beta iota in Hrun.
  injection Hrun as <- <-.
  rewrite RA_disconnect. unfold RA_disconnected.
  cbn [fst snd RA.state RA.refs RA.pending RA.stopped RA.trace RA.peerConnectionRef
       RA.dataChannelRef RA.localAudioStreamRef RA.localVideoStreamRef].
  split; [reflexivity|].
  unfold requests, alerts; rewrite ?filter_app.
  destruct dc0; cbn [filter is_request is_alert app]; rewrite ?app_nil_r.
  all: split; [reflexivity|]; split; [reflexivity|].
  all: split; [repeat (apply in_or_app; first [right; now left | left])|].
  all: split; [reflexivity|]; split; [reflexivity|].
  all: unfold RA.render; cbn; eexists; repeat split.
Qed.

End Media.

Lemma connect_without_media_access_witness :
  alerts (RA.trace (exec (RA.connectToOpenAI Examples.video_media_denied) Examples.mounted))
    = [Alert "Connection error: Permission denied"] /\
  exists r,
    RA.render (exec (RA.connectToOpenAI Examples.video_media_denied) Examples.mounted)
      = Normal r /\
    RA.videoError (RA.state r) = Some "Permission denied"%string /\
    RA.isVideoEnabled (RA.state r) = false /\
    RA.isConnected (RA.state r) = false.
Proof.
  assert (Ht : RA_token_granted (E := IntegerEngine.engine) Examples.video_media_denied).
  { exists Examples.token_granted. do 3 eexists. repeat split; reflexivity. }
  destruct (connect_without_media_access (E := IntegerEngine.engine)
              Examples.mounted Examples.video_media_denied _ I Ht
              eq_refl eq_refl eq_refl eq_refl)
    as (_ & _ & Ha & _ & _ & _ & Hr).
  split; [exact Ha | exact Hr].
Defined.
